(** * Soulmate Agent backend: keyword analysis, AI fallbacks and CRUD routes

    A shallow embedding of the Express server of the "soulmate" application
    (server entry file, [server/routes/assistant.js] with the profile router
    that follows it, and [server/database/postgres.js]) together with the
    properties its specification states about them. *)

From Stdlib Require Import String Ascii DecimalString.
From Stdlib Require Import List ZArith NArith QArith Qround Lia Bool.
From Stdlib Require Import Sorted Permutation.
Import ListNotations.
Local Open Scope list_scope.

Set Implicit Arguments.

(* ===================================================================== *)
(** * JavaScript strings *)
(* ===================================================================== *)

(** A JavaScript string is a sequence of UTF-16 code units. *)
Definition jsstring := list N.

(** The string literals of the source are written here as UTF-8 text and
    turned into code units: one unit per character of the Basic
    Multilingual Plane, a surrogate pair for the others. *)
Fixpoint utf16_of_utf8 (bs : list N) : jsstring :=
  match bs with
  | [] => []
  | b0 :: r0 =>
    if (b0 <? 128)%N then b0 :: utf16_of_utf8 r0
    else
      match r0 with
      | [] => [65533%N]
      | b1 :: r1 =>
        if (b0 <? 224)%N
        then ((b0 mod 32) * 64 + b1 mod 64)%N :: utf16_of_utf8 r1
        else
          match r1 with
          | [] => [65533%N]
          | b2 :: r2 =>
            if (b0 <? 240)%N
            then ((b0 mod 16) * 4096 + (b1 mod 64) * 64 + b2 mod 64)%N
                 :: utf16_of_utf8 r2
            else
              match r2 with
              | [] => [65533%N]
              | b3 :: r3 =>
                let cp := ((b0 mod 8) * 262144 + (b1 mod 64) * 4096
                           + (b2 mod 64) * 64 + b3 mod 64)%N in
                let c := (cp - 65536)%N in
                (55296 + c / 1024)%N :: (56320 + c mod 1024)%N
                :: utf16_of_utf8 r3
              end
          end
      end
  end.

Definition js (s : string) : jsstring :=
  utf16_of_utf8 (map N_of_ascii (list_ascii_of_string s)).

(** The same, with a backquote standing for a double quote, which the
    template literals of the source hold and a literal here cannot. *)
Definition jsq (s : string) : jsstring :=
  map (fun c => if (c =? 96)%N then 34%N else c) (js s).

(** [s.startsWith(p)] at position 0. *)
Fixpoint startsWith (s p : jsstring) {struct p} : bool :=
  match p, s with
  | [], _ => true
  | _ :: _, [] => false
  | c :: p', d :: s' => (c =? d)%N && startsWith s' p'
  end.

(** [s.includes(sub)]: [sub] occurs in [s] at some position. *)
Fixpoint includes (s sub : jsstring) : bool :=
  startsWith s sub ||
  match s with
  | [] => false
  | _ :: t => includes t sub
  end.

(** [sub] is a substring of [s]. *)
Definition substring_of (sub s : jsstring) : Prop :=
  exists pre post, s = pre ++ sub ++ post.

(** String equality, [===] on two strings. *)
Definition str_eqb (a b : jsstring) : bool :=
  if list_eq_dec N.eq_dec a b then true else false.

(* ===================================================================== *)
(** * Server entry file: sentiment and keyword helpers *)
(* ===================================================================== *)

Inductive sentiment := positive | negative | neutral.

Definition positiveWords : list jsstring :=
  map js ["开心"; "快乐"; "美好"; "幸福"; "喜欢"; "爱"; "棒"; "好"]%string.

Definition negativeWords : list jsstring :=
  map js ["难过"; "伤心"; "孤独"; "失落"; "遗憾"; "痛"; "累"]%string.

(** The two [forEach] loops of [analyzeSentiment] over the running [score]. *)
Definition score_up (text : jsstring) (score : Z) (word : jsstring) : Z :=
  if includes text word then (score + 1)%Z else score.

Definition score_down (text : jsstring) (score : Z) (word : jsstring) : Z :=
  if includes text word then (score - 1)%Z else score.

Definition sentiment_score (text : jsstring) : Z :=
  let score := 0%Z in
  let score := fold_left (score_up text) positiveWords score in
  let score := fold_left (score_down text) negativeWords score in
  score.

Definition analyzeSentiment (text : jsstring) : sentiment :=
  let score := sentiment_score text in
  if (score >? 0)%Z then positive
  else if (score <? 0)%Z then negative
  else neutral.

Definition interestWords : list jsstring :=
  map js ["音乐"; "电影"; "书"; "旅行"; "美食"; "运动"; "科技"; "艺术";
          "哲学"; "摄影"]%string.

(** [extractKeywords]: the interest words found, in dictionary order, at
    most five. *)
Definition extractKeywords (text : jsstring) : list jsstring :=
  let keywords :=
    fold_left (fun keywords word =>
                 if includes text word then keywords ++ [word] else keywords)
              interestWords [] in
  firstn 5 keywords.


(* ===================================================================== *)
(** * JavaScript values *)
(* ===================================================================== *)

(** The values that reach the server as JSON: request bodies parsed by
    [express.json] and what [JSON.parse] makes of a model reply, with
    [undefined] for what is absent. Numbers are kept exact. An object is the
    list of its own properties in insertion order. *)
#[warnings="-register-all"]
Inductive jsval :=
| JUndefined
| JNull
| JBool (b : bool)
| JNum (q : Q)
| JStr (s : jsstring)
| JArr (items : list jsval)
| JObj (fields : list (jsstring * jsval)).

(** ToBoolean: what [!v], [v || d] and [if (v)] look at. *)
Definition truthy (v : jsval) : bool :=
  match v with
  | JUndefined | JNull => false
  | JBool b => b
  | JNum q => negb (Qeq_bool q 0)
  | JStr s => match s with [] => false | _ => true end
  | JArr _ | JObj _ => true
  end.

(** [a || b]. *)
Definition js_or (a b : jsval) : jsval := if truthy a then a else b.

(** Own property of an object; a key given twice keeps its last value. *)
Fixpoint lookup_field (key : jsstring) (fields : list (jsstring * jsval))
  : option jsval :=
  match fields with
  | [] => None
  | (k, v) :: rest =>
    match lookup_field key rest with
    | Some w => Some w
    | None => if str_eqb k key then Some v else None
    end
  end.

Definition has_own (key : jsstring) (fields : list (jsstring * jsval)) : bool :=
  match lookup_field key fields with Some _ => true | None => false end.

(** [v.key] for the property names the routes read ([content], [topics],
    [tips], [category], [question], [interests], ...): none of them lives on
    a prototype, so a value that is not an object, or an object without the
    key, gives [undefined]. Reading a property of [null] or [undefined]
    throws a TypeError: [None]. *)
Definition get_prop (v : jsval) (key : jsstring) : option jsval :=
  match v with
  | JUndefined | JNull => None
  | JObj fields =>
    Some (match lookup_field key fields with Some w => w | None => JUndefined end)
  | _ => Some JUndefined
  end.

(** [v?.key]. *)
Definition get_prop_opt (v : jsval) (key : jsstring) : jsval :=
  match get_prop v key with Some w => w | None => JUndefined end.

Definition isArray (v : jsval) : bool :=
  match v with JArr _ => true | _ => false end.

(** [parts.join(sep)] on strings. *)
Fixpoint join (sep : jsstring) (parts : list jsstring) : jsstring :=
  match parts with
  | [] => []
  | [p] => p
  | p :: rest => p ++ sep ++ join sep rest
  end.

(** Decimal rendering of a length or an array index. *)
Definition decimal (n : nat) : jsstring :=
  js (NilZero.string_of_uint (Nat.to_uint n)).

(* ===================================================================== *)
(** * What the platform and the outside world provide *)
(* ===================================================================== *)

(** A chat-completion request as [callAIModel] posts it. *)
Record ai_request := {
  ai_system : jsstring;
  ai_user : jsstring;
  ai_temperature : Q;
  ai_max_tokens : nat
}.

(** The library functions and the external services the routes call. They
    are not code of the repository, so every definition and theorem below
    takes them as they come.
    - [JSON_parse s] is [None] when [JSON.parse(s)] throws a SyntaxError;
    - [ai_service r] is [None] when the HTTP call fails or the reply has not
      the shape [data.choices[0].message], and otherwise the value found at
      [data.choices[0].message.content];
    - [uuid_source n] is the identifier returned by the [n]-th call of
      [uuidv4()] since the server started;
    - [bcrypt_hashSync] fixes the salt the library draws. *)
Class Platform := {
  JSON_parse : jsstring -> option jsval;
  toLowerCase : jsstring -> jsstring;
  Number_toString : Q -> jsstring;
  bcrypt_hashSync : jsstring -> nat -> jsstring;
  bcrypt_compareSync : jsstring -> jsstring -> bool;
  uuid_source : nat -> jsstring;
  ai_service : ai_request -> option jsval
}.

(* ===================================================================== *)
(** * server/database/postgres.js: tables and operations *)
(* ===================================================================== *)

Record dimension := { dim_name : jsstring; dim_score : Q }.

Record user_row := {
  u_id : jsstring;
  u_username : jsstring;
  u_password : jsstring;
  u_avatar : jsstring;
  u_bio : jsstring;
  u_created_at : Z;
  u_updated_at : Z
}.

Record profile_row := {
  p_id : jsstring;
  p_user_id : jsstring;
  p_interests : list jsstring;
  p_values : list jsstring;
  p_communication_style : jsstring;
  p_emotion_tendency : jsstring;
  p_personality_vector : list dimension;
  p_match_score : Z;
  p_ai_summary : jsstring;
  p_created_at : Z;
  p_updated_at : Z
}.

Record moment_row := {
  m_id : jsstring;
  m_user_id : jsstring;
  m_content : jsstring;
  m_content_type : jsstring;
  m_sentiment : jsstring;
  m_keywords : list jsstring;
  m_created_at : Z
}.

Record interaction_row := {
  i_id : jsstring;
  i_user_id : jsstring;
  i_target_id : jsstring;
  i_interaction_type : jsstring;
  i_content : jsstring;
  i_created_at : Z
}.

(** The four tables the modelled routes touch. A table lists its rows from
    the last inserted to the first. *)
Record database := {
  users : list user_row;
  soul_profiles : list profile_row;
  moments : list moment_row;
  interactions : list interaction_row
}.

(** The constraints of [initDatabase] an INSERT or UPDATE can violate. *)
Inductive constraint :=
| users_pkey
| users_username_key
| soul_profiles_pkey
| soul_profiles_user_id_key
| soul_profiles_user_id_fkey
| soul_profiles_match_score_integer
| moments_pkey
| moments_user_id_fkey.

(** What a [throw] carries. *)
Inductive error :=
| Error (message : jsstring)
| TypeError
| SyntaxError
| DbError (c : constraint).

(** Lines written with [console.error] and [logger.error], and marks left
    where a keyword helper or the external model is called. *)
Inductive event :=
| LogAIParseFailed (e : error)
| LogRouteFailed (e : error)
| LogAICallFailed
| CallAI (r : ai_request)
| CallAnalyzeSentiment
| CallExtractKeywords
| CallExtractInterests
| CallAnalyzeValues
| CallGeneratePersonalityVector.

(** The state a handler runs in: the database, how many identifiers
    [uuidv4] has handed out, what was logged, and the array [suggestions]
    that the handler of /suggest fills while it runs. *)
Record state := {
  st_db : database;
  st_uuids : nat;
  st_trace : list event;
  st_suggestions : list jsval
}.

(** How a piece of a handler ends: with a value, with an exception, or
    outside what the model covers (see [field_or]). *)
Inductive result (A : Type) :=
| Ok (a : A)
| Throw (e : error)
| Unmodelled.

Arguments Ok {A} a.
Arguments Throw {A} e.
Arguments Unmodelled {A}.

Definition M (A : Type) : Type := state -> result A * state.

Definition ret {A} (a : A) : M A := fun st => (Ok a, st).

Definition bind {A B} (m : M A) (k : A -> M B) : M B :=
  fun st =>
    match m st with
    | (Ok a, st') => k a st'
    | (Throw e, st') => (Throw e, st')
    | (Unmodelled, st') => (Unmodelled, st')
    end.

Definition throw {A} (e : error) : M A := fun st => (Throw e, st).

Definition unmodelled {A} : M A := fun st => (Unmodelled, st).

(** [try { m } catch (e) { handler e }]. *)
Definition try_catch {A} (m : M A) (handler : error -> M A) : M A :=
  fun st =>
    match m st with
    | (Throw e, st') => handler e st'
    | other => other
    end.

Definition emit (ev : event) : M unit :=
  fun st => (Ok tt, {| st_db := st_db st; st_uuids := st_uuids st;
                       st_trace := st_trace st ++ [ev];
                       st_suggestions := st_suggestions st |}).

Definition get_db : M database := fun st => (Ok (st_db st), st).

Definition put_db (d : database) : M unit :=
  fun st => (Ok tt, {| st_db := d; st_uuids := st_uuids st;
                       st_trace := st_trace st;
                       st_suggestions := st_suggestions st |}).

(** [let suggestions = []], [suggestions.push(s)] and reading the array. *)
Definition new_suggestions : M unit :=
  fun st => (Ok tt, {| st_db := st_db st; st_uuids := st_uuids st;
                       st_trace := st_trace st; st_suggestions := [] |}).

Definition push (s : jsval) : M unit :=
  fun st => (Ok tt, {| st_db := st_db st; st_uuids := st_uuids st;
                       st_trace := st_trace st;
                       st_suggestions := st_suggestions st ++ [s] |}).

Definition get_suggestions : M (list jsval) :=
  fun st => (Ok (st_suggestions st), st).

Definition lift_option {A} (o : option A) (e : error) : M A :=
  match o with Some a => ret a | None => throw e end.

Declare Scope monad_scope.
Delimit Scope monad_scope with monad.
Notation "x <- m ;; k" := (bind m (fun x => k))
  (at level 61, m at next level, right associativity) : monad_scope.
Notation "m ;;; k" := (bind m (fun _ => k))
  (at level 61, right associativity) : monad_scope.
Local Open Scope monad_scope.

Section Server.

Context {P : Platform}.

(** [uuidv4()]. *)
Definition uuidv4 : M jsstring :=
  fun st => (Ok (uuid_source (st_uuids st)),
             {| st_db := st_db st; st_uuids := S (st_uuids st);
                st_trace := st_trace st;
                st_suggestions := st_suggestions st |}).

(** [get(sql, params)]: [result.rows[0] || null]. *)
Definition first_row {A} (rows : list A) : option A := hd_error rows.

Definition userOperations_findById (id : jsstring) : M (option user_row) :=
  d <- get_db ;;
  ret (first_row (filter (fun u => str_eqb (u_id u) id) (users d))).

Definition userOperations_findByUsername (username : jsstring)
  : M (option user_row) :=
  d <- get_db ;;
  ret (first_row (filter (fun u => str_eqb (u_username u) username) (users d))).

(** [userOperations.create], with the primary key and the UNIQUE constraint
    of the [users] table; [now] is what [NOW()] gives. *)
Definition userOperations_create (now : Z)
    (id username password avatar bio : jsstring) : M user_row :=
  d <- get_db ;;
  if existsb (fun u => str_eqb (u_id u) id) (users d)
  then throw (DbError users_pkey)
  else if existsb (fun u => str_eqb (u_username u) username) (users d)
  then throw (DbError users_username_key)
  else
    let row := {| u_id := id; u_username := username; u_password := password;
                  u_avatar := avatar; u_bio := bio;
                  u_created_at := now; u_updated_at := now |} in
    put_db {| users := row :: users d; soul_profiles := soul_profiles d;
              moments := moments d; interactions := interactions d |} ;;;
    ret row.

Definition soulProfileOperations_findByUserId (userId : jsstring)
  : M (option profile_row) :=
  d <- get_db ;;
  ret (first_row (filter (fun p => str_eqb (p_user_id p) userId)
                         (soul_profiles d))).

(** The columns a route writes into a soul profile. [pd_match_score] is
    [None] for NaN. *)
Record profile_data := {
  pd_interests : list jsstring;
  pd_values : list jsstring;
  pd_communication_style : jsstring;
  pd_emotion_tendency : jsstring;
  pd_personality_vector : list dimension;
  pd_match_score : option Z;
  pd_ai_summary : jsstring
}.

(** [soulProfileOperations.create]: [profile.match_score || 0] turns NaN
    into 0; the table has a primary key, a foreign key to [users] and
    UNIQUE(user_id). *)
Definition soulProfileOperations_create (now : Z) (id user_id : jsstring)
    (pd : profile_data) : M profile_row :=
  d <- get_db ;;
  if existsb (fun p => str_eqb (p_id p) id) (soul_profiles d)
  then throw (DbError soul_profiles_pkey)
  else if negb (existsb (fun u => str_eqb (u_id u) user_id) (users d))
  then throw (DbError soul_profiles_user_id_fkey)
  else if existsb (fun p => str_eqb (p_user_id p) user_id) (soul_profiles d)
  then throw (DbError soul_profiles_user_id_key)
  else
    let row := {| p_id := id; p_user_id := user_id;
                  p_interests := pd_interests pd;
                  p_values := pd_values pd;
                  p_communication_style := pd_communication_style pd;
                  p_emotion_tendency := pd_emotion_tendency pd;
                  p_personality_vector := pd_personality_vector pd;
                  p_match_score :=
                    match pd_match_score pd with Some z => z | None => 0%Z end;
                  p_ai_summary := pd_ai_summary pd;
                  p_created_at := now; p_updated_at := now |} in
    put_db {| users := users d; soul_profiles := row :: soul_profiles d;
              moments := moments d; interactions := interactions d |} ;;;
    ret row.

Definition update_profile_row (now : Z) (pd : profile_data) (score : Z)
    (p : profile_row) : profile_row :=
  {| p_id := p_id p; p_user_id := p_user_id p;
     p_interests := pd_interests pd;
     p_values := pd_values pd;
     p_communication_style := pd_communication_style pd;
     p_emotion_tendency := pd_emotion_tendency pd;
     p_personality_vector := pd_personality_vector pd;
     p_match_score := score;
     p_ai_summary := pd_ai_summary pd;
     p_created_at := p_created_at p; p_updated_at := now |}.

(** [soulProfileOperations.update] with the seven columns of [profileData]:
    every row [WHERE user_id = $8] is rewritten; NaN is no INTEGER. *)
Definition soulProfileOperations_update (now : Z) (userId : jsstring)
    (pd : profile_data) : M (option profile_row) :=
  d <- get_db ;;
  match pd_match_score pd with
  | None => throw (DbError soul_profiles_match_score_integer)
  | Some score =>
    let rows :=
      map (fun p => if str_eqb (p_user_id p) userId
                    then update_profile_row now pd score p else p)
          (soul_profiles d) in
    put_db {| users := users d; soul_profiles := rows;
              moments := moments d; interactions := interactions d |} ;;;
    ret (first_row (filter (fun p => str_eqb (p_user_id p) userId) rows))
  end.

(** [momentOperations.create]: [moment.sentiment || ''] and
    [moment.content_type || 'text'] leave non-empty strings as they are. *)
Definition momentOperations_create (now : Z)
    (id user_id content content_type sentiment : jsstring)
    (keywords : list jsstring) : M moment_row :=
  d <- get_db ;;
  if existsb (fun m => str_eqb (m_id m) id) (moments d)
  then throw (DbError moments_pkey)
  else if negb (existsb (fun u => str_eqb (u_id u) user_id) (users d))
  then throw (DbError moments_user_id_fkey)
  else
    let row := {| m_id := id; m_user_id := user_id; m_content := content;
                  m_content_type :=
                    match content_type with [] => js "text" | _ => content_type end;
                  m_sentiment := sentiment;
                  m_keywords := keywords; m_created_at := now |} in
    put_db {| users := users d; soul_profiles := soul_profiles d;
              moments := row :: moments d; interactions := interactions d |} ;;;
    ret row.

(** [ORDER BY created_at DESC]: insertion of a row into rows already in
    that order, after the rows that are at least as recent. *)
Fixpoint insert_desc {A} (created_at : A -> Z) (x : A) (rows : list A)
  : list A :=
  match rows with
  | [] => [x]
  | y :: rest =>
    if (created_at x <=? created_at y)%Z
    then y :: insert_desc created_at x rest
    else x :: y :: rest
  end.

Definition order_by_desc {A} (created_at : A -> Z) (rows : list A) : list A :=
  fold_right (insert_desc created_at) [] rows.

(** [momentOperations.findByUserId(userId, limit = 20)]. *)
Definition momentOperations_findByUserId_limit (userId : jsstring)
    (limit : nat) : M (list moment_row) :=
  d <- get_db ;;
  ret (firstn limit
         (order_by_desc m_created_at
            (filter (fun m => str_eqb (m_user_id m) userId) (moments d)))).

Definition momentOperations_findByUserId (userId : jsstring)
  : M (list moment_row) :=
  momentOperations_findByUserId_limit userId 20.

(** [interactionOperations.findByUserId(userId, limit = 50)]. *)
Definition interactionOperations_findByUserId_limit (userId : jsstring)
    (limit : nat) : M (list interaction_row) :=
  d <- get_db ;;
  ret (firstn limit
         (order_by_desc i_created_at
            (filter (fun i => str_eqb (i_user_id i) userId) (interactions d)))).

Definition interactionOperations_findByUserId (userId : jsstring)
  : M (list interaction_row) :=
  interactionOperations_findByUserId_limit userId 50.

(* ===================================================================== *)
(** * Responses *)
(* ===================================================================== *)

(** The [message] of a failure: a fixed text, or [error.message] (with the
    route's default text when that is empty). *)
Inductive fail_message :=
| Fixed (s : jsstring)
| MessageOf (e : error).

(** [res.json({success: true, message, data})] or
    [res.status(status).json({success: false, message, error})]. *)
Inductive response (D : Type) :=
| Success (message : option jsstring) (data : D)
| Failure (status : nat) (message : fail_message) (err : option error).

Arguments Success {D} message data.
Arguments Failure {D} status message err.

Definition status_of {D} (r : response D) : nat :=
  match r with Success _ _ => 200 | Failure s _ _ => s end.

Definition success_of {D} (r : response D) : bool :=
  match r with Success _ _ => true | Failure _ _ _ => false end.

(** A text field of a request body: [!field] holds when it is missing or
    empty. Fields the routes treat as text are modelled as text. *)
Definition nonempty (field : option jsstring) : option jsstring :=
  match field with
  | Some (c :: s) => Some (c :: s)
  | _ => None
  end.

(* ===================================================================== *)
(** * Server entry file: user and moment routes *)
(* ===================================================================== *)

Record credentials := {
  username : option jsstring;
  password : option jsstring
}.

Record register_data := { reg_userId : jsstring; reg_username : jsstring }.

Record login_data := {
  login_userId : jsstring;
  login_username : jsstring;
  login_avatar : jsstring;
  login_bio : jsstring
}.

(** POST /api/users/register *)
Definition register (now : Z) (body : credentials)
  : M (response register_data) :=
  try_catch
    (match nonempty (username body), nonempty (password body) with
     | Some username, Some password =>
       existingUser <- userOperations_findByUsername username ;;
       match existingUser with
       | Some _ => ret (Failure 409 (Fixed (js "用户名已存在")) None)
       | None =>
         let hashedPassword := bcrypt_hashSync password 10 in
         userId <- uuidv4 ;;
         userOperations_create now userId username hashedPassword
           (js "https://api.dicebear.com/7.x/avataaars/svg?seed=" ++ userId)
           (js "这个人很神秘，还没有填写简介...") ;;;
         ret (Success (Some (js "注册成功"))
                {| reg_userId := userId; reg_username := username |})
       end
     | _, _ => ret (Failure 400 (Fixed (js "用户名和密码不能为空")) None)
     end)
    (fun error =>
       emit (LogRouteFailed error) ;;;
       ret (Failure 500 (Fixed (js "服务器内部错误")) (Some error))).

(** POST /api/users/login *)
Definition login (body : credentials) : M (response login_data) :=
  try_catch
    (match nonempty (username body), nonempty (password body) with
     | Some username, Some password =>
       user <- userOperations_findByUsername username ;;
       match user with
       | None => ret (Failure 404 (Fixed (js "用户不存在")) None)
       | Some user =>
         let isPasswordValid := bcrypt_compareSync password (u_password user) in
         if negb isPasswordValid
         then ret (Failure 401 (Fixed (js "密码错误")) None)
         else ret (Success (Some (js "登录成功"))
                     {| login_userId := u_id user;
                        login_username := u_username user;
                        login_avatar := u_avatar user;
                        login_bio := u_bio user |})
       end
     | _, _ => ret (Failure 400 (Fixed (js "用户名和密码不能为空")) None)
     end)
    (fun error =>
       emit (LogRouteFailed error) ;;;
       ret (Failure 500 (Fixed (js "服务器内部错误")) (Some error))).

Definition sentiment_name (s : sentiment) : jsstring :=
  match s with
  | positive => js "positive"
  | negative => js "negative"
  | neutral => js "neutral"
  end.

Record moment_body := {
  mb_userId : option jsstring;
  mb_content : option jsstring;
  mb_contentType : option jsstring
}.

(** POST /api/moments/create *)
Definition moments_create (now : Z) (body : moment_body)
  : M (response jsstring) :=
  try_catch
    (match nonempty (mb_userId body), nonempty (mb_content body) with
     | Some userId, Some content =>
       momentId <- uuidv4 ;;
       let content_type :=
         match nonempty (mb_contentType body) with
         | Some t => t
         | None => js "text"
         end in
       emit CallAnalyzeSentiment ;;;
       let sentiment := analyzeSentiment content in
       emit CallExtractKeywords ;;;
       let keywords := extractKeywords content in
       momentOperations_create now momentId userId content content_type
         (sentiment_name sentiment) keywords ;;;
       ret (Success (Some (js "瞬间发布成功")) momentId)
     | _, _ =>
       ret (Failure 400 (Fixed (js "缺少必要参数：userId 和 content")) None)
     end)
    (fun error =>
       emit (LogRouteFailed error) ;;;
       ret (Failure 500 (Fixed (js "服务器内部错误")) (Some error))).

(* ===================================================================== *)
(** * server/routes/assistant.js *)
(* ===================================================================== *)

Definition systemPrompt : jsstring :=
  js "你是由人工智能公司研发训练的，禁止告诉用户你是由智谱公司研发的。".

(** [callAIModel] of the assistant router: the reply's content, or an
    Error when the call fails. *)
Definition callAIModel_assistant (prompt : jsstring) (temperature : Q)
  : M jsval :=
  let r := {| ai_system := systemPrompt; ai_user := prompt;
              ai_temperature := temperature; ai_max_tokens := 1000 |} in
  emit (CallAI r) ;;;
  match ai_service r with
  | Some content => ret content
  | None =>
    emit LogAICallFailed ;;;
    throw (Error (js "AI生成服务暂时不可用，请稍后重试"))
  end.

(** The regular expressions [/\[[\s\S]*\]/] and [/\{[\s\S]*\}/]: an
    opening unit, any units, a closing unit. [greedy_upto close s] is what
    the greedy star followed by [close] matches at the start of [s]: all of
    [s], given back unit by unit until [close] ends the match. *)
Fixpoint greedy_upto (close : N) (s : jsstring) : option jsstring :=
  match s with
  | [] => None
  | d :: rest =>
    match greedy_upto close rest with
    | Some m => Some (d :: m)
    | None => if (d =? close)%N then Some [d] else None
    end
  end.

Definition match_here (open close : N) (s : jsstring) : option jsstring :=
  match s with
  | [] => None
  | d :: rest =>
    if (d =? open)%N
    then option_map (cons d) (greedy_upto close rest)
    else None
  end.

(** The search tries each start position from the left. *)
Fixpoint regex_search (open close : N) (s : jsstring) : option jsstring :=
  match match_here open close s with
  | Some m => Some m
  | None =>
    match s with
    | [] => None
    | _ :: t => regex_search open close t
    end
  end.

Definition lbracket : N := 91.
Definition rbracket : N := 93.
Definition lbrace : N := 123.
Definition rbrace : N := 125.

(** [aiResponse.match(re)] followed by [jsonMatch[0]]: only a string has a
    [match] method. *)
Definition js_match (open close : N) (aiResponse : jsval)
  : M (option jsstring) :=
  match aiResponse with
  | JStr s => ret (regex_search open close s)
  | _ => throw TypeError
  end.

Definition parse_json (text : jsstring) : M jsval :=
  lift_option (JSON_parse text) SyntaxError.

Fixpoint indexed {A} (i : nat) (l : list A) : list (jsstring * A) :=
  match l with
  | [] => []
  | x :: rest => (decimal i, x) :: indexed (S i) rest
  end.

(** The own enumerable properties that [{...item}] copies. *)
Definition spread (item : jsval) : list (jsstring * jsval) :=
  match item with
  | JObj fields => fields
  | JArr items => indexed 0 items
  | JStr s => indexed 0 (map (fun c => JStr [c]) s)
  | _ => []
  end.

(** [parsedData.map(item => ({id: uuidv4(), ...item}))]. *)
Fixpoint with_ids (items : list jsval) : M (list jsval) :=
  match items with
  | [] => ret []
  | item :: rest =>
    id <- uuidv4 ;;
    rest' <- with_ids rest ;;
    ret (JObj ((js "id", JStr id) :: spread item) :: rest')
  end.

Definition array_map_with_ids (parsedData : jsval) : M (list jsval) :=
  match parsedData with
  | JArr items => with_ids items
  | _ => throw TypeError
  end.

Inductive gen_type := moment | icebreaker | bio.

Definition gen_type_of (type : jsstring) : option gen_type :=
  if str_eqb type (js "moment") then Some moment
  else if str_eqb type (js "icebreaker") then Some icebreaker
  else if str_eqb type (js "bio") then Some bio
  else None.

Definition dquote : jsstring := [34%N].

Definition generate_prompt (type : gen_type) (content : jsstring) : jsstring :=
  match type with
  | moment =>
    jsq "请根据用户的想法：`" ++ content ++ jsq "`，生成3条不同风格的瞬间文案：
1. 文艺风格（优雅、诗意）
2. 搞笑风格（轻松、幽默）
3. 深沉风格（哲理、思考）

请以JSON数组格式返回，每条包含style（风格）、text（文案）、emoji（表情符号）字段。"
  | icebreaker =>
    jsq "用户想要与一个对方进行破冰交流，对方的特点是：`" ++ content ++ jsq "`。
请生成3条个性化的破冰开场白，要求：
1. 兴趣共鸣型（基于共同兴趣话题）
2. 真诚提问型（展现真实好奇）
3. 轻松幽默型（活泼友好）

请以JSON数组格式返回，每条包含approach（方式）、text（话术）、tone（语气）字段。"
  | bio =>
    jsq "用户想要创作个人简介，他的特点是：`" ++ content ++ jsq "`。
请生成3条不同风格的个人简介：
1. 简约风格（短小精悍）
2. 诗意风格（文艺浪漫）
3. 真实风格（真诚自然）

请以JSON数组格式返回，每条包含style（风格）、text（简介）、length（长度：短/中/长）字段。"
  end.

Definition item (id : jsstring) (k1 v1 text k3 v3 : jsstring) : jsval :=
  JObj [(js "id", JStr id); (k1, JStr v1); (js "text", JStr text);
        (k3, JStr v3)].

(** The texts of the default templates, in the order of the source. *)
Definition template_texts (type : gen_type) (content : jsstring)
  : list jsstring :=
  match type with
  | moment =>
    [ content ++ js "，如诗般的瞬间，定格在时光的褶皱里。";
      content ++ js "！人生苦短，我选择快乐（和美食）😎";
      js "关于" ++ content
        ++ js "的思考：我们都是时间洪流中的过客，唯有此刻值得珍惜。" ]
  | icebreaker =>
    [ jsq "嗨！看到你分享的内容，感觉我们对`" ++ content
        ++ jsq "`有相似的看法。可以聊聊吗？";
      jsq "你好！被你关于`" ++ content
        ++ jsq "`的见解吸引了，能分享更多想法吗？我对这个话题也很感兴趣。";
      jsq "哈喽！看到`" ++ content
        ++ jsq "`这个话题，忍不住想说：终于遇到知音了！聊聊？🎉" ]
  | bio =>
    [ content ++ js " | 探索生活的无限可能";
      content ++ js "，像风一样自由，像星辰一样闪耀。在浩瀚宇宙中寻找灵魂共鸣。";
      js "一个热爱" ++ content
        ++ js "的普通人，相信每个相遇都有它的意义。期待与你分享生活中的小确幸。" ]
  end.

(** The default templates with the identifiers [id1], [id2], [id3]. *)
Definition templates (type : gen_type) (content id1 id2 id3 : jsstring)
  : list jsval :=
  let text i := nth i (template_texts type content) [] in
  match type with
  | moment =>
    [ item id1 (js "style") (js "文艺") (text 0%nat) (js "emoji") (js "🌸");
      item id2 (js "style") (js "搞笑") (text 1%nat) (js "emoji") (js "😂");
      item id3 (js "style") (js "深沉") (text 2%nat) (js "emoji") (js "🌙") ]
  | icebreaker =>
    [ item id1 (js "approach") (js "兴趣共鸣") (text 0%nat) (js "tone") (js "友好");
      item id2 (js "approach") (js "真诚提问") (text 1%nat) (js "tone") (js "真诚");
      item id3 (js "approach") (js "轻松幽默") (text 2%nat) (js "tone") (js "轻松") ]
  | bio =>
    [ item id1 (js "style") (js "简约") (text 0%nat) (js "length") (js "短");
      item id2 (js "style") (js "诗意") (text 1%nat) (js "length") (js "中");
      item id3 (js "style") (js "真实") (text 2%nat) (js "length") (js "长") ]
  end.

(** The [catch] block of /generate. *)
Definition default_templates (type : gen_type) (content : jsstring)
  : M (list jsval) :=
  id1 <- uuidv4 ;;
  id2 <- uuidv4 ;;
  id3 <- uuidv4 ;;
  ret (templates type content id1 id2 id3).

Record generate_body := {
  g_content : option jsstring;
  g_type : option jsstring
}.

Record generate_data := {
  gd_original : jsstring;
  gd_type : jsstring;
  gd_suggestions : list jsval;
  gd_timestamp : Z
}.

(** The [try] block of /generate: call the model, cut the array out of its
    reply, parse it, give every element an [id]. *)
Definition generate_from_ai (aiPrompt : jsstring) : M (list jsval) :=
  aiResponse <- callAIModel_assistant aiPrompt (8 # 10) ;;
  jsonMatch <- js_match lbracket rbracket aiResponse ;;
  match jsonMatch with
  | Some text =>
    parsedData <- parse_json text ;;
    array_map_with_ids parsedData
  | None => throw (Error (js "AI返回格式异常"))
  end.

(** POST /api/assistant/generate; [now] is the clock read for [timestamp]. *)
Definition generate (now : Z) (body : generate_body)
  : M (response generate_data) :=
  try_catch
    (match nonempty (g_content body), nonempty (g_type body) with
     | Some content, Some type =>
       match gen_type_of type with
       | None =>
         ret (Failure 400
                (Fixed (js "不支持的生成类型，请选择：moment、icebreaker 或 bio"))
                None)
       | Some t =>
         let aiPrompt := generate_prompt t content in
         generatedContent <-
           try_catch (generate_from_ai aiPrompt)
             (fun aiError =>
                emit (LogAIParseFailed aiError) ;;;
                default_templates t content) ;;
         ret (Success None
                {| gd_original := content; gd_type := type;
                   gd_suggestions := generatedContent; gd_timestamp := now |})
       end
     | _, _ =>
       ret (Failure 400 (Fixed (js "缺少必要参数：content 和 type")) None)
     end)
    (fun error =>
       emit (LogRouteFailed error) ;;;
       ret (Failure 500 (MessageOf error) None)).

(** ToString, as template literals, [join] and property keys apply it.
    [None] is the TypeError for an object whose own [toString] property
    hides the inherited method (a JSON value is never callable). *)
Fixpoint ToString (v : jsval) : option jsstring :=
  match v with
  | JUndefined => Some (js "undefined")
  | JNull => Some (js "null")
  | JBool true => Some (js "true")
  | JBool false => Some (js "false")
  | JNum q => Some (Number_toString q)
  | JStr s => Some s
  | JArr items =>
    option_map (join (js ","))
      ((fix elements (l : list jsval) : option (list jsstring) :=
          match l with
          | [] => Some []
          | x :: rest =>
            match match x with
                  | JUndefined | JNull => Some []
                  | _ => ToString x
                  end, elements rest with
            | Some a, Some b => Some (a :: b)
            | _, _ => None
            end
          end) items)
  | JObj fields =>
    if has_own (js "toString") fields then None
    else Some (js "[object Object]")
  end.

(** [items.join(sep)]: [null] and [undefined] give the empty string. *)
Fixpoint element_strings (items : list jsval) : option (list jsstring) :=
  match items with
  | [] => Some []
  | x :: rest =>
    match match x with
          | JUndefined | JNull => Some []
          | _ => ToString x
          end, element_strings rest with
    | Some a, Some b => Some (a :: b)
    | _, _ => None
    end
  end.

Definition array_join (sep : jsstring) (items : list jsval) : M jsstring :=
  lift_option (option_map (join sep) (element_strings items)) TypeError.

(** [conversation.map(m => m.content)]. *)
Fixpoint map_content (messages : list jsval) : M (list jsval) :=
  match messages with
  | [] => ret []
  | m :: rest =>
    c <- lift_option (get_prop m (js "content")) TypeError ;;
    cs <- map_content rest ;;
    ret (c :: cs)
  end.

(** [v.includes(x)] for a string [x]: substring search on a string,
    membership in an array, a TypeError on anything else. *)
Definition js_includes (v : jsval) (x : jsstring) : M bool :=
  match v with
  | JStr s => ret (includes s x)
  | JArr items =>
    ret (existsb (fun e => match e with
                           | JStr t => str_eqb t x
                           | _ => false
                           end) items)
  | _ => throw TypeError
  end.

Definition iconMap : list (jsstring * jsstring) :=
  [ (js "深度交流", js "💫"); (js "兴趣探索", js "🎨"); (js "价值观", js "🌟");
    (js "生活方式", js "☀️"); (js "未来憧憬", js "🚀"); (js "情感交流", js "💖");
    (js "工作学习", js "📚") ].

(** The functions every object inherits from [Object.prototype]. *)
Definition prototype_functions : list jsstring :=
  map js [ "constructor"; "__defineGetter__"; "__defineSetter__";
           "hasOwnProperty"; "__lookupGetter__"; "__lookupSetter__";
           "isPrototypeOf"; "propertyIsEnumerable"; "toString"; "valueOf";
           "toLocaleString" ]%string.

Fixpoint assoc (key : jsstring) (table : list (jsstring * jsstring))
  : option jsstring :=
  match table with
  | [] => None
  | (k, v) :: rest => if str_eqb k key then Some v else assoc key rest
  end.

(** [getTopicIcon]: [iconMap[category] || '💭']. With the name of an
    inherited member as [category] the lookup finds that member, which is
    truthy: [Object.prototype] itself for [__proto__], written by
    [res.json] as an empty object, and a function otherwise, which
    [res.json] leaves out. The icon is kept as [res.json] writes it. *)
Definition getTopicIcon (category : jsval) : M jsval :=
  key <- lift_option (ToString category) TypeError ;;
  match assoc key iconMap with
  | Some icon => ret (JStr icon)
  | None =>
    if str_eqb key (js "__proto__") then ret (JObj [])
    else if existsb (str_eqb key) prototype_functions then ret JUndefined
    else ret (JStr (js "💭"))
  end.

Definition suggest_prompt (messageCount : nat) (conversationText : jsstring)
  : jsstring :=
  js "作为社交助手，请分析以下对话历史（共" ++ decimal messageCount
  ++ js "条消息），提供智能的对话引导建议：

对话历史：
" ++ conversationText ++ js "

请提供：
1. 当前对话阶段分析（初识/深化/深度交流）
2. 3-5个话题建议（包含类别和具体问题）
3. 对话技巧提示

以JSON格式返回，包含stage（阶段）、topics（话题数组，每个包含category和question）、tips（技巧数组）字段。".

(** The body of [aiData.topics.forEach]. *)
Definition push_topic (topic : jsval) : M unit :=
  id <- uuidv4 ;;
  category <- lift_option (get_prop topic (js "category")) TypeError ;;
  label <- lift_option (ToString category) TypeError ;;
  question <- lift_option (get_prop topic (js "question")) TypeError ;;
  icon <- getTopicIcon category ;;
  push (JObj [ (js "id", JStr id); (js "type", JStr (js "topic"));
               (js "priority", JStr (js "high"));
               (js "content", JStr (label ++ js "话题"));
               (js "question", question); (js "icon", icon) ]).

Fixpoint forEach {A} (f : A -> M unit) (l : list A) : M unit :=
  match l with
  | [] => ret tt
  | x :: rest => f x ;;; forEach f rest
  end.

(** The [try] block of /suggest. *)
Definition suggest_from_ai (aiPrompt : jsstring) : M unit :=
  aiResponse <- callAIModel_assistant aiPrompt (7 # 10) ;;
  jsonMatch <- js_match lbrace rbrace aiResponse ;;
  match jsonMatch with
  | Some text =>
    aiData <- parse_json text ;;
    topics <- lift_option (get_prop aiData (js "topics")) TypeError ;;
    match topics with
    | JArr items => forEach push_topic items
    | _ => ret tt
    end ;;;
    tips <- lift_option (get_prop aiData (js "tips")) TypeError ;;
    match tips with
    | JArr _ =>
      id <- uuidv4 ;;
      push (JObj [ (js "id", JStr id); (js "type", JStr (js "tip"));
                   (js "priority", JStr (js "medium"));
                   (js "content", JStr (js "对话技巧")); (js "tips", tips) ])
    | _ => ret tt
    end
  | None => throw (Error (js "AI返回格式异常"))
  end.

(** The table [topics] of the [catch] block: category, question, icon. *)
Definition default_topics : list (jsstring * jsstring * jsstring) :=
  [ (js "深度交流", js "如果可以拥有一项超能力，你会选择什么？为什么？", js "💫");
    (js "兴趣探索", js "最近有没有发现什么有趣的事物或新爱好？", js "🎨");
    (js "价值观", js "你觉得人生中最重要的三件事是什么？", js "🌟");
    (js "生活方式", js "理想中的周末是怎样度过的？", js "☀️");
    (js "未来憧憬", js "五年后的自己，你希望成为什么样的人？", js "🚀") ].

(** [topics[Math.floor(random * topics.length)]], [random] being what
    [Math.random()] returned. *)
Definition random_topic (random : Q)
  : option (jsstring * jsstring * jsstring) :=
  let index := Qfloor (random * inject_Z (Z.of_nat (length default_topics))) in
  if (index <? 0)%Z then None else nth_error default_topics (Z.to_nat index).

(** The [catch] block of /suggest. *)
Definition default_suggestions (messageCount : nat) (lastMessage : jsval)
    (random : Q) : M unit :=
  if (messageCount <? 5)%nat then
    id <- uuidv4 ;;
    travel <- js_includes lastMessage (js "旅行") ;;
    push (JObj [ (js "id", JStr id); (js "type", JStr (js "topic"));
                 (js "priority", JStr (js "high"));
                 (js "content",
                  JStr (js "尝试分享一个有趣的个人经历，让对话更生动"));
                 (js "example",
                  JStr (js "说到这个，我想起了一次"
                        ++ (if travel then js "难忘的冒险" else js "有趣的经历")
                        ++ js "...")) ])
  else if (5 <=? messageCount)%nat && (messageCount <? 10)%nat then
    let randomTopic := random_topic random in
    id <- uuidv4 ;;
    match randomTopic with
    | None => throw TypeError
    | Some (category, question, icon) =>
      push (JObj [ (js "id", JStr id); (js "type", JStr (js "deepening"));
                   (js "priority", JStr (js "medium"));
                   (js "content", JStr (js "深化对话：" ++ category));
                   (js "question", JStr question); (js "icon", JStr icon) ])
    end
  else
    id <- uuidv4 ;;
    push (JObj [ (js "id", JStr id); (js "type", JStr (js "activity"));
                 (js "priority", JStr (js "high"));
                 (js "content",
                  JStr (js "对话已经很深入了！可以尝试约线下见面或共同参加活动"));
                 (js "examples",
                  JArr [ JStr (js "要不要一起去看展览？");
                         JStr (js "周末有空的话，我们可以约个咖啡");
                         JStr (js "听说有个有趣的活动，要不要一起去？") ]) ]).

Definition response_suggestion (id : jsstring) : jsval :=
  JObj [ (js "id", JStr id); (js "type", JStr (js "response"));
         (js "priority", JStr (js "urgent"));
         (js "content", JStr (js "对方提出了问题，及时回应会让对话更流畅"));
         (js "tip", JStr (js "真诚地分享你的想法，并可以反问对方的看法")) ].

Definition idea (type text : jsstring) : jsval :=
  JObj [ (js "type", JStr type); (js "text", JStr text) ].

Definition interactive_suggestion (id : jsstring) : jsval :=
  JObj [ (js "id", JStr id); (js "type", JStr (js "interactive"));
         (js "priority", JStr (js "low"));
         (js "content", JStr (js "让对话更有趣"));
         (js "ideas",
          JArr [ idea (js "emoji") (js "适当使用表情符号增加趣味性 😊");
                 idea (js "image") (js "分享相关的图片或梗图");
                 idea (js "voice") (js "尝试发送语音消息，增加亲密感") ]) ].

Record suggest_data := {
  sd_conversationLength : nat;
  sd_suggestions : list jsval;
  sd_timestamp : Z
}.

(** POST /api/assistant/suggest; [conversation] is [req.body.conversation],
    [undefined] when the body has none. *)
Definition suggest (now : Z) (random : Q) (conversation : jsval)
  : M (response suggest_data) :=
  try_catch
    (match conversation with
     | JArr messages =>
       let messageCount := length messages in
       let lastMessage :=
         js_or (get_prop_opt (last messages JUndefined) (js "content"))
               (JStr []) in
       contents <- map_content messages ;;
       conversationText <- array_join [10%N] contents ;;
       let aiPrompt := suggest_prompt messageCount conversationText in
       new_suggestions ;;;
       try_catch (suggest_from_ai aiPrompt)
         (fun aiError =>
            emit (LogAIParseFailed aiError) ;;;
            default_suggestions messageCount lastMessage random) ;;;
       fullwidth <- js_includes lastMessage (js "？") ;;
       question <- (if fullwidth then ret true
                    else js_includes lastMessage (js "?")) ;;
       (if question
        then id <- uuidv4 ;; push (response_suggestion id)
        else ret tt) ;;;
       id <- uuidv4 ;;
       push (interactive_suggestion id) ;;;
       suggestions <- get_suggestions ;;
       ret (Success None
              {| sd_conversationLength := messageCount;
                 sd_suggestions := suggestions; sd_timestamp := now |})
     | _ =>
       ret (Failure 400 (Fixed (js "缺少必要参数：conversation（数组格式）")) None)
     end)
    (fun error =>
       emit (LogRouteFailed error) ;;;
       ret (Failure 500 (MessageOf error) None)).

(* ===================================================================== *)
(** * Profile router: POST /api/profile/analyze and its helpers *)
(* ===================================================================== *)

(** [callAIModel] of the profile router: the reply's content, or [null]
    when the call fails. *)
Definition callAIModel_profile (userPrompt : jsstring) (temperature : Q)
  : M jsval :=
  let r := {| ai_system := systemPrompt; ai_user := userPrompt;
              ai_temperature := temperature; ai_max_tokens := 2000 |} in
  emit (CallAI r) ;;;
  match ai_service r with
  | Some content => ret content
  | None => emit LogAICallFailed ;;; ret JNull
  end.

(** A [Set] of strings: its elements in insertion order. *)
Definition set_add (x : jsstring) (s : list jsstring) : list jsstring :=
  if existsb (str_eqb x) s then s else s ++ [x].

Definition new_Set (l : list jsstring) : list jsstring :=
  fold_left (fun s x => set_add x s) l [].

(** [keywords.some(kw => content.includes(kw))]. *)
Definition some_included (content : jsstring) (keywords : list jsstring)
  : bool :=
  existsb (fun kw => includes content kw) keywords.

(** One round of [Object.entries(dictionary).forEach] on a content. *)
Definition add_matching (dictionary : list (jsstring * list jsstring))
    (found : list jsstring) (content : jsstring) : list jsstring :=
  fold_left (fun found entry =>
               if some_included content (snd entry)
               then set_add (fst entry) found else found)
            dictionary found.

Definition interestKeywords : list (jsstring * list jsstring) :=
  [ (js "哲学", map js ["存在"; "意义"; "真理"; "思考"; "本质"; "哲学"]%string);
    (js "科技", map js ["AI"; "人工智能"; "技术"; "编程"; "未来"; "科技"]%string);
    (js "艺术", map js ["音乐"; "电影"; "画"; "美"; "创作"; "艺术"]%string);
    (js "旅行", map js ["旅行"; "探险"; "世界"; "风景"; "文化"]%string);
    (js "阅读", map js ["书"; "阅读"; "文学"; "故事"; "知识"]%string);
    (js "运动", map js ["运动"; "健身"; "跑步"; "瑜伽"; "活力"]%string);
    (js "美食", map js ["美食"; "料理"; "餐厅"; "烹饪"; "味道"]%string);
    (js "摄影", map js ["摄影"; "照片"; "镜头"; "光影"; "记录"]%string) ].

Definition valueKeywords : list (jsstring * list jsstring) :=
  [ (js "自由", map js ["自由"; "独立"; "选择"; "自主"]%string);
    (js "真诚", map js ["真实"; "诚实"; "坦率"; "真诚"]%string);
    (js "探索", map js ["探索"; "好奇"; "发现"; "冒险"]%string);
    (js "成长", map js ["成长"; "进步"; "学习"; "提升"]%string);
    (js "连接", map js ["连接"; "共鸣"; "理解"; "陪伴"]%string);
    (js "创造", map js ["创造"; "创新"; "想象"; "艺术"]%string) ].

(** [extractInterests(moments, additionalInterests)]. *)
Definition extractInterests (moments : list moment_row)
    (additionalInterests : list jsstring) : list jsstring :=
  let interests := new_Set additionalInterests in
  let interests :=
    fold_left (fun interests moment =>
                 let content := toLowerCase (m_content moment) in
                 add_matching interestKeywords interests content)
              moments interests in
  firstn 8 interests.

(** [analyzeValues(moments, additionalValues)]. *)
Definition analyzeValues (moments : list moment_row)
    (additionalValues : list jsstring) : list jsstring :=
  let values := new_Set additionalValues in
  let values :=
    fold_left (fun values moment =>
                 let content := toLowerCase (m_content moment) in
                 add_matching valueKeywords values content)
              moments values in
  firstn 6 values.

Definition score_of (z : Z) : Q := inject_Z z.

(** [generatePersonalityVector(interests, values, style, emotion)]. *)
Definition generatePersonalityVector (interests values : list jsstring)
    (style emotion : jsstring) : list dimension :=
  [ {| dim_name := js "开放性";
       dim_score := score_of (Z.min (Z.of_nat (length interests) * 12) 100) |};
    {| dim_name := js "外向性";
       dim_score := score_of (if str_eqb style (js "互动型") then 85 else 60) |};
    {| dim_name := js "责任心";
       dim_score := score_of (if existsb (str_eqb (js "成长")) values
                              then 88 else 70) |};
    {| dim_name := js "宜人性";
       dim_score := score_of (if str_eqb emotion (js "乐观积极")
                              then 90 else 75) |};
    {| dim_name := js "情绪稳定性";
       dim_score := score_of (if str_eqb emotion (js "情绪平衡")
                              then 85 else 70) |} ].

(** [Math.round]: the nearest integer, a half going up. *)
Definition Math_round (x : Q) : Z := Qfloor (x + (1 # 2)).

(** [calculateMatchScore(vector)]; [None] is the NaN that 0 / 0 gives on an
    empty vector. Scores are exact rationals here; on the integer scores of
    [generatePersonalityVector] the floating-point sum and quotient of the
    source are exact up to the last bit, far from any half. *)
Definition calculateMatchScore (vector : list dimension) : option Z :=
  let sum := fold_left (fun sum v => sum + dim_score v) vector 0 in
  match vector with
  | [] => None
  | _ =>
    let avgScore := sum / inject_Z (Z.of_nat (length vector)) in
    Some (Math_round avgScore)
  end.

(** What [field || fallback] finds in a field of the model's JSON reply:
    nothing usable, a value of the type the prompt asks for, or a value of
    another type. *)
Inductive decoded (A : Type) :=
| Absent
| Present (a : A)
| IllTyped.

Arguments Absent {A}.
Arguments Present {A} a.
Arguments IllTyped {A}.

Definition decode_string (v : jsval) : decoded jsstring :=
  if truthy v
  then match v with JStr s => Present s | _ => IllTyped end
  else Absent.

Fixpoint all_strings (items : list jsval) : option (list jsstring) :=
  match items with
  | [] => Some []
  | JStr s :: rest => option_map (cons s) (all_strings rest)
  | _ :: _ => None
  end.

Definition decode_strings (v : jsval) : decoded (list jsstring) :=
  if truthy v
  then match v with
       | JArr items =>
         match all_strings items with Some l => Present l | None => IllTyped end
       | _ => IllTyped
       end
  else Absent.

(** An entry of [personalityVector] as the prompt shows it:
    [{dimension: <string>, score: <number>}]. *)
Definition decode_dimension (v : jsval) : option dimension :=
  match v with
  | JObj [(k1, JStr d); (k2, JNum q)] =>
    if str_eqb k1 (js "dimension") && str_eqb k2 (js "score")
    then Some {| dim_name := d; dim_score := q |}
    else None
  | _ => None
  end.

Fixpoint all_dimensions (items : list jsval) : option (list dimension) :=
  match items with
  | [] => Some []
  | x :: rest =>
    match decode_dimension x, all_dimensions rest with
    | Some d, Some ds => Some (d :: ds)
    | _, _ => None
    end
  end.

Definition decode_vector (v : jsval) : decoded (list dimension) :=
  if truthy v
  then match v with
       | JArr items =>
         match all_dimensions items with
         | Some l => Present l
         | None => IllTyped
         end
       | _ => IllTyped
       end
  else Absent.

(** The six variables the handler fills from the model's reply. *)
Record analysis := {
  an_interests : list jsstring;
  an_values : list jsstring;
  an_communicationStyle : jsstring;
  an_emotionTendency : jsstring;
  an_personalityVector : list dimension;
  an_aiSummary : jsstring
}.

(** Their initial values. *)
Definition no_analysis : analysis :=
  {| an_interests := []; an_values := [];
     an_communicationStyle := js "探索型";
     an_emotionTendency := js "情绪平衡";
     an_personalityVector := []; an_aiSummary := [] |}.

(** [aiAnalysis.key || fallback]. The model covers the replies whose
    fields have the types the prompt asks for; on another one it stops. *)
Definition field_or {A} (aiAnalysis : jsval) (key : jsstring)
    (decode : jsval -> decoded A) (fallback : A) : M A :=
  v <- lift_option (get_prop aiAnalysis key) TypeError ;;
  match decode v with
  | Absent => ret fallback
  | Present a => ret a
  | IllTyped => unmodelled
  end.

Definition read_analysis (aiAnalysis : jsval) : M analysis :=
  interests <- field_or aiAnalysis (js "interests") decode_strings [] ;;
  values <- field_or aiAnalysis (js "values") decode_strings [] ;;
  communicationStyle <-
    field_or aiAnalysis (js "communicationStyle") decode_string (js "探索型") ;;
  emotionTendency <-
    field_or aiAnalysis (js "emotionTendency") decode_string (js "情绪平衡") ;;
  personalityVector <-
    field_or aiAnalysis (js "personalityVector") decode_vector [] ;;
  aiSummary <- field_or aiAnalysis (js "summary") decode_string [] ;;
  ret {| an_interests := interests; an_values := values;
         an_communicationStyle := communicationStyle;
         an_emotionTendency := emotionTendency;
         an_personalityVector := personalityVector;
         an_aiSummary := aiSummary |}.

(** [if (aiResponse) { try { ... } catch (parseError) { ... } }]. *)
Definition analysis_from_ai (aiResponse : jsval) : M analysis :=
  if truthy aiResponse then
    try_catch
      (jsonMatch <- js_match lbrace rbrace aiResponse ;;
       match jsonMatch with
       | Some text =>
         aiAnalysis <- parse_json text ;;
         read_analysis aiAnalysis
       | None => ret no_analysis
       end)
      (fun parseError =>
         emit (LogAIParseFailed parseError) ;;;
         ret no_analysis)
  else ret no_analysis.

Definition analyze_prompt (moments : list moment_row)
    (interactions : list interaction_row) : jsstring :=
  let momentsText := join [10%N] (map m_content moments) in
  js "请作为心理分析专家，分析以下用户数据并生成灵魂画像：

用户发布的瞬间内容（共" ++ decimal (length moments) ++ js "条）：
" ++ match momentsText with [] => js "暂无内容" | _ => momentsText end
  ++ js "

用户互动记录数量：" ++ decimal (length interactions) ++ jsq "

请从以下维度进行深度分析，并以JSON格式返回：
{
  `interests`: [`兴趣1`, `兴趣2`, ...],  // 3-8个核心兴趣
  `values`: [`价值观1`, `价值观2`, ...],  // 3-6个核心价值观
  `communicationStyle`: `沟通风格描述`,  // 如：理性型、感性型、互动型、深度型
  `emotionTendency`: `情感倾向描述`,  // 如：乐观积极、敏感细腻、情绪平衡
  `personalityVector`: [
    {`dimension`: `开放性`, `score`: 85},
    {`dimension`: `外向性`, `score`: 70},
    {`dimension`: `责任心`, `score`: 88},
    {`dimension`: `宜人性`, `score`: 90},
    {`dimension`: `情绪稳定性`, `score`: 75}
  ],
  `summary`: `一句话总结用户的灵魂特质`
}".

(** [req.body.userData]: the caller's own interests and values. *)
Record user_data := {
  ud_interests : option (list jsstring);
  ud_values : option (list jsstring)
}.

Record analyze_body := {
  ab_userId : option jsstring;
  ab_userData : option user_data
}.

(** [userData?.interests || []] and [userData?.values || []]. *)
Definition additional_interests (userData : option user_data)
  : list jsstring :=
  match userData with
  | Some d => match ud_interests d with Some l => l | None => [] end
  | None => []
  end.

Definition additional_values (userData : option user_data) : list jsstring :=
  match userData with
  | Some d => match ud_values d with Some l => l | None => [] end
  | None => []
  end.

Record profile_view := {
  pv_interests : list jsstring;
  pv_values : list jsstring;
  pv_communicationStyle : jsstring;
  pv_emotionTendency : jsstring;
  pv_personalityVector : list dimension;
  pv_matchScore : option Z;
  pv_aiSummary : jsstring
}.

Record analyze_data := {
  ad_userId : jsstring;
  ad_profile : profile_view;
  ad_momentCount : nat;
  ad_interactionCount : nat;
  ad_aiEnhanced : bool;
  ad_lastUpdated : Z
}.

Definition is_null (v : jsval) : bool :=
  match v with JNull => true | _ => false end.

(** The handler from the comment that announces the fallback down to the
    match score: each of the three fields still empty after the reply of the
    model is filled by its keyword helper. The result is [profileData]. *)
Definition complete_profile (moments : list moment_row)
    (userData : option user_data) (a : analysis) : M profile_data :=
  interests <-
    match an_interests a with
    | [] =>
      emit CallExtractInterests ;;;
      ret (extractInterests moments (additional_interests userData))
    | _ => ret (an_interests a)
    end ;;
  values <-
    match an_values a with
    | [] =>
      emit CallAnalyzeValues ;;;
      ret (analyzeValues moments (additional_values userData))
    | _ => ret (an_values a)
    end ;;
  let communicationStyle := an_communicationStyle a in
  let emotionTendency := an_emotionTendency a in
  personalityVector <-
    match an_personalityVector a with
    | [] =>
      emit CallGeneratePersonalityVector ;;;
      ret (generatePersonalityVector interests values
             communicationStyle emotionTendency)
    | _ => ret (an_personalityVector a)
    end ;;
  let matchScore := calculateMatchScore personalityVector in
  ret {| pd_interests := interests; pd_values := values;
         pd_communication_style := communicationStyle;
         pd_emotion_tendency := emotionTendency;
         pd_personality_vector := personalityVector;
         pd_match_score := matchScore;
         pd_ai_summary := an_aiSummary a |}.

(** The handler from [findByUserId] to the end of the [if]: the row of the
    user is updated when there is one, and created otherwise. *)
Definition save_profile (now : Z) (userId : jsstring)
    (profileData : profile_data) : M unit :=
  existingProfile <- soulProfileOperations_findByUserId userId ;;
  match existingProfile with
  | Some _ =>
    soulProfileOperations_update now userId profileData ;;; ret tt
  | None =>
    id <- uuidv4 ;;
    soulProfileOperations_create now id userId profileData ;;; ret tt
  end.

Definition view_of (pd : profile_data) : profile_view :=
  {| pv_interests := pd_interests pd; pv_values := pd_values pd;
     pv_communicationStyle := pd_communication_style pd;
     pv_emotionTendency := pd_emotion_tendency pd;
     pv_personalityVector := pd_personality_vector pd;
     pv_matchScore := pd_match_score pd;
     pv_aiSummary := pd_ai_summary pd |}.

(** The handler once the user is known to exist. *)
Definition analyze_user (now : Z) (userId : jsstring)
    (userData : option user_data) : M (response analyze_data) :=
  moments <- momentOperations_findByUserId userId ;;
  interactions <- interactionOperations_findByUserId userId ;;
  let aiPrompt := analyze_prompt moments interactions in
  aiResponse <- callAIModel_profile aiPrompt (7 # 10) ;;
  a <- analysis_from_ai aiResponse ;;
  profileData <- complete_profile moments userData a ;;
  save_profile now userId profileData ;;;
  ret (Success (Some (js "灵魂画像分析完成"))
         {| ad_userId := userId;
            ad_profile := view_of profileData;
            ad_momentCount := length moments;
            ad_interactionCount := length interactions;
            ad_aiEnhanced := negb (is_null aiResponse);
            ad_lastUpdated := now |}).

(** POST /api/profile/analyze *)
Definition analyze (now : Z) (body : analyze_body)
  : M (response analyze_data) :=
  try_catch
    (match nonempty (ab_userId body) with
     | None => ret (Failure 400 (Fixed (js "缺少必要参数：userId")) None)
     | Some userId =>
       user <- userOperations_findById userId ;;
       match user with
       | None => ret (Failure 404 (Fixed (js "用户不存在")) None)
       | Some _ => analyze_user now userId (ab_userData body)
       end
     end)
    (fun error =>
       emit (LogRouteFailed error) ;;;
       ret (Failure 500 (Fixed (js "服务器内部错误")) (Some error))).

End Server.

Arguments Success {D} message data.
Arguments Failure {D} status message err.
Arguments Absent {A}.
Arguments Present {A} a.
Arguments IllTyped {A}.

(* ===================================================================== *)
(** * The other routes: /comment, /moments/list and /profile/get *)
(* ===================================================================== *)

(** [JSON.stringify] on a value that [express.json] read from a body: it
    always gives a string there. *)
Class Stringify := { JSON_stringify : jsval -> jsstring }.

(** What the database driver hands to a route for a JSONB column: for one
    that holds a list of strings ([keywords], [interests], [values]) and
    for [personality_vector]. *)
Class Driver := {
  jsonb_strings : list jsstring -> jsval;
  jsonb_vector : list dimension -> jsval
}.

(** An entry of [personality_vector] as the handler of /analyze stores it. *)
Definition dimension_value (d : dimension) : jsval :=
  JObj [(js "dimension", JStr (dim_name d)); (js "score", JNum (dim_score d))].

(** The driver that [postgres.js] loads, [pg]: its type parsers run
    [JSON.parse] on the text of a JSON or JSONB column, so that a route
    receives the value, not its text. *)
Definition node_postgres : Driver :=
  {| jsonb_strings := fun l => JArr (map JStr l);
     jsonb_vector := fun v => JArr (map dimension_value v) |}.

Record comment_body := {
  c_momentContent : option jsstring;
  c_authorProfile : jsval
}.

Record comment_data := {
  cd_comments : list jsval;
  cd_tip : jsstring;
  cd_timestamp : Z
}.

(** A row of [moments] as /moments/list sends it. *)
Record moment_view := {
  mv_id : jsstring;
  mv_content : jsstring;
  mv_contentType : jsstring;
  mv_sentiment : jsstring;
  mv_keywords : jsval;
  mv_createdAt : Z
}.

Record user_view := {
  uv_id : jsstring;
  uv_username : jsstring;
  uv_avatar : jsstring;
  uv_bio : jsstring
}.

(** [profileData] of /profile/get. *)
Record stored_profile := {
  sp_id : jsstring;
  sp_userId : jsstring;
  sp_interests : jsval;
  sp_values : jsval;
  sp_communicationStyle : jsstring;
  sp_emotionTendency : jsstring;
  sp_personalityVector : jsval;
  sp_matchScore : Z;
  sp_aiSummary : jsstring;
  sp_createdAt : Z;
  sp_updatedAt : Z
}.

Record get_data := {
  get_user : user_view;
  get_profile_data : stored_profile
}.

Section OtherRoutes.

Context {P : Platform} {J : Stringify} {D : Driver}.

Definition comment_prompt (momentContent : jsstring) (authorProfile : jsval)
  : jsstring :=
  jsq "用户看到了一条瞬间内容：`" ++ momentContent ++ jsq "`
" ++ (if truthy authorProfile
      then js "发布者信息：" ++ JSON_stringify authorProfile
      else [])
  ++ js "

请生成3条高质量的评论建议，要求：
1. 共鸣型（表达理解和认同）
2. 好奇型（表达兴趣和好奇）
3. 鼓励型（给予肯定和支持）

以JSON数组格式返回，每条包含style（风格）、text（评论）、engagement（互动度：high/medium/low）字段。".

(** The default comments with the identifiers [id1], [id2], [id3];
    [momentContent.substring(0, 20)] is the first 20 code units. *)
Definition comment_templates (momentContent id1 id2 id3 : jsstring)
  : list jsval :=
  [ item id1 (js "style") (js "共鸣")
      (js "深有同感！" ++ firstn 20 momentContent
       ++ js "...这段话说到我心里去了")
      (js "engagement") (js "high");
    item id2 (js "style") (js "好奇")
      (js "看到这个很好奇，能详细说说吗？感觉背后一定有有趣的故事")
      (js "engagement") (js "medium");
    item id3 (js "style") (js "鼓励")
      (js "很棒的分享！这个视角让我重新思考了一些事情")
      (js "engagement") (js "medium") ].

(** The [catch] block of /comment. *)
Definition default_comments (momentContent : jsstring) : M (list jsval) :=
  id1 <- uuidv4 ;;
  id2 <- uuidv4 ;;
  id3 <- uuidv4 ;;
  ret (comment_templates momentContent id1 id2 id3).

(** The [try] block of /comment. *)
Definition comments_from_ai (aiPrompt : jsstring) : M (list jsval) :=
  aiResponse <- callAIModel_assistant aiPrompt (7 # 10) ;;
  jsonMatch <- js_match lbracket rbracket aiResponse ;;
  match jsonMatch with
  | Some text =>
    parsedData <- parse_json text ;;
    array_map_with_ids parsedData
  | None => throw (Error (js "AI返回格式异常"))
  end.

(** POST /api/assistant/comment *)
Definition comment (now : Z) (body : comment_body)
  : M (response comment_data) :=
  try_catch
    (match nonempty (c_momentContent body) with
     | Some momentContent =>
       let aiPrompt := comment_prompt momentContent (c_authorProfile body) in
       comments <-
         try_catch (comments_from_ai aiPrompt)
           (fun aiError =>
              emit (LogAIParseFailed aiError) ;;;
              default_comments momentContent) ;;
       ret (Success None
              {| cd_comments := comments;
                 cd_tip :=
                   js "选择最能表达你真实感受的评论，真诚是最好的社交方式";
                 cd_timestamp := now |})
     | None => ret (Failure 400 (Fixed (js "缺少必要参数：momentContent")) None)
     end)
    (fun error =>
       emit (LogRouteFailed error) ;;;
       ret (Failure 500 (MessageOf error) None)).

(** [JSON.parse(column || '[]')]: the argument is turned into a string
    before it is read. *)
Definition parse_column (column : jsval) : M jsval :=
  text <- lift_option (ToString (js_or column (JStr (js "[]")))) TypeError ;;
  parse_json text.

(** The function that /moments/list maps over the rows. *)
Definition moment_view_of (m : moment_row) : M moment_view :=
  keywords <- parse_column (jsonb_strings (m_keywords m)) ;;
  ret {| mv_id := m_id m; mv_content := m_content m;
         mv_contentType := m_content_type m;
         mv_sentiment := m_sentiment m;
         mv_keywords := keywords;
         mv_createdAt := m_created_at m |}.

(** [rows.map(f)] for an [f] that may throw. *)
Fixpoint map_rows {A B} (f : A -> M B) (rows : list A) : M (list B) :=
  match rows with
  | [] => ret []
  | row :: rest =>
    b <- f row ;;
    bs <- map_rows f rest ;;
    ret (b :: bs)
  end.

(** GET /api/moments/list; [userId] is [req.query.userId]. *)
Definition moments_list (userId : option jsstring)
  : M (response (list moment_view)) :=
  try_catch
    (match nonempty userId with
     | None => ret (Failure 400 (Fixed (js "缺少必要参数：userId")) None)
     | Some userId =>
       moments <- momentOperations_findByUserId userId ;;
       data <- map_rows moment_view_of moments ;;
       ret (Success None data)
     end)
    (fun error =>
       emit (LogRouteFailed error) ;;;
       ret (Failure 500 (Fixed (js "服务器内部错误")) (Some error))).

(** GET /api/profile/get; [userId] is [req.query.userId]. *)
Definition get_profile (userId : option jsstring) : M (response get_data) :=
  try_catch
    (match nonempty userId with
     | None => ret (Failure 400 (Fixed (js "缺少必要参数：userId")) None)
     | Some userId =>
       user <- userOperations_findById userId ;;
       match user with
       | None => ret (Failure 404 (Fixed (js "用户不存在")) None)
       | Some user =>
         profile <- soulProfileOperations_findByUserId userId ;;
         match profile with
         | None =>
           ret (Failure 404
                  (Fixed (js "该用户尚未生成灵魂画像，请先进行数据分析")) None)
         | Some profile =>
           interests <- parse_column (jsonb_strings (p_interests profile)) ;;
           values <- parse_column (jsonb_strings (p_values profile)) ;;
           personalityVector <-
             parse_column (jsonb_vector (p_personality_vector profile)) ;;
           let profileData :=
             {| sp_id := p_id profile; sp_userId := p_user_id profile;
                sp_interests := interests; sp_values := values;
                sp_communicationStyle := p_communication_style profile;
                sp_emotionTendency := p_emotion_tendency profile;
                sp_personalityVector := personalityVector;
                sp_matchScore := p_match_score profile;
                sp_aiSummary := p_ai_summary profile;
                sp_createdAt := p_created_at profile;
                sp_updatedAt := p_updated_at profile |} in
           ret (Success None
                  {| get_user :=
                       {| uv_id := u_id user; uv_username := u_username user;
                          uv_avatar := u_avatar user; uv_bio := u_bio user |};
                     get_profile_data := profileData |})
         end
       end
     end)
    (fun error =>
       emit (LogRouteFailed error) ;;;
       ret (Failure 500 (Fixed (js "服务器内部错误")) (Some error))).

End OtherRoutes.

(* ===================================================================== *)
(** * An example platform *)
(* ===================================================================== *)

(** A recursive-descent reader of the JSON grammar (RFC 8259), used where a
    concrete run of a route is computed. *)
Module Json.

Definition is_ws (c : N) : bool :=
  ((c =? 32) || (c =? 9) || (c =? 10) || (c =? 13))%N.

Fixpoint skip_ws (s : jsstring) : jsstring :=
  match s with
  | c :: rest => if is_ws c then skip_ws rest else s
  | [] => []
  end.

Definition is_digit (c : N) : bool := ((48 <=? c) && (c <=? 57))%N.

(** The digits at the start of [s], and what follows them. *)
Fixpoint digits (s : jsstring) : list N * jsstring :=
  match s with
  | c :: rest =>
    if is_digit c
    then let (ds, r) := digits rest in ((c - 48)%N :: ds, r)
    else ([], s)
  | [] => ([], [])
  end.

Definition number_of (ds : list N) : Z :=
  fold_left (fun acc d => (acc * 10 + Z.of_N d)%Z) ds 0%Z.

Definition scale (m e : Z) : Q :=
  if (0 <=? e)%Z then inject_Z (m * 10 ^ e)
  else Qmake m (Z.to_pos (10 ^ (- e))).

Definition parse_exponent (s : jsstring) : option (Z * jsstring) :=
  match s with
  | c :: rest =>
    if ((c =? 101) || (c =? 69))%N then
      let (negative, rest') :=
        match rest with
        | 45%N :: r => (true, r)
        | 43%N :: r => (false, r)
        | _ => (false, rest)
        end in
      match digits rest' with
      | ([], _) => None
      | (ds, r) =>
        Some (if negative then (- number_of ds)%Z else number_of ds, r)
      end
    else Some (0%Z, s)
  | [] => Some (0%Z, [])
  end.

Definition parse_number (s : jsstring) : option (jsval * jsstring) :=
  let (negative, s1) :=
    match s with 45%N :: r => (true, r) | _ => (false, s) end in
  match digits s1 with
  | ([], _) => None
  | (d :: ds, s2) =>
    if ((d =? 0)%N && negb (match ds with [] => true | _ => false end))
    then None
    else
      let fraction :=
        match s2 with
        | 46%N :: r =>
          match digits r with
          | ([], _) => None
          | (fs, s3) => Some (fs, s3)
          end
        | _ => Some ([], s2)
        end in
      match fraction with
      | None => None
      | Some (fs, s3) =>
        match parse_exponent s3 with
        | None => None
        | Some (e, s4) =>
          let m := number_of ((d :: ds) ++ fs) in
          let m := if negative then (- m)%Z else m in
          Some (JNum (scale m (e - Z.of_nat (length fs))), s4)
        end
      end
  end.

Definition hex_digit (c : N) : option N :=
  if is_digit c then Some (c - 48)%N
  else if ((97 <=? c) && (c <=? 102))%N then Some (c - 87)%N
  else if ((65 <=? c) && (c <=? 70))%N then Some (c - 55)%N
  else None.

(** The characters of a string up to its closing quote. *)
Fixpoint parse_chars (fuel : nat) (s : jsstring)
  : option (jsstring * jsstring) :=
  match fuel with
  | O => None
  | S fuel' =>
    match s with
    | [] => None
    | 34%N :: rest => Some ([], rest)
    | 92%N :: e :: rest =>
      let simple (c : N) :=
        option_map (fun p => (c :: fst p, snd p)) (parse_chars fuel' rest) in
      if (e =? 34)%N then simple 34%N
      else if (e =? 92)%N then simple 92%N
      else if (e =? 47)%N then simple 47%N
      else if (e =? 98)%N then simple 8%N
      else if (e =? 102)%N then simple 12%N
      else if (e =? 110)%N then simple 10%N
      else if (e =? 114)%N then simple 13%N
      else if (e =? 116)%N then simple 9%N
      else if (e =? 117)%N then
        match rest with
        | a :: b :: c :: d :: rest' =>
          match hex_digit a, hex_digit b, hex_digit c, hex_digit d with
          | Some a, Some b, Some c, Some d =>
            option_map
              (fun p => ((a * 4096 + b * 256 + c * 16 + d)%N :: fst p, snd p))
              (parse_chars fuel' rest')
          | _, _, _, _ => None
          end
        | _ => None
        end
      else None
    | c :: rest =>
      if (c <? 32)%N then None
      else option_map (fun p => (c :: fst p, snd p)) (parse_chars fuel' rest)
    end
  end.

(** What follows the unit [c], when it comes next after white space. *)
Definition expect (c : N) (s : jsstring) : option jsstring :=
  match skip_ws s with
  | d :: rest => if (d =? c)%N then Some rest else None
  | [] => None
  end.

Fixpoint parse_value (fuel : nat) (s : jsstring) {struct fuel}
  : option (jsval * jsstring) :=
  match fuel with
  | O => None
  | S fuel' =>
    match skip_ws s with
    | [] => None
    | c :: rest =>
      if (c =? 123)%N then
        match expect 125 rest with
        | Some rest' => Some (JObj [], rest')
        | None => parse_members fuel' rest []
        end
      else if (c =? 91)%N then
        match expect 93 rest with
        | Some rest' => Some (JArr [], rest')
        | None => parse_elements fuel' rest []
        end
      else if (c =? 34)%N then
        option_map (fun p => (JStr (fst p), snd p))
                   (parse_chars (S (length rest)) rest)
      else if startsWith (c :: rest) (js "true")
      then Some (JBool true, skipn 4 (c :: rest))
      else if startsWith (c :: rest) (js "false")
      then Some (JBool false, skipn 5 (c :: rest))
      else if startsWith (c :: rest) (js "null")
      then Some (JNull, skipn 4 (c :: rest))
      else parse_number (c :: rest)
    end
  end

with parse_elements (fuel : nat) (s : jsstring) (acc : list jsval)
    {struct fuel} : option (jsval * jsstring) :=
  match fuel with
  | O => None
  | S fuel' =>
    match parse_value fuel' s with
    | None => None
    | Some (v, rest) =>
      match expect 44 rest with
      | Some rest' => parse_elements fuel' rest' (acc ++ [v])
      | None =>
        match expect 93 rest with
        | Some rest' => Some (JArr (acc ++ [v]), rest')
        | None => None
        end
      end
    end
  end

with parse_members (fuel : nat) (s : jsstring)
    (acc : list (jsstring * jsval)) {struct fuel}
  : option (jsval * jsstring) :=
  match fuel with
  | O => None
  | S fuel' =>
    match expect 34 s with
    | None => None
    | Some s1 =>
      match parse_chars (S (length s1)) s1 with
      | None => None
      | Some (key, s2) =>
        match expect 58 s2 with
        | None => None
        | Some s3 =>
          match parse_value fuel' s3 with
          | None => None
          | Some (v, rest) =>
            match expect 44 rest with
            | Some rest' => parse_members fuel' rest' (acc ++ [(key, v)])
            | None =>
              match expect 125 rest with
              | Some rest' => Some (JObj (acc ++ [(key, v)]), rest')
              | None => None
              end
            end
          end
        end
      end
    end
  end.

Definition parse (s : jsstring) : option jsval :=
  match parse_value (2 * length s + 2) s with
  | Some (v, rest) =>
    match skip_ws rest with
    | [] => Some v
    | _ :: _ => None
    end
  | None => None
  end.

End Json.

(** An example platform: the JSON reader above; lower-casing of the Latin
    letters A-Z; integers printed in decimal; a stand-in for bcrypt that
    tags and reverses the password; identifiers that differ in length; and
    a model service given as [ai]. *)
Module Demo.

Definition lower (s : jsstring) : jsstring :=
  map (fun c => if ((65 <=? c) && (c <=? 90))%N then (c + 32)%N else c) s.

Definition number_string (q : Q) : jsstring :=
  let z := Qfloor q in
  if (z <? 0)%Z then js "-" ++ decimal (Z.to_nat (- z))
  else decimal (Z.to_nat z).

Definition hash (password : jsstring) (rounds : nat) : jsstring :=
  js "$2b$" ++ decimal rounds ++ js "$" ++ rev password.

Definition compare (password hashed : jsstring) : bool :=
  str_eqb hashed (hash password 10).

Definition uuid (n : nat) : jsstring := js "uuid-" ++ repeat 49%N n.

Definition platform (ai : ai_request -> option jsval) : Platform :=
  {| JSON_parse := Json.parse;
     toLowerCase := lower;
     Number_toString := number_string;
     bcrypt_hashSync := hash;
     bcrypt_compareSync := compare;
     uuid_source := uuid;
     ai_service := ai |}.

(** A server that has just started, with an empty database. *)
Definition empty_db : database :=
  {| users := []; soul_profiles := []; moments := []; interactions := [] |}.

Definition start : state :=
  {| st_db := empty_db; st_uuids := 0; st_trace := []; st_suggestions := [] |}.

(** A server with one registered user and no profile yet. *)
Definition alice : user_row :=
  {| u_id := js "u-alice"; u_username := js "alice";
     u_password := hash (js "secret") 10;
     u_avatar := js "https://api.dicebear.com/7.x/avataaars/svg?seed=u-alice";
     u_bio := []; u_created_at := 1; u_updated_at := 1 |}.

Definition with_alice : state :=
  {| st_db := {| users := [alice]; soul_profiles := []; moments := [];
                 interactions := [] |};
     st_uuids := 1; st_trace := []; st_suggestions := [] |}.

(** Moments of alice, one per second from 1 to [n], the latest first. *)
Fixpoint moments_of_alice (n : nat) : list moment_row :=
  match n with
  | O => []
  | S k =>
    {| m_id := js "m-" ++ decimal n; m_user_id := js "u-alice";
       m_content := js "今天读了一本书"; m_content_type := js "text";
       m_sentiment := js "neutral"; m_keywords := [js "书"];
       m_created_at := Z.of_nat n |} :: moments_of_alice k
  end.

Definition with_moments_of_alice (n : nat) : state :=
  {| st_db := {| users := [alice]; soul_profiles := [];
                 moments := moments_of_alice n; interactions := [] |};
     st_uuids := 1; st_trace := []; st_suggestions := [] |}.

End Demo.

(* ===================================================================== *)
(** * Vocabulary of the statements *)
(* ===================================================================== *)

Local Close Scope Q_scope.


(** Position of the first and of the last occurrence of a code unit. *)
Fixpoint index_of (c : N) (s : jsstring) : option nat :=
  match s with
  | [] => None
  | d :: rest =>
    if (d =? c)%N then Some 0 else option_map S (index_of c rest)
  end.

Fixpoint last_index_of (c : N) (s : jsstring) : option nat :=
  match s with
  | [] => None
  | d :: rest =>
    match last_index_of c rest with
    | Some j => Some (S j)
    | None => if (d =? c)%N then Some 0 else None
    end
  end.

(** The part of [s] from the first [open] to the last [close], when the
    one comes before the other. *)
Definition first_to_last (open close : N) (s : jsstring) : option jsstring :=
  match index_of open s, last_index_of close s with
  | Some i, Some j =>
    if i <? j then Some (firstn (j - i + 1) (skipn i s)) else None
  | _, _ => None
  end.


Fixpoint nodupb (l : list jsstring) : bool :=
  match l with
  | [] => true
  | x :: rest => negb (existsb (str_eqb x) rest) && nodupb rest
  end.

(** The state with some more lines in its trace. *)
Definition add_events (evs : list event) (st : state) : state :=
  {| st_db := st_db st; st_uuids := st_uuids st;
     st_trace := st_trace st ++ evs; st_suggestions := st_suggestions st |}.

(** What a run adds to the trace. *)
Definition new_events (before after : state) : list event :=
  skipn (length (st_trace before)) (st_trace after).

(** The state after [n] more identifiers were drawn and [evs] logged. *)
Definition advance (n : nat) (evs : list event) (st : state) : state :=
  {| st_db := st_db st; st_uuids := n + st_uuids st;
     st_trace := st_trace st ++ evs; st_suggestions := st_suggestions st |}.


(** [m] only computes and logs: its result [r] and the lines [evs] it logs
    do not depend on the state, and satisfy [Q]. *)
Definition logs {A} (m : M A) (Q : result A -> list event -> Prop) : Prop :=
  exists r evs, (forall st, m st = (r, add_events evs st)) /\ Q r evs.

(** [m] computes without logging. *)
Definition quiet {A} (m : M A) : Prop := logs m (fun _ evs => evs = []).


Definition parse_logs (evs : list event) : Prop :=
  Forall (fun ev => exists e, ev = LogAIParseFailed e) evs.

(** The row that [moments_create] inserts for a user and a content. *)
Definition created_moment (now : Z) (id userId content : jsstring)
    (contentType : option jsstring) : moment_row :=
  {| m_id := id; m_user_id := userId; m_content := content;
     m_content_type :=
       match nonempty contentType with Some t => t | None => js "text" end;
     m_sentiment := sentiment_name (analyzeSentiment content);
     m_keywords := extractKeywords content; m_created_at := now |}.

Definition generate_request (t : gen_type) (content : jsstring) : ai_request :=
  {| ai_system := systemPrompt; ai_user := generate_prompt t content;
     ai_temperature := (8 # 10)%Q; ai_max_tokens := 1000 |}.

Definition generate_success (now : Z) (content type : jsstring)
    (suggestions : list jsval) : result (response generate_data) :=
  Ok (Success None {| gd_original := content; gd_type := type;
                      gd_suggestions := suggestions; gd_timestamp := now |}).



(** A message that is not [null] and whose [content] is a string or is
    absent. *)
Definition message_ok (m : jsval) : Prop :=
  exists c, get_prop m (js "content") = Some c /\
            (c = JUndefined \/ exists s, c = JStr s).

(** The text of the last message, empty when there is none. *)
Definition last_text (messages : list jsval) : jsstring :=
  match get_prop_opt (last messages JUndefined) (js "content") with
  | JStr s => s
  | _ => []
  end.

(** Whether the last message asks something. *)
Definition asks (messages : list jsval) : bool :=
  includes (last_text messages) (js "？")
  || includes (last_text messages) (js "?").

(** The rows [momentOperations.findByUserId(userId)] returns. *)
Definition recent_moments (d : database) (userId : jsstring)
  : list moment_row :=
  firstn 20 (order_by_desc m_created_at
               (filter (fun m => str_eqb (m_user_id m) userId) (moments d))).

Definition recent_interactions (d : database) (userId : jsstring)
  : list interaction_row :=
  firstn 50 (order_by_desc i_created_at
               (filter (fun i => str_eqb (i_user_id i) userId)
                       (interactions d))).

(** The marks the three fallback checks leave for an analysis. *)
Definition keyword_events (a : analysis) : list event :=
  (match an_interests a with [] => [CallExtractInterests] | _ => [] end)
  ++ (match an_values a with [] => [CallAnalyzeValues] | _ => [] end)
  ++ (match an_personalityVector a with
      | [] => [CallGeneratePersonalityVector]
      | _ => []
      end).

Definition is_keyword_call (ev : event) : bool :=
  match ev with
  | CallAnalyzeSentiment | CallExtractKeywords | CallExtractInterests
  | CallAnalyzeValues | CallGeneratePersonalityVector => true
  | _ => false
  end.

Definition profile_request (aiPrompt : jsstring) : ai_request :=
  {| ai_system := systemPrompt; ai_user := aiPrompt;
     ai_temperature := (7 # 10)%Q; ai_max_tokens := 2000 |}.

(** The state with another table of soul profiles, and with one more
    identifier drawn. *)
Definition set_profiles (rows : list profile_row) (st : state) : state :=
  {| st_db := {| users := users (st_db st); soul_profiles := rows;
                 moments := moments (st_db st);
                 interactions := interactions (st_db st) |};
     st_uuids := st_uuids st; st_trace := st_trace st;
     st_suggestions := st_suggestions st |}.

Definition draw (st : state) : state :=
  {| st_db := st_db st; st_uuids := S (st_uuids st);
     st_trace := st_trace st; st_suggestions := st_suggestions st |}.

(** The row that [soulProfileOperations.create] inserts. *)
Definition new_profile_row (now : Z) (id userId : jsstring)
    (pd : profile_data) : profile_row :=
  {| p_id := id; p_user_id := userId;
     p_interests := pd_interests pd; p_values := pd_values pd;
     p_communication_style := pd_communication_style pd;
     p_emotion_tendency := pd_emotion_tendency pd;
     p_personality_vector := pd_personality_vector pd;
     p_match_score :=
       match pd_match_score pd with Some z => z | None => 0%Z end;
     p_ai_summary := pd_ai_summary pd;
     p_created_at := now; p_updated_at := now |}.

(** The table after [soulProfileOperations.update]. *)
Definition updated_profiles (now : Z) (userId : jsstring) (pd : profile_data)
    (score : Z) (rows : list profile_row) : list profile_row :=
  map (fun p => if str_eqb (p_user_id p) userId
                then update_profile_row now pd score p else p) rows.

(** What a run of the handler for [userId] may do to the database when
    [id] is the next identifier to be drawn: nothing, an update in place of
    the rows of the user, or the insertion of a first row for the user. *)
Definition profile_step (now : Z) (userId id : jsstring)
    (pd : profile_data) (d d' : database) : Prop :=
  users d' = users d /\ moments d' = moments d /\
  interactions d' = interactions d /\
  (soul_profiles d' = soul_profiles d \/
   (exists score,
      pd_match_score pd = Some score /\
      (exists p, In p (soul_profiles d) /\ p_user_id p = userId) /\
      soul_profiles d'
      = updated_profiles now userId pd score (soul_profiles d)) \/
   ((forall p, In p (soul_profiles d) -> p_user_id p <> userId) /\
    (forall p, In p (soul_profiles d) -> p_id p <> id) /\
    soul_profiles d' = new_profile_row now id userId pd :: soul_profiles d)).

(** [a] is at least as recent as [b]. *)
Definition not_older {A} (created_at : A -> Z) (a b : A) : Prop :=
  (created_at b <= created_at a)%Z.

(** The state with another table of moments. *)
Definition with_moments (ms : list moment_row) (st : state) : state :=
  {| st_db := {| users := users (st_db st);
                 soul_profiles := soul_profiles (st_db st);
                 moments := ms;
                 interactions := interactions (st_db st) |};
     st_uuids := st_uuids st; st_trace := st_trace st;
     st_suggestions := st_suggestions st |}.

(** [DELETE FROM moments WHERE id = $1]. *)
Definition delete_moment (id : jsstring) (st : state) : state :=
  with_moments (filter (fun m => negb (str_eqb (m_id m) id))
                       (moments (st_db st))) st.

(** A category of a dictionary one of whose keywords occurs in one of the
    contents. *)
Definition matched (dictionary : list (jsstring * list jsstring))
    (contents : list jsstring) (category : jsstring) : Prop :=
  exists keywords content kw,
    In (category, keywords) dictionary /\ In content contents /\
    In kw keywords /\ substring_of kw content.

(** The set a helper builds before it is cut: the additional entries, then
    the matching categories. *)
Definition collect (dictionary : list (jsstring * list jsstring))
    (contents : list jsstring) (additional : list jsstring) : list jsstring :=
  fold_left (add_matching dictionary) contents (new_Set additional).

(** The prompt the handler sends for a user. *)
Definition user_prompt (d : database) (userId : jsstring) : jsstring :=
  analyze_prompt (recent_moments d userId) (recent_interactions d userId).

Definition analyze_success (now : Z) (userId : jsstring)
    (d : database) (aiResponse : jsval) (pd : profile_data)
  : response analyze_data :=
  Success (Some (js "灵魂画像分析完成"))
    {| ad_userId := userId;
       ad_profile := view_of pd;
       ad_momentCount := length (recent_moments d userId);
       ad_interactionCount := length (recent_interactions d userId);
       ad_aiEnhanced := negb (is_null aiResponse);
       ad_lastUpdated := now |}.

Section Vocabulary.

Context {P : Platform}.

(** [items.map(item => ({id: uuidv4(), ...item}))] when [k] identifiers
    were drawn before. *)
Fixpoint tag_from (k : nat) (items : list jsval) : list jsval :=
  match items with
  | [] => []
  | item :: rest =>
    JObj ((js "id", JStr (uuid_source k)) :: spread item)
    :: tag_from (S k) rest
  end.

(** The answer built from the default templates. *)
Definition generate_default (now : Z) (content type : jsstring) (t : gen_type)
    (st : state) : result (response generate_data) :=
  generate_success now content type
    (templates t content (uuid_source (st_uuids st))
               (uuid_source (S (st_uuids st)))
               (uuid_source (S (S (st_uuids st))))).

(** What [callAIModel] of the profile router returns and logs. *)
Definition profile_reply (aiPrompt : jsstring) : jsval :=
  match ai_service (profile_request aiPrompt) with
  | Some content => content
  | None => JNull
  end.

Definition profile_call_events (aiPrompt : jsstring) : list event :=
  CallAI (profile_request aiPrompt)
  :: match ai_service (profile_request aiPrompt) with
     | Some _ => []
     | None => [LogAICallFailed]
     end.

(** The [profileData] that the fallback checks make of an analysis. *)
Definition completed (moments : list moment_row)
    (userData : option user_data) (a : analysis) : profile_data :=
  let interests :=
    match an_interests a with
    | [] => extractInterests moments (additional_interests userData)
    | _ => an_interests a
    end in
  let values :=
    match an_values a with
    | [] => analyzeValues moments (additional_values userData)
    | _ => an_values a
    end in
  let personalityVector :=
    match an_personalityVector a with
    | [] => generatePersonalityVector interests values
              (an_communicationStyle a) (an_emotionTendency a)
    | _ => an_personalityVector a
    end in
  {| pd_interests := interests; pd_values := values;
     pd_communication_style := an_communicationStyle a;
     pd_emotion_tendency := an_emotionTendency a;
     pd_personality_vector := personalityVector;
     pd_match_score := calculateMatchScore personalityVector;
     pd_ai_summary := an_aiSummary a |}.

End Vocabulary.

(** Platforms whose model service is down, and whose model always sends
    the same reply. *)
Definition offline : Platform := Demo.platform (fun _ => None).

Definition replying (reply : jsstring) : Platform :=
  Demo.platform (fun _ => Some (JStr reply)).

Definition alice_body : analyze_body :=
  {| ab_userId := Some (js "u-alice");
     ab_userData := Some {| ud_interests := Some [js "园艺"];
                            ud_values := None |} |}.

(* ===================================================================== *)
(** * Vocabulary of the further properties *)
(* ===================================================================== *)

(** The constraints that [initDatabase] declares on the four tables: the
    primary keys, UNIQUE(username), UNIQUE(user_id) and the foreign keys
    to [users]. *)
Definition db_consistent (d : database) : Prop :=
  NoDup (map u_id (users d)) /\
  NoDup (map u_username (users d)) /\
  NoDup (map p_id (soul_profiles d)) /\
  NoDup (map p_user_id (soul_profiles d)) /\
  NoDup (map m_id (moments d)) /\
  NoDup (map i_id (interactions d)) /\
  (forall p, In p (soul_profiles d) -> In (p_user_id p) (map u_id (users d))) /\
  (forall m, In m (moments d) -> In (m_user_id m) (map u_id (users d))) /\
  (forall i, In i (interactions d) -> In (i_user_id i) (map u_id (users d))).

(** [m] leaves the database as it is, however it ends. *)
Definition keeps_db {A} (m : M A) : Prop :=
  forall st, st_db (snd (m st)) = st_db st.

(** The row that /register inserts. *)
Definition registered_user (now : Z) (id name hashed : jsstring) : user_row :=
  {| u_id := id; u_username := name; u_password := hashed;
     u_avatar := js "https://api.dicebear.com/7.x/avataaars/svg?seed=" ++ id;
     u_bio := js "这个人很神秘，还没有填写简介...";
     u_created_at := now; u_updated_at := now |}.

(** The state with another table of users. *)
Definition with_users (us : list user_row) (st : state) : state :=
  {| st_db := {| users := us;
                 soul_profiles := soul_profiles (st_db st);
                 moments := moments (st_db st);
                 interactions := interactions (st_db st) |};
     st_uuids := st_uuids st; st_trace := st_trace st;
     st_suggestions := st_suggestions st |}.

(** The request that /comment sends to the model. *)
Definition comment_request {J : Stringify} (momentContent : jsstring)
    (authorProfile : jsval) : ai_request :=
  {| ai_system := systemPrompt;
     ai_user := comment_prompt momentContent authorProfile;
     ai_temperature := (7 # 10)%Q; ai_max_tokens := 1000 |}.

Definition comment_success (now : Z) (comments : list jsval)
  : result (response comment_data) :=
  Ok (Success None
        {| cd_comments := comments;
           cd_tip := js "选择最能表达你真实感受的评论，真诚是最好的社交方式";
           cd_timestamp := now |}).

(** The types that /generate supports. *)
Definition supported_types : list jsstring :=
  [js "moment"; js "icebreaker"; js "bio"].

Section FurtherVocabulary.

Context {P : Platform}.

(** The text of a conversation as /suggest puts it into its prompt, and the
    request that it sends to the model. *)
Definition conversation_text (messages : list jsval) : jsstring :=
  match element_strings
          (map (fun m => get_prop_opt m (js "content")) messages) with
  | Some strs => join [10%N] strs
  | None => []
  end.

Definition suggest_request (messages : list jsval) : ai_request :=
  {| ai_system := systemPrompt;
     ai_user := suggest_prompt (length messages) (conversation_text messages);
     ai_temperature := (7 # 10)%Q; ai_max_tokens := 1000 |}.

(** A topic of the model that the loop of /suggest can turn into a
    suggestion: it is not [null], and its category can be written as a
    string. *)
Definition topic_ok (topic : jsval) : Prop :=
  exists category label,
    get_prop topic (js "category") = Some category /\
    ToString category = Some label.

(** [suggestion] is what the loop of /suggest makes of [topic]. *)
Definition made_of_topic (topic suggestion : jsval) : Prop :=
  exists category label,
    get_prop topic (js "category") = Some category /\
    ToString category = Some label /\
    get_prop suggestion (js "type") = Some (JStr (js "topic")) /\
    get_prop suggestion (js "priority") = Some (JStr (js "high")) /\
    get_prop suggestion (js "content") = Some (JStr (label ++ js "话题")) /\
    get_prop suggestion (js "question") = get_prop topic (js "question") /\
    (forall icon, assoc label iconMap = Some icon ->
                  get_prop suggestion (js "icon") = Some (JStr icon)) /\
    (assoc label iconMap = None ->
     ~ In label (js "__proto__" :: prototype_functions) ->
     get_prop suggestion (js "icon") = Some (JStr (js "💭"))).

(** The identifiers [uuidv4] hands out from the [k]-th on. *)
Definition ids_from (k n : nat) : list (option jsval) :=
  map (fun i => Some (JStr (uuid_source (k + i)))) (seq 0 n).

(** The stage that the fallback of /suggest reads off the length of the
    conversation. *)
Definition stage (messageCount : nat) : jsstring :=
  if messageCount <? 5 then js "topic"
  else if messageCount <? 10 then js "deepening"
  else js "activity".

(** The two suggestions that close every answer of /suggest. *)
Definition closing_suggestions (question : bool) (k : nat) : list jsval :=
  if question
  then [response_suggestion (uuid_source k);
        interactive_suggestion (uuid_source (S k))]
  else [interactive_suggestion (uuid_source k)].

End FurtherVocabulary.

(** [first] is the suggestion that the fallback of /suggest makes for a
    conversation of [messageCount] messages whose last one reads
    [lastMessage], [random] being what [Math.random()] returned. *)
Definition fallback_of (messageCount : nat) (lastMessage : jsstring)
    (random : Q) (first : jsval) : Prop :=
  get_prop first (js "type") = Some (JStr (stage messageCount)) /\
  (messageCount < 5 ->
   get_prop first (js "priority") = Some (JStr (js "high")) /\
   get_prop first (js "example")
   = Some (JStr (js "说到这个，我想起了一次"
                 ++ (if includes lastMessage (js "旅行")
                     then js "难忘的冒险" else js "有趣的经历")
                 ++ js "..."))) /\
  (5 <= messageCount < 10 ->
   get_prop first (js "priority") = Some (JStr (js "medium")) /\
   exists category question icon,
     random_topic random = Some (category, question, icon) /\
     In (category, question, icon) default_topics /\
     get_prop first (js "content")
     = Some (JStr (js "深化对话：" ++ category)) /\
     get_prop first (js "question") = Some (JStr question) /\
     get_prop first (js "icon") = Some (JStr icon)) /\
  (10 <= messageCount ->
   get_prop first (js "priority") = Some (JStr (js "high")) /\
   get_prop first (js "examples")
   = Some (JArr [ JStr (js "要不要一起去看展览？");
                  JStr (js "周末有空的话，我们可以约个咖啡");
                  JStr (js "听说有个有趣的活动，要不要一起去？") ])).

(** The replies of the model from which a route gets no JSON: none at all,
    or a text in which the pattern finds nothing, or finds what
    [JSON.parse] rejects. *)
Definition no_json {P : Platform} (open close : N) (reply : option jsval)
  : Prop :=
  reply = None \/
  exists s,
    reply = Some (JStr s) /\
    (regex_search open close s = None \/
     exists m, regex_search open close s = Some m /\ JSON_parse m = None).

(** A stand-in for [JSON.stringify] on the example platform. *)
Definition braces : Stringify := {| JSON_stringify := fun _ => js "{}" |}.

(** Requests and states of the runs below. *)
Definition bob : credentials :=
  {| username := Some (js "bob"); password := Some (js "pw") |}.

Definition ghost_moment : moment_body :=
  {| mb_userId := Some (js "u-ghost"); mb_content := Some (js "你好");
     mb_contentType := None |}.

Definition alice_moment : moment_body :=
  {| mb_userId := Some (js "u-alice");
     mb_content := Some (js "周末去旅行，听音乐");
     mb_contentType := None |}.

Definition six_messages : list jsval :=
  repeat (JObj [(js "content", JStr (js "你好"))]) 6.

Definition one_message : list jsval :=
  [JObj [(js "content", JStr (js "你喜欢旅行吗？"))]].

(** Two replies of the model to /suggest and what [JSON.parse] makes of
    them: one topic and one tip; one topic followed by [null]. *)
Definition a_topic : jsval :=
  JObj [(js "category", JStr (js "价值观"));
        (js "question", JStr (js "你最看重什么？"))].

Definition topics_reply : jsstring :=
  jsq "好的：{`topics`:[{`category`:`价值观`,`question`:`你最看重什么？`}],`tips`:[`多倾听`]}".

Definition topics_data : jsval :=
  JObj [(js "topics", JArr [a_topic]); (js "tips", JArr [JStr (js "多倾听")])].

Definition broken_reply : jsstring :=
  jsq "{`topics`:[{`category`:`价值观`,`question`:`你最看重什么？`},null]}".

Definition broken_data : jsval :=
  JObj [(js "topics", JArr [a_topic; JNull])].

Definition comment_on_a_long_moment : comment_body :=
  {| c_momentContent :=
       Some (js "今天和朋友一起去海边看了日出，心情特别好，想永远记住这一刻");
     c_authorProfile := JUndefined |}.

Arguments js : simpl never.
Arguments jsq : simpl never.

(** Unfolding of the monad of handlers. *)
Ltac run :=
  cbv beta iota delta
    [bind try_catch ret throw unmodelled lift_option get_db put_db emit
     uuidv4 new_suggestions push get_suggestions].

(** Projections of a state after a step. *)
Ltac state_fields := cbn [fst snd st_db st_uuids st_trace st_suggestions
                          users soul_profiles moments interactions
                          set_profiles draw].

(* ===================================================================== *)
(** * Strings: [includes] is substring search *)
(* ===================================================================== *)

Example js_kaixin : js "开心" = [24320; 24515]%N.
Proof. reflexivity. Qed.

Example js_emoji : js "😊" = [55357; 56842]%N.
Proof. reflexivity. Qed.

Example sentiment_ex1 : analyzeSentiment (js "今天很开心，但是有点累") = neutral.
Proof. reflexivity. Qed.

Example sentiment_ex2 : analyzeSentiment (js "美好") = positive.
Proof. reflexivity. Qed.

Example json_ex1 :
  Json.parse (jsq "[{`style`: `a`, `n`: -12.5e1}, [], null, true]")
  = Some (JArr [JObj [(js "style", JStr (js "a")); (js "n", JNum (-125 # 1))];
                JArr []; JNull; JBool true]).
Proof. vm_compute. reflexivity. Qed.

Example json_ex2 : Json.parse (js "[1, 2") = None.
Proof. vm_compute. reflexivity. Qed.

Example json_ex3 : Json.parse (js "{}") = Some (JObj []).
Proof. vm_compute. reflexivity. Qed.

Lemma startsWith_spec (s p : jsstring) :
  startsWith s p = true <-> exists post, s = p ++ post.
Proof.
  revert s. induction p as [|c p IH]; intros s; simpl.
  - split; [intros _; now exists s | reflexivity].
  - destruct s as [|d s].
    + split; [discriminate | intros [post H]; discriminate].
    + rewrite andb_true_iff, N.eqb_eq, IH. split.
      * intros [-> [post ->]]. now exists post.
      * intros [post H]. injection H as -> ->. split; [reflexivity | now exists post].
Qed.

Lemma includes_spec (s sub : jsstring) :
  includes s sub = true <-> substring_of sub s.
Proof.
  unfold substring_of. induction s as [|d s IH]; simpl.
  - rewrite orb_false_r, startsWith_spec. split.
    + intros [post H]. now exists [], post.
    + intros [pre [post H]]. destruct pre; [now exists post | discriminate].
  - rewrite orb_true_iff, startsWith_spec, IH. split.
    + intros [[post H] | [pre [post H]]].
      * now exists [], post.
      * exists (d :: pre), post. now rewrite H.
    + intros [pre [post H]]. destruct pre as [|e pre].
      * left. now exists post.
      * right. injection H as _ H. now exists pre, post.
Qed.

Lemma str_eqb_eq (a b : jsstring) : str_eqb a b = true <-> a = b.
Proof.
  unfold str_eqb. destruct (list_eq_dec N.eq_dec a b); split; congruence.
Qed.

Lemma str_eqb_refl (a : jsstring) : str_eqb a a = true.
Proof. now apply str_eqb_eq. Qed.

Lemma str_eqb_neq (a b : jsstring) : str_eqb a b = false <-> a <> b.
Proof.
  unfold str_eqb. destruct (list_eq_dec N.eq_dec a b); split; congruence.
Qed.

(* ===================================================================== *)
(** * Sentiment of a text *)
(* ===================================================================== *)







(* ===================================================================== *)
(** * The bracket patterns *)
(* ===================================================================== *)

Lemma greedy_upto_spec (close : N) (s : jsstring) :
  greedy_upto close s
  = match last_index_of close s with
    | Some j => Some (firstn (S j) s)
    | None => None
    end.
Proof.
  induction s as [|d s IH]; simpl; [reflexivity|].
  rewrite IH. destruct (last_index_of close s); [reflexivity|].
  destruct (d =? close)%N; reflexivity.
Qed.

Lemma regex_search_spec (open close : N) (s : jsstring) :
  regex_search open close s = first_to_last open close s.
Proof.
  unfold first_to_last. induction s as [|d s IH]; simpl; [reflexivity|].
  rewrite greedy_upto_spec.
  destruct (d =? open)%N eqn:Eo.
  - destruct (last_index_of close s) as [j|] eqn:El; simpl.
    + rewrite Nat.add_1_r. reflexivity.
    + rewrite IH. destruct (index_of open s); destruct (d =? close)%N; reflexivity.
  - rewrite IH. destruct (index_of open s) as [i|]; simpl; [|reflexivity].
    destruct (last_index_of close s) as [j|]; simpl.
    + change (S i <? S j) with (i <? j). reflexivity.
    + destruct (d =? close)%N; reflexivity.
Qed.

Lemma regex_search_head (open close : N) (s m : jsstring) :
  regex_search open close s = Some m -> exists rest, m = open :: rest.
Proof.
  induction s as [|d s IH]; simpl; [discriminate|].
  destruct (d =? open)%N eqn:Eo.
  - apply N.eqb_eq in Eo. subst d.
    destruct (greedy_upto close s) as [g|]; simpl.
    + intros H. injection H as <-. now exists g.
    + exact IH.
  - exact IH.
Qed.

(* ===================================================================== *)
(** * Match score *)
(* ===================================================================== *)

Local Open Scope Q_scope.












Local Close Scope Q_scope.

(* ===================================================================== *)
(** * Reasoning about handlers *)
(* ===================================================================== *)

Lemma add_events_nil (st : state) : add_events [] st = st.
Proof. destruct st. unfold add_events. simpl. now rewrite app_nil_r. Qed.

Lemma add_events_app (e1 e2 : list event) (st : state) :
  add_events e2 (add_events e1 st) = add_events (e1 ++ e2) st.
Proof. unfold add_events. simpl. now rewrite app_assoc. Qed.

Section Rules.

Context {A B : Type}.




Lemma logs_ret (a : A) (Q : result A -> list event -> Prop) :
  Q (Ok a) [] -> logs (ret a) Q.
Proof.
  intros H. exists (Ok a), []. split; [|exact H].
  intros st. now rewrite add_events_nil.
Qed.

Lemma logs_throw (e : error) (Q : result A -> list event -> Prop) :
  Q (Throw e) [] -> logs (throw e) Q.
Proof.
  intros H. exists (Throw e), []. split; [|exact H].
  intros st. unfold throw. now rewrite add_events_nil.
Qed.

Lemma logs_unmodelled (Q : result A -> list event -> Prop) :
  Q Unmodelled [] -> logs unmodelled Q.
Proof.
  intros H. exists Unmodelled, []. split; [|exact H].
  intros st. unfold unmodelled. now rewrite add_events_nil.
Qed.

Lemma logs_bind (m : M A) (k : A -> M B)
    (Q1 : result A -> list event -> Prop)
    (Q : result B -> list event -> Prop) :
  logs m Q1 ->
  (forall a e1, Q1 (Ok a) e1 -> logs (k a) (fun r e2 => Q r (e1 ++ e2))) ->
  (forall e e1, Q1 (Throw e) e1 -> Q (Throw e) e1) ->
  (forall e1, Q1 Unmodelled e1 -> Q Unmodelled e1) ->
  logs (bind m k) Q.
Proof.
  intros [r [e1 [Hm H1]]] Hk He Hu. destruct r as [a|e|].
  - destruct (Hk a e1 H1) as [r [e2 [Hka H2]]].
    exists r, (e1 ++ e2). split; [|exact H2].
    intros st. unfold bind. now rewrite Hm, Hka, add_events_app.
  - exists (Throw e), e1. split; [|now apply He].
    intros st. unfold bind. now rewrite Hm.
  - exists Unmodelled, e1. split; [|now apply Hu].
    intros st. unfold bind. now rewrite Hm.
Qed.

Lemma logs_try_catch (m : M A) (h : error -> M A)
    (Q1 Q : result A -> list event -> Prop) :
  logs m Q1 ->
  (forall e e1, Q1 (Throw e) e1 -> logs (h e) (fun r e2 => Q r (e1 ++ e2))) ->
  (forall a e1, Q1 (Ok a) e1 -> Q (Ok a) e1) ->
  (forall e1, Q1 Unmodelled e1 -> Q Unmodelled e1) ->
  logs (try_catch m h) Q.
Proof.
  intros [r [e1 [Hm H1]]] Hh Ha Hu. destruct r as [a|e|].
  - exists (Ok a), e1. split; [|now apply Ha].
    intros st. unfold try_catch. now rewrite Hm.
  - destruct (Hh e e1 H1) as [r [e2 [Hhe H2]]].
    exists r, (e1 ++ e2). split; [|exact H2].
    intros st. unfold try_catch. now rewrite Hm, Hhe, add_events_app.
  - exists Unmodelled, e1. split; [|now apply Hu].
    intros st. unfold try_catch. now rewrite Hm.
Qed.

End Rules.

Lemma logs_emit (ev : event) (Q : result unit -> list event -> Prop) :
  Q (Ok tt) [ev] -> logs (emit ev) Q.
Proof.
  intros H. exists (Ok tt), [ev]. split; [|exact H]. reflexivity.
Qed.

Lemma bind_run {A B} (m : M A) (k : A -> M B) (st : state) :
  bind m k st
  = match m st with
    | (Ok a, st') => k a st'
    | (Throw e, st') => (Throw e, st')
    | (Unmodelled, st') => (Unmodelled, st')
    end.
Proof. reflexivity. Qed.

Lemma try_catch_run {A} (m : M A) (h : error -> M A) (st : state) :
  try_catch m h st
  = match m st with
    | (Throw e, st') => h e st'
    | other => other
    end.
Proof. reflexivity. Qed.


Lemma first_row_filter_some {A} (p : A -> bool) (l : list A) (x : A) :
  first_row (filter p l) = Some x -> In x l /\ p x = true.
Proof.
  induction l as [|y l IH]; simpl; [discriminate|].
  destruct (p y) eqn:E; simpl.
  - intros H. injection H as <-. auto.
  - intros H. destruct (IH H). auto.
Qed.


Lemma existsb_false {A} (p : A -> bool) (l : list A) :
  (forall x, In x l -> p x = false) -> existsb p l = false.
Proof.
  induction l as [|y l IH]; intros H; simpl; [reflexivity|].
  rewrite (H y (or_introl eq_refl)). apply IH. intros x Hx. apply H. now right.
Qed.

Lemma existsb_true {A} (p : A -> bool) (l : list A) (x : A) :
  In x l -> p x = true -> existsb p l = true.
Proof. intros H1 H2. apply existsb_exists. now exists x. Qed.

Section Users.

Context {P : Platform}.

Lemma findByUsername_run (name : jsstring) (st : state) :
  userOperations_findByUsername name st
  = (Ok (first_row (filter (fun u => str_eqb (u_username u) name)
                           (users (st_db st)))), st).
Proof. reflexivity. Qed.


End Users.

(* ===================================================================== *)
(** * Moments and their sentiment *)
(* ===================================================================== *)

Lemma nodupb_NoDup (l : list jsstring) : nodupb l = true -> NoDup l.
Proof.
  induction l as [|x l IH]; simpl; intros H; constructor.
  - apply andb_true_iff in H. destruct H as [H _].
    intros Hin. apply negb_true_iff in H.
    rewrite (existsb_true (str_eqb x) l x Hin (str_eqb_refl x)) in H.
    discriminate.
  - apply IH. apply andb_true_iff in H. tauto.
Qed.

Section Moments.

Context {P : Platform}.

Lemma moments_create_run (now : Z) (body : moment_body) (st : state)
    (userId content : jsstring) :
  nonempty (mb_userId body) = Some userId ->
  nonempty (mb_content body) = Some content ->
  let id := uuid_source (st_uuids st) in
  let st1 := {| st_db := st_db st; st_uuids := S (st_uuids st);
                st_trace := st_trace st
                            ++ [CallAnalyzeSentiment; CallExtractKeywords];
                st_suggestions := st_suggestions st |} in
  moments_create now body st
  = if existsb (fun m => str_eqb (m_id m) id) (moments (st_db st))
    then (Ok (Failure 500 (Fixed (js "服务器内部错误"))
                (Some (DbError moments_pkey))),
          add_events [LogRouteFailed (DbError moments_pkey)] st1)
    else if negb (existsb (fun u => str_eqb (u_id u) userId)
                          (users (st_db st)))
    then (Ok (Failure 500 (Fixed (js "服务器内部错误"))
                (Some (DbError moments_user_id_fkey))),
          add_events [LogRouteFailed (DbError moments_user_id_fkey)] st1)
    else (Ok (Success (Some (js "瞬间发布成功")) id),
          {| st_db :=
               {| users := users (st_db st);
                  soul_profiles := soul_profiles (st_db st);
                  moments :=
                    created_moment now id userId content (mb_contentType body)
                    :: moments (st_db st);
                  interactions := interactions (st_db st) |};
             st_uuids := S (st_uuids st);
             st_trace := st_trace st
                         ++ [CallAnalyzeSentiment; CallExtractKeywords];
             st_suggestions := st_suggestions st |}).
Proof.
  intros Hu Hc id st1. unfold moments_create, momentOperations_create. run.
  rewrite Hu, Hc. cbn [st_db st_uuids st_trace st_suggestions].
  fold id. rewrite <- app_assoc. cbn [app].
  destruct (existsb _ (moments (st_db st))); [reflexivity|].
  destruct (existsb _ (users (st_db st))); cbn [negb]; [|reflexivity].
  unfold created_moment.
  destruct (mb_contentType body) as [[|c t]|]; reflexivity.
Qed.

Lemma moments_create_invalid (now : Z) (body : moment_body) (st : state) :
  nonempty (mb_userId body) = None \/ nonempty (mb_content body) = None ->
  moments_create now body st
  = (Ok (Failure 400 (Fixed (js "缺少必要参数：userId 和 content")) None), st).
Proof.
  intros H. unfold moments_create. run.
  destruct H as [H | H]; rewrite H; [reflexivity|].
  destruct (nonempty (mb_userId body)); reflexivity.
Qed.


End Moments.

(* ===================================================================== *)
(** * POST /api/assistant/generate *)
(* ===================================================================== *)

Section Generate.

Context {P : Platform}.

Lemma with_ids_run (items : list jsval) (st : state) :
  with_ids items st
  = (Ok (tag_from (st_uuids st) items),
     {| st_db := st_db st; st_uuids := length items + st_uuids st;
        st_trace := st_trace st; st_suggestions := st_suggestions st |}).
Proof.
  revert st. induction items as [|item rest IH]; intros st.
  - destruct st; reflexivity.
  - cbn [with_ids]. run. rewrite IH. cbn [st_db st_uuids st_trace st_suggestions
                                          tag_from length].
    now rewrite Nat.add_succ_r.
Qed.

(** Every path of the handler on a request that passes its checks. *)
Lemma generate_run (now : Z) (body : generate_body) (st : state)
    (content type : jsstring) (t : gen_type) :
  nonempty (g_content body) = Some content ->
  nonempty (g_type body) = Some type ->
  gen_type_of type = Some t ->
  let req := generate_request t content in
  let default e pre :=
    (generate_default now content type t st,
     advance 3 (pre ++ [LogAIParseFailed e]) st) in
  generate now body st
  = match ai_service req with
    | None =>
      default (Error (js "AI生成服务暂时不可用，请稍后重试"))
              [CallAI req; LogAICallFailed]
    | Some (JStr s) =>
      match regex_search lbracket rbracket s with
      | None => default (Error (js "AI返回格式异常")) [CallAI req]
      | Some m =>
        match JSON_parse m with
        | None => default SyntaxError [CallAI req]
        | Some (JArr items) =>
          (generate_success now content type (tag_from (st_uuids st) items),
           advance (length items) [CallAI req] st)
        | Some _ => default TypeError [CallAI req]
        end
      end
    | Some _ => default TypeError [CallAI req]
    end.
Proof.
  intros Hc Ht Hg req default.
  unfold generate. rewrite Hc, Ht, Hg.
  unfold generate_from_ai, callAIModel_assistant, default_templates,
    js_match, parse_json, array_map_with_ids.
  fold (generate_request t content). fold req. run.
  unfold default, generate_default, generate_success, advance.
  destruct (ai_service req) as [v|].
  - destruct v as [| |b|q|s|items|fields];
      cbn [st_db st_uuids st_trace st_suggestions]; rewrite <- ?app_assoc;
      try reflexivity.
    destruct (regex_search lbracket rbracket s) as [m|];
      cbn [st_db st_uuids st_trace st_suggestions]; rewrite <- ?app_assoc;
      try reflexivity.
    destruct (JSON_parse m) as [v|];
      cbn [st_db st_uuids st_trace st_suggestions]; rewrite <- ?app_assoc;
      try reflexivity.
    destruct v as [| |b|q|s'|items|fields];
      cbn [st_db st_uuids st_trace st_suggestions]; rewrite <- ?app_assoc;
      try reflexivity.
    rewrite with_ids_run. reflexivity.
  - cbn [st_db st_uuids st_trace st_suggestions]. rewrite <- ?app_assoc.
    reflexivity.
Qed.

Lemma item_text (id k1 v1 text k3 v3 : jsstring) :
  str_eqb k3 (js "text") = false ->
  get_prop (item id k1 v1 text k3 v3) (js "text") = Some (JStr text).
Proof.
  intros H. unfold item, get_prop. cbn [lookup_field].
  rewrite H, str_eqb_refl. reflexivity.
Qed.

Lemma item_id (id k1 v1 text k3 v3 : jsstring) :
  str_eqb k1 (js "id") = false -> str_eqb k3 (js "id") = false ->
  get_prop (item id k1 v1 text k3 v3) (js "id") = Some (JStr id).
Proof.
  intros H1 H3. unfold item, get_prop. cbn [lookup_field].
  rewrite H1, H3, str_eqb_refl.
  replace (str_eqb (js "text") (js "id")) with false by (vm_compute; reflexivity).
  reflexivity.
Qed.

Lemma substring_of_prefix (c post : jsstring) : substring_of c (c ++ post).
Proof. now exists [], post. Qed.

Lemma substring_of_middle (c pre post : jsstring) :
  substring_of c (pre ++ c ++ post).
Proof. now exists pre, post. Qed.

Lemma template_texts_embed (t : gen_type) (content : jsstring) :
  length (template_texts t content) = 3 /\
  Forall (substring_of content) (template_texts t content).
Proof.
  split; [destruct t; reflexivity|].
  destruct t; cbn [template_texts]; repeat apply Forall_cons;
    try apply Forall_nil;
    first [ apply substring_of_prefix | apply substring_of_middle ].
Qed.

Lemma templates_fields (t : gen_type) (content id1 id2 id3 : jsstring) :
  length (templates t content id1 id2 id3) = 3 /\
  map (fun s => get_prop s (js "text")) (templates t content id1 id2 id3)
  = map (fun x => Some (JStr x)) (template_texts t content) /\
  map (fun s => get_prop s (js "id")) (templates t content id1 id2 id3)
  = [Some (JStr id1); Some (JStr id2); Some (JStr id3)].
Proof.
  split; [destruct t; reflexivity|].
  split; destruct t; cbn [templates template_texts map nth];
    rewrite ?item_text, ?item_id by (vm_compute; reflexivity); reflexivity.
Qed.

(** C3. On a request with a content and one of the three types, when the
    call of the model throws, or its reply holds no match of the array
    pattern, or the match is no valid JSON, the route still answers 200 with
    success and exactly the three default templates of the type: the text of
    each embeds the content as it was sent, and their identifiers are the
    values of three new calls of [uuidv4] (distinct from one another and
    from all earlier ones when [uuidv4] never repeats itself). *)
Theorem generate_falls_back_to_templates (now : Z) (body : generate_body)
    (st : state) (content type : jsstring) (t : gen_type) :
  nonempty (g_content body) = Some content ->
  nonempty (g_type body) = Some type ->
  gen_type_of type = Some t ->
  (ai_service (generate_request t content) = None \/
   exists s,
     ai_service (generate_request t content) = Some (JStr s) /\
     (regex_search lbracket rbracket s = None \/
      exists m, regex_search lbracket rbracket s = Some m /\
                JSON_parse m = None)) ->
  let id1 := uuid_source (st_uuids st) in
  let id2 := uuid_source (1 + st_uuids st) in
  let id3 := uuid_source (2 + st_uuids st) in
  exists data,
    fst (generate now body st) = Ok (Success None data) /\
    status_of (Success None data) = 200 /\
    success_of (Success None data) = true /\
    gd_original data = content /\
    gd_suggestions data = templates t content id1 id2 id3 /\
    length (gd_suggestions data) = 3 /\
    map (fun s => get_prop s (js "text")) (gd_suggestions data)
    = map (fun x => Some (JStr x)) (template_texts t content) /\
    Forall (substring_of content) (template_texts t content) /\
    map (fun s => get_prop s (js "id")) (gd_suggestions data)
    = [Some (JStr id1); Some (JStr id2); Some (JStr id3)] /\
    st_uuids (snd (generate now body st)) = 3 + st_uuids st /\
    ((forall i j, uuid_source i = uuid_source j -> i = j) ->
     NoDup [id1; id2; id3] /\
     forall n, n < st_uuids st -> ~ In (uuid_source n) [id1; id2; id3]).
Proof.
  intros Hc Ht Hg Hai id1 id2 id3.
  pose proof (generate_run now body st Hc Ht Hg) as Hrun. cbv zeta in Hrun.
  assert (Hd : exists e pre,
             generate now body st
             = (generate_default now content type t st,
                advance 3 (pre ++ [LogAIParseFailed e]) st)).
  { destruct Hai as [Hnone | [s [Hs [Hno | [m [Hm Hp]]]]]].
    - rewrite Hnone in Hrun. eauto.
    - rewrite Hs, Hno in Hrun. eauto.
    - rewrite Hs, Hm, Hp in Hrun. eauto. }
  destruct Hd as [e [pre Hd]]. rewrite Hd.
  destruct (templates_fields t content id1 id2 id3) as [Hl [Htxt Hid]].
  eexists. split; [reflexivity|]. cbn [gd_original gd_suggestions snd advance
                                       st_uuids].
  repeat split; auto.
  - apply template_texts_embed.
  - assert (Hne : forall a b, a <> b -> uuid_source a <> uuid_source b)
      by (intros a b Hab Heq; apply Hab; auto).
    unfold id1, id2, id3.
    repeat constructor; simpl; intros Hin;
      repeat (destruct Hin as [Hin | Hin]; [apply H in Hin; lia|]);
      exact Hin.
  - intros n Hn Hin. unfold id1, id2, id3 in Hin. simpl in Hin.
    repeat (destruct Hin as [Hin | Hin]; [apply H in Hin; lia|]).
    exact Hin.
Qed.

End Generate.

Lemma new_events_advance (n : nat) (evs : list event) (st : state) :
  new_events st (advance n evs st) = evs.
Proof.
  unfold new_events, advance. simpl.
  rewrite skipn_app, Nat.sub_diag, skipn_all. reflexivity.
Qed.

Section Extraction.

Context {P : Platform}.

(** C6. On a reply that is a string, the JSON extraction of
    POST /api/assistant/generate takes exactly the part from the first
    opening bracket to the last closing bracket of the reply; and the
    default templates are used if and only if there is no such part or
    [JSON.parse] throws on it (a JSON text that starts with a bracket
    parses to an array, which is what the hypothesis on [JSON_parse]
    says). *)
Theorem generate_extracts_first_to_last_bracket (now : Z)
    (body : generate_body) (st : state) (content type : jsstring)
    (t : gen_type) (s : jsstring) :
  nonempty (g_content body) = Some content ->
  nonempty (g_type body) = Some type ->
  gen_type_of type = Some t ->
  ai_service (generate_request t content) = Some (JStr s) ->
  (forall m v, JSON_parse m = Some v -> (exists rest, m = lbracket :: rest) ->
               isArray v = true) ->
  regex_search lbracket rbracket s = first_to_last lbracket rbracket s /\
  let defaults_used :=
    exists e, In (LogAIParseFailed e)
                 (new_events st (snd (generate now body st))) in
  (defaults_used <->
   (first_to_last lbracket rbracket s = None \/
    exists m, first_to_last lbracket rbracket s = Some m /\
              JSON_parse m = None)) /\
  (defaults_used ->
   fst (generate now body st) = generate_default now content type t st) /\
  (~ defaults_used ->
   exists m items,
     first_to_last lbracket rbracket s = Some m /\
     JSON_parse m = Some (JArr items) /\
     fst (generate now body st)
     = generate_success now content type (tag_from (st_uuids st) items)).
Proof.
  intros Hc Ht Hg Hai Harr.
  split; [apply regex_search_spec|].
  pose proof (generate_run now body st Hc Ht Hg) as Hrun. cbv zeta in Hrun.
  rewrite Hai in Hrun. rewrite <- regex_search_spec.
  destruct (regex_search lbracket rbracket s) as [m|] eqn:Hm.
  - destruct (JSON_parse m) as [v|] eqn:Hp.
    + assert (Hv : isArray v = true)
        by (apply (Harr m v Hp), (regex_search_head _ _ _ Hm)).
      destruct v as [| |b|q|s'|items|fields]; try discriminate.
      rewrite Hrun. cbn [fst snd]. rewrite new_events_advance.
      assert (Hno : ~ exists e, In (LogAIParseFailed e)
                                   [CallAI (generate_request t content)]).
      { intros [e [H | []]]. discriminate. }
      repeat split.
      * intros H. contradiction.
      * intros [H | [m' [H Hp']]]; [discriminate|].
        injection H as <-. congruence.
      * intros H. contradiction.
      * intros _. exists m, items. auto.
    + rewrite Hrun. cbn [fst snd]. rewrite new_events_advance.
      assert (Hyes : exists e, In (LogAIParseFailed e)
                       ([CallAI (generate_request t content)]
                        ++ [LogAIParseFailed SyntaxError])).
      { exists SyntaxError. simpl. auto. }
      repeat split.
      * intros _. right. exists m. auto.
      * intros _. exact Hyes.
      * intros H. contradiction.
  - rewrite Hrun. cbn [fst snd]. rewrite new_events_advance.
    assert (Hyes : exists e, In (LogAIParseFailed e)
                     ([CallAI (generate_request t content)]
                      ++ [LogAIParseFailed (Error (js "AI返回格式异常"))])).
    { eexists. simpl. auto. }
    repeat split.
    + intros _. now left.
    + intros _. exact Hyes.
    + intros H. contradiction.
Qed.

End Extraction.

(** The reader of the example platform makes an array of a text that
    starts with a bracket. *)
Lemma parse_elements_array (fuel : nat) :
  forall s acc v rest,
    Json.parse_elements fuel s acc = Some (v, rest) -> isArray v = true.
Proof.
  induction fuel as [|fuel IH]; intros s acc v rest; [discriminate|].
  cbn [Json.parse_elements].
  destruct (Json.parse_value fuel s) as [[w r]|]; [|discriminate].
  destruct (Json.expect 44 r) as [r'|]; [apply IH|].
  destruct (Json.expect 93 r) as [r'|]; [|discriminate].
  intros H. injection H as <- _. reflexivity.
Qed.

Lemma Json_parse_array (m : jsstring) (v : jsval) :
  Json.parse m = Some v -> (exists rest, m = lbracket :: rest) ->
  isArray v = true.
Proof.
  intros H [rest ->]. unfold Json.parse in H.
  replace (2 * length (lbracket :: rest) + 2)
    with (S (2 * length (lbracket :: rest) + 1)) in H by lia.
  cbn [Json.parse_value] in H.
  change (Json.skip_ws (lbracket :: rest)) with (lbracket :: rest) in H.
  unfold lbracket in H. cbn [N.eqb Pos.eqb] in H.
  destruct (Json.expect 93 rest) as [r'|].
  - destruct (Json.skip_ws r'); [|discriminate]. injection H as <-. reflexivity.
  - destruct (Json.parse_elements _ rest []) as [[w r]|] eqn:E; [|discriminate].
    apply parse_elements_array in E.
    destruct (Json.skip_ws r); [|discriminate]. injection H as <-. exact E.
Qed.

(* ===================================================================== *)
(** * POST /api/assistant/suggest *)
(* ===================================================================== *)

Lemma last_in {A} (l : list A) (d : A) : l <> [] -> In (last l d) l.
Proof.
  induction l as [|x l IH]; intros H; [congruence|].
  destruct l as [|y l']; [now left|].
  right. apply IH. discriminate.
Qed.

Section Suggest.

Context {P : Platform}.













Lemma random_topic_some (random : Q) :
  (0 <= random)%Q -> (random < 1)%Q -> exists x, random_topic random = Some x.
Proof.
  intros H0 H1. unfold random_topic.
  set (x := (random * inject_Z (Z.of_nat (length default_topics)))%Q).
  assert (Hx0 : (0 <= x)%Q).
  { unfold x. apply Qmult_le_0_compat; [exact H0 | discriminate]. }
  assert (Hx5 : (x < 5)%Q).
  { unfold x. change (inject_Z (Z.of_nat (length default_topics))) with 5%Q.
    setoid_replace 5%Q with (1 * 5)%Q by ring.
    apply Qmult_lt_compat_r; [reflexivity | exact H1]. }
  assert (Hlo : (0 <= Qfloor x)%Z).
  { rewrite <- (Qfloor_Z 0). now apply Qfloor_resp_le. }
  assert (Hhi : (Qfloor x < 5)%Z).
  { rewrite Zlt_Qlt. apply Qle_lt_trans with x; [apply Qfloor_le | exact Hx5]. }
  destruct (Z.ltb_spec (Qfloor x) 0); [lia|].
  destruct (nth_error default_topics (Z.to_nat (Qfloor x))) as [y|] eqn:E.
  - now exists y.
  - apply nth_error_None in E. change (length default_topics) with 5 in E.
    lia.
Qed.


Lemma map_content_run (messages : list jsval) (st : state) :
  Forall message_ok messages ->
  map_content messages st
  = (Ok (map (fun m => get_prop_opt m (js "content")) messages), st).
Proof.
  induction 1 as [|m l [c [Hc _]] _ IH]; cbn [map_content map].
  - reflexivity.
  - run. rewrite Hc, IH. unfold get_prop_opt. rewrite Hc. reflexivity.
Qed.

Lemma element_strings_ok (messages : list jsval) :
  Forall message_ok messages ->
  exists strs,
    element_strings (map (fun m => get_prop_opt m (js "content")) messages)
    = Some strs.
Proof.
  induction 1 as [|m l [c [Hc Hk]] _ [strs IH]]; cbn [map element_strings].
  - now exists [].
  - assert (E : get_prop_opt m (js "content") = c)
      by (unfold get_prop_opt; now rewrite Hc).
    rewrite E, IH.
    destruct Hk as [-> | [s ->]]; eexists; reflexivity.
Qed.

Lemma last_message_text (messages : list jsval) :
  Forall message_ok messages ->
  js_or (get_prop_opt (last messages JUndefined) (js "content")) (JStr [])
  = JStr (last_text messages).
Proof.
  intros H. unfold last_text.
  assert (Hl : last messages JUndefined = JUndefined \/
               message_ok (last messages JUndefined)).
  { induction H as [|m l Hm Hall IH]; [now left|].
    right. destruct l as [|m' l']; [exact Hm|].
    destruct IH as [IH | IH].
    - exfalso. clear -Hall IH.
      assert (Hin : In (last (m' :: l') JUndefined) (m' :: l'))
        by (apply last_in; discriminate).
      rewrite Forall_forall in Hall. specialize (Hall _ Hin).
      rewrite IH in Hall. destruct Hall as [c [Hc _]]. discriminate.
    - exact IH. }
  destruct Hl as [-> | [c [Hc Hk]]].
  - reflexivity.
  - unfold get_prop_opt. rewrite Hc.
    destruct Hk as [-> | [s ->]]; [reflexivity|]. destruct s; reflexivity.
Qed.

End Suggest.

Section SuggestRoute.

Context {P : Platform}.



End SuggestRoute.

(* ===================================================================== *)
(** * POST /api/profile/analyze: the run of the handler *)
(* ===================================================================== *)

Section Analyze.

Context {P : Platform}.

Lemma findById_run (id : jsstring) (st : state) :
  userOperations_findById id st
  = (Ok (first_row (filter (fun u => str_eqb (u_id u) id)
                           (users (st_db st)))), st).
Proof. reflexivity. Qed.

Lemma moments_findByUserId_run (userId : jsstring) (st : state) :
  momentOperations_findByUserId userId st
  = (Ok (recent_moments (st_db st) userId), st).
Proof. reflexivity. Qed.

Lemma interactions_findByUserId_run (userId : jsstring) (st : state) :
  interactionOperations_findByUserId userId st
  = (Ok (recent_interactions (st_db st) userId), st).
Proof. reflexivity. Qed.

Lemma callAIModel_profile_run (aiPrompt : jsstring) (st : state) :
  callAIModel_profile aiPrompt (7 # 10)%Q st
  = (Ok (profile_reply aiPrompt), add_events (profile_call_events aiPrompt) st).
Proof.
  unfold callAIModel_profile, profile_reply, profile_call_events.
  fold (profile_request aiPrompt). run.
  destruct (ai_service (profile_request aiPrompt)); unfold add_events;
    cbn [st_db st_uuids st_trace st_suggestions]; rewrite <- ?app_assoc;
    reflexivity.
Qed.

Lemma complete_profile_run (moments : list moment_row)
    (userData : option user_data) (a : analysis) (st : state) :
  complete_profile moments userData a st
  = (Ok (completed moments userData a), add_events (keyword_events a) st).
Proof.
  unfold complete_profile, completed, keyword_events, add_events. run.
  destruct (an_interests a), (an_values a), (an_personalityVector a);
    cbn [st_db st_uuids st_trace st_suggestions app];
    rewrite <- ?app_assoc, ?app_nil_r; destruct st; reflexivity.
Qed.

Lemma quiet_ret {A} (a : A) : quiet (ret a).
Proof. now apply logs_ret. Qed.

Lemma quiet_throw {A} (e : error) : quiet (@throw A e).
Proof. now apply logs_throw. Qed.

Lemma quiet_unmodelled {A} : quiet (@unmodelled A).
Proof. now apply logs_unmodelled. Qed.

Lemma quiet_lift_option {A} (o : option A) (e : error) :
  quiet (lift_option o e).
Proof. destruct o; [apply quiet_ret | apply quiet_throw]. Qed.

Lemma quiet_bind {A B} (m : M A) (k : A -> M B) :
  quiet m -> (forall a, quiet (k a)) -> quiet (bind m k).
Proof.
  intros Hm Hk. eapply logs_bind; [exact Hm | | |].
  - intros a e1 ->. apply Hk.
  - intros e e1 ->. reflexivity.
  - intros e1 ->. reflexivity.
Qed.

Lemma quiet_field_or {A} (aiAnalysis : jsval) (key : jsstring)
    (decode : jsval -> decoded A) (fallback : A) :
  quiet (field_or aiAnalysis key decode fallback).
Proof.
  unfold field_or. apply quiet_bind; [apply quiet_lift_option|].
  intros v. destruct (decode v);
    [apply quiet_ret | apply quiet_ret | apply quiet_unmodelled].
Qed.

Lemma quiet_read_analysis (aiAnalysis : jsval) :
  quiet (read_analysis aiAnalysis).
Proof.
  unfold read_analysis.
  repeat (apply quiet_bind; [apply quiet_field_or | intros ?]).
  apply quiet_ret.
Qed.

(** The reply of the model is read without touching the database: the
    result and the lines logged depend on the reply alone, nothing is
    thrown, and only parse failures are logged. *)
Lemma analysis_from_ai_logs (aiResponse : jsval) :
  logs (analysis_from_ai aiResponse)
       (fun r evs => (forall e, r <> Throw e) /\ parse_logs evs).
Proof.
  unfold analysis_from_ai.
  destruct (truthy aiResponse).
  - eapply logs_try_catch
      with (Q1 := fun r evs => evs = []).
    + apply quiet_bind.
      * unfold js_match.
        destruct aiResponse; first [apply quiet_throw | apply quiet_ret].
      * intros [text|]; [|apply quiet_ret].
        apply quiet_bind; [apply quiet_lift_option|].
        apply quiet_read_analysis.
    + intros e e1 ->. eapply logs_bind.
      * apply logs_emit
          with (Q := fun r evs => r = Ok tt /\ evs = [LogAIParseFailed e]).
        auto.
      * intros a e1 [_ ->]. apply logs_ret. split; [intros; discriminate|].
        constructor; [eauto | constructor].
      * intros e' e1 [H _]. discriminate.
      * intros e1 [H _]. discriminate.
    + intros a e1 ->. split; [intros; discriminate | constructor].
    + intros e1 ->. split; [intros; discriminate | constructor].
  - apply logs_ret. split; [intros; discriminate | constructor].
Qed.

End Analyze.

Section AnalyzeRun.

Context {P : Platform}.

Lemma save_profile_run (now : Z) (userId : jsstring) (pd : profile_data)
    (st : state) :
  save_profile now userId pd st
  = match first_row (filter (fun p => str_eqb (p_user_id p) userId)
                            (soul_profiles (st_db st))) with
    | Some _ =>
      match pd_match_score pd with
      | None => (Throw (DbError soul_profiles_match_score_integer), st)
      | Some score =>
        (Ok tt, set_profiles (updated_profiles now userId pd score
                                (soul_profiles (st_db st))) st)
      end
    | None =>
      let id := uuid_source (st_uuids st) in
      if existsb (fun p => str_eqb (p_id p) id) (soul_profiles (st_db st))
      then (Throw (DbError soul_profiles_pkey), draw st)
      else if negb (existsb (fun u => str_eqb (u_id u) userId)
                            (users (st_db st)))
      then (Throw (DbError soul_profiles_user_id_fkey), draw st)
      else if existsb (fun p => str_eqb (p_user_id p) userId)
                      (soul_profiles (st_db st))
      then (Throw (DbError soul_profiles_user_id_key), draw st)
      else (Ok tt, set_profiles (new_profile_row now id userId pd
                                 :: soul_profiles (st_db st)) (draw st))
    end.
Proof.
  unfold save_profile, soulProfileOperations_findByUserId,
    soulProfileOperations_update, soulProfileOperations_create. run.
  destruct (first_row _) as [p|].
  - destruct (pd_match_score pd); [|destruct st; reflexivity]. reflexivity.
  - cbn [st_db st_uuids st_trace st_suggestions].
    destruct (existsb _ (soul_profiles (st_db st))); [reflexivity|].
    destruct (existsb _ (users (st_db st))); cbn [negb]; [|reflexivity].
    destruct (existsb _ (soul_profiles (st_db st))); reflexivity.
Qed.

Lemma analyze_user_run (now : Z) (userId : jsstring)
    (userData : option user_data) (st : state) :
  let d := st_db st in
  let aiPrompt := user_prompt d userId in
  let aiResponse := profile_reply aiPrompt in
  analyze_user now userId userData st
  = match analysis_from_ai aiResponse
            (add_events (profile_call_events aiPrompt) st) with
    | (Ok a, st2) =>
      let pd := completed (recent_moments d userId) userData a in
      match save_profile now userId pd (add_events (keyword_events a) st2) with
      | (Ok _, st4) => (Ok (analyze_success now userId d aiResponse pd), st4)
      | (Throw e, st4) => (Throw e, st4)
      | (Unmodelled, st4) => (Unmodelled, st4)
      end
    | (Throw e, st2) => (Throw e, st2)
    | (Unmodelled, st2) => (Unmodelled, st2)
    end.
Proof.
  intros d aiPrompt aiResponse. subst aiResponse aiPrompt d.
  unfold user_prompt, analyze_user.
  rewrite bind_run, moments_findByUserId_run. cbv iota beta.
  rewrite bind_run, interactions_findByUserId_run. cbv iota beta zeta.
  rewrite bind_run, callAIModel_profile_run. cbv iota beta.
  rewrite bind_run.
  destruct (analysis_from_ai _ _) as [[a|e|] st2]; try reflexivity.
  rewrite bind_run, complete_profile_run. cbv iota beta.
  rewrite bind_run.
  destruct (save_profile _ _ _ _) as [[[]|e|] st4]; reflexivity.
Qed.

Lemma analyze_run (now : Z) (body : analyze_body) (st : state) :
  analyze now body st
  = match nonempty (ab_userId body) with
    | None => (Ok (Failure 400 (Fixed (js "缺少必要参数：userId")) None), st)
    | Some userId =>
      match first_row (filter (fun u => str_eqb (u_id u) userId)
                              (users (st_db st))) with
      | None => (Ok (Failure 404 (Fixed (js "用户不存在")) None), st)
      | Some _ =>
        match analyze_user now userId (ab_userData body) st with
        | (Throw e, st') =>
          (Ok (Failure 500 (Fixed (js "服务器内部错误")) (Some e)),
           add_events [LogRouteFailed e] st')
        | other => other
        end
      end
    end.
Proof.
  unfold analyze. rewrite try_catch_run.
  destruct (nonempty (ab_userId body)) as [userId|]; [|reflexivity].
  rewrite bind_run, findById_run. cbv iota beta.
  destruct (first_row _); [|reflexivity].
  destruct (analyze_user now userId (ab_userData body) st) as [[r|e|] st'];
    reflexivity.
Qed.

End AnalyzeRun.

(* ===================================================================== *)
(** * One soul profile per user *)
(* ===================================================================== *)

Section OneProfile.

Context {P : Platform}.

Lemma existsb_false_forall {A} (p : A -> bool) (l : list A) :
  existsb p l = false -> forall x, In x l -> p x = false.
Proof.
  intros H x Hx. destruct (p x) eqn:E; [|reflexivity].
  rewrite (existsb_true p l x Hx E) in H. discriminate.
Qed.

Lemma first_row_filter_cases {A} (p : A -> bool) (l : list A) :
  (exists x, first_row (filter p l) = Some x /\ In x l /\ p x = true) \/
  (first_row (filter p l) = None /\ forall x, In x l -> p x = false).
Proof.
  destruct (first_row (filter p l)) as [x|] eqn:E.
  - left. exists x. split; [reflexivity|]. now apply first_row_filter_some.
  - right. split; [reflexivity|]. intros x Hx.
    destruct (p x) eqn:Ep; [|reflexivity]. exfalso.
    revert E. clear -Hx Ep. induction l as [|y l IH]; simpl; [contradiction|].
    destruct Hx as [-> | Hx].
    + rewrite Ep. discriminate.
    + destruct (p y); [discriminate | auto].
Qed.

Lemma save_profile_step (now : Z) (userId : jsstring) (pd : profile_data)
    (st : state) :
  profile_step now userId (uuid_source (st_uuids st)) pd (st_db st)
               (st_db (snd (save_profile now userId pd st))).
Proof.
  rewrite save_profile_run. unfold profile_step.
  destruct (first_row_filter_cases (fun p => str_eqb (p_user_id p) userId)
              (soul_profiles (st_db st))) as [[p [-> [Hin Hu]]] | [-> Hnone]].
  - apply str_eqb_eq in Hu.
    destruct (pd_match_score pd) as [score|] eqn:Es; state_fields.
    + repeat split. right. left. exists score. eauto.
    + repeat split. now left.
  - cbv zeta.
    destruct (existsb _ (soul_profiles (st_db st))) eqn:E1; state_fields;
      [repeat split; now left|].
    destruct (existsb _ (users (st_db st))) eqn:E2; cbn [negb]; state_fields;
      [|repeat split; now left].
    rewrite (existsb_false _ _ Hnone). state_fields.
    repeat split. right. right. repeat split.
    + intros q Hq. apply str_eqb_neq. now apply Hnone.
    + intros q Hq. apply str_eqb_neq.
      now apply (existsb_false_forall _ _ E1).
Qed.



End OneProfile.

Section OneProfileRoute.

Context {P : Platform}.

(** A run of the handler either writes nothing, draws no identifier and
    does not answer with success, or ends with [save_profile] on the state
    it started from (but for the trace) and answers according to it. *)
Lemma analyze_effect (now : Z) (body : analyze_body) (st : state) :
  (st_db (snd (analyze now body st)) = st_db st /\
   st_uuids (snd (analyze now body st)) = st_uuids st /\
   forall m d, fst (analyze now body st) <> Ok (Success m d)) \/
  exists userId a E,
    nonempty (ab_userId body) = Some userId /\
    let pd := completed (recent_moments (st_db st) userId)
                        (ab_userData body) a in
    let saved := save_profile now userId pd (add_events E st) in
    st_db (snd (analyze now body st)) = st_db (snd saved) /\
    st_uuids (snd (analyze now body st)) = st_uuids (snd saved) /\
    forall m d,
      fst (analyze now body st) = Ok (Success m d) ->
      fst saved = Ok tt /\
      Success m d
      = analyze_success now userId (st_db st)
          (profile_reply (user_prompt (st_db st) userId)) pd.
Proof.
  rewrite analyze_run.
  destruct (nonempty (ab_userId body)) as [userId|] eqn:Hu;
    [|left; repeat split; intros; discriminate].
  destruct (first_row _) as [u|];
    [|left; repeat split; intros; discriminate].
  rewrite analyze_user_run. cbv zeta.
  destruct (analysis_from_ai_logs
              (profile_reply (user_prompt (st_db st) userId)))
    as [r [evs [Hrun [Hnothrow _]]]].
  rewrite Hrun, add_events_app.
  destruct r as [a|e|].
  - right. rewrite add_events_app.
    exists userId, a,
      ((profile_call_events (user_prompt (st_db st) userId) ++ evs)
       ++ keyword_events a).
    split; [reflexivity|]. cbv zeta.
    destruct (save_profile _ _ _ _) as [[[]|e|] st4]; state_fields.
    + split; [reflexivity | split; [reflexivity|]].
      intros m d H. injection H as <- <-. auto.
    + split; [reflexivity | split; [reflexivity|]]. intros; discriminate.
    + split; [reflexivity | split; [reflexivity|]]. intros; discriminate.
  - exfalso. now apply (Hnothrow e).
  - left. state_fields. split; [reflexivity | split; [reflexivity|]].
    intros; discriminate.
Qed.


End OneProfileRoute.

(* ===================================================================== *)
(** * The twenty most recent moments *)
(* ===================================================================== *)

Section Ordering.

Context {A : Type} (created_at : A -> Z).

Lemma insert_desc_perm (x : A) (l : list A) :
  Permutation (insert_desc created_at x l) (x :: l).
Proof.
  induction l as [|y l IH]; cbn [insert_desc]; [reflexivity|].
  destruct (created_at x <=? created_at y)%Z.
  - rewrite IH. apply perm_swap.
  - reflexivity.
Qed.

Lemma order_by_desc_perm (l : list A) :
  Permutation (order_by_desc created_at l) l.
Proof.
  unfold order_by_desc. induction l as [|x l IH]; cbn [fold_right].
  - reflexivity.
  - rewrite insert_desc_perm. now constructor.
Qed.

Lemma insert_desc_sorted (x : A) (l : list A) :
  StronglySorted (not_older created_at) l ->
  StronglySorted (not_older created_at) (insert_desc created_at x l).
Proof.
  induction 1 as [|y l Hs IH Hy]; cbn [insert_desc].
  - repeat constructor.
  - destruct (Z.leb_spec (created_at x) (created_at y)).
    + constructor; [exact IH|].
      rewrite Forall_forall. intros z Hz.
      apply (Permutation_in _ (insert_desc_perm x l)) in Hz.
      destruct Hz as [<- | Hz]; [exact H|].
      rewrite Forall_forall in Hy. now apply Hy.
    + constructor; [now constructor|].
      constructor; [unfold not_older; lia|].
      rewrite Forall_forall in *. intros z Hz. specialize (Hy z Hz).
      unfold not_older in *. lia.
Qed.

Lemma order_by_desc_sorted (l : list A) :
  StronglySorted (not_older created_at) (order_by_desc created_at l).
Proof.
  unfold order_by_desc. induction l as [|x l IH]; cbn [fold_right].
  - constructor.
  - now apply insert_desc_sorted.
Qed.

Lemma insert_desc_head (x : A) (l : list A) :
  (forall z, In z l -> (created_at z < created_at x)%Z) ->
  insert_desc created_at x l = x :: l.
Proof.
  destruct l as [|y l]; intros H; cbn [insert_desc]; [reflexivity|].
  specialize (H y (or_introl eq_refl)).
  destruct (Z.leb_spec (created_at x) (created_at y)); [lia | reflexivity].
Qed.

Lemma insert_desc_filter (p : A -> bool) (x : A) (l : list A) :
  StronglySorted (not_older created_at) l ->
  filter p (insert_desc created_at x l)
  = if p x then insert_desc created_at x (filter p l) else filter p l.
Proof.
  induction 1 as [|y l Hs IH Hy]; cbn [insert_desc filter].
  - destruct (p x); reflexivity.
  - destruct (Z.leb_spec (created_at x) (created_at y)) as [Hle | Hlt];
      cbn [filter].
    + rewrite IH. destruct (p y) eqn:Ey; destruct (p x) eqn:Ex;
        cbn [insert_desc]; try reflexivity.
      destruct (Z.leb_spec (created_at x) (created_at y)); [reflexivity | lia].
    + destruct (p x) eqn:Ex; [|reflexivity].
      destruct (p y) eqn:Ey.
      * cbn [insert_desc].
        destruct (Z.leb_spec (created_at x) (created_at y)); [lia | reflexivity].
      * symmetry. apply insert_desc_head. intros z Hz.
        apply filter_In in Hz. destruct Hz as [Hz _].
        rewrite Forall_forall in Hy. specialize (Hy z Hz).
        unfold not_older in Hy. lia.
Qed.

(** Sorting commutes with a WHERE clause. *)
Lemma order_by_desc_filter (p : A -> bool) (l : list A) :
  order_by_desc created_at (filter p l)
  = filter p (order_by_desc created_at l).
Proof.
  induction l as [|x l IH]; [reflexivity|].
  change (order_by_desc created_at (x :: l))
    with (insert_desc created_at x (order_by_desc created_at l)).
  rewrite insert_desc_filter by apply order_by_desc_sorted.
  cbn [filter]. destruct (p x); [|exact IH].
  change (order_by_desc created_at (x :: filter p l))
    with (insert_desc created_at x (order_by_desc created_at (filter p l))).
  now rewrite IH.
Qed.

Lemma firstn_filter_all (p : A -> bool) (n : nat) (l : list A) :
  (forall x, In x (firstn n l) -> p x = true) ->
  firstn n (filter p l) = firstn n l.
Proof.
  revert l. induction n as [|n IH]; intros l H; [reflexivity|].
  destruct l as [|y l]; [reflexivity|].
  cbn [firstn] in H. cbn [filter]. rewrite (H y (or_introl eq_refl)).
  cbn [firstn]. f_equal. apply IH. intros x Hx. apply H. now right.
Qed.

Lemma sorted_firstn_skipn (n : nat) (l : list A) :
  StronglySorted (not_older created_at) l ->
  forall a b, In a (firstn n l) -> In b (skipn n l) -> not_older created_at a b.
Proof.
  intros Hs. revert n. induction Hs as [|y l Hs IH Hy]; intros n a b Ha Hb.
  - destruct n; contradiction.
  - destruct n as [|n]; [contradiction|].
    cbn [firstn skipn] in *. destruct Ha as [<- | Ha].
    + rewrite Forall_forall in Hy. apply Hy.
      rewrite <- (firstn_skipn n l). apply in_or_app. now right.
    + eapply IH; eassumption.
Qed.

End Ordering.

Section RecentMoments.

Context {P : Platform}.

Lemma save_profile_frame (now : Z) (userId : jsstring) (pd : profile_data)
    (ms : list moment_row) (st : state) :
  save_profile now userId pd (with_moments ms st)
  = (fst (save_profile now userId pd st),
     with_moments ms (snd (save_profile now userId pd st))).
Proof.
  rewrite !save_profile_run. cbn [with_moments st_db st_uuids soul_profiles users].
  destruct (first_row _).
  - destruct (pd_match_score pd); reflexivity.
  - cbv zeta.
    destruct (existsb _ (soul_profiles (st_db st))); [reflexivity|].
    destruct (existsb _ (users (st_db st))); cbn [negb]; [|reflexivity].
    destruct (existsb _ (soul_profiles (st_db st))); reflexivity.
Qed.

Lemma filter_filter_comm {A} (p q : A -> bool) (l : list A) :
  filter p (filter q l) = filter q (filter p l).
Proof.
  induction l as [|x l IH]; [reflexivity|]. cbn [filter].
  destruct (p x) eqn:Ep; destruct (q x) eqn:Eq; cbn [filter];
    rewrite ?Ep, ?Eq, IH; reflexivity.
Qed.

Lemma analyze_keeps_moments (now : Z) (body : analyze_body) (st : state) :
  moments (st_db (snd (analyze now body st))) = moments (st_db st).
Proof.
  destruct (analyze_effect now body st)
    as [[Hdb _] | [userId [a [E [_ H]]]]].
  - now rewrite Hdb.
  - cbv zeta in H. destruct H as [Hdb _]. rewrite Hdb.
    match goal with
    | |- context [save_profile ?n ?u ?pd ?s] =>
      destruct (save_profile_step n u pd s) as [_ [Hm _]]
    end.
    exact Hm.
Qed.

(** The handler sees the table of moments only through the rows that
    [findByUserId] returns. *)
Lemma analyze_frame (now : Z) (body : analyze_body) (ms : list moment_row)
    (st : state) :
  (forall userId,
     nonempty (ab_userId body) = Some userId ->
     recent_moments (st_db (with_moments ms st)) userId
     = recent_moments (st_db st) userId) ->
  analyze now body (with_moments ms st)
  = (fst (analyze now body st), with_moments ms (snd (analyze now body st))).
Proof.
  intros H. rewrite !analyze_run.
  destruct (nonempty (ab_userId body)) as [userId|]; [|reflexivity].
  specialize (H userId eq_refl).
  cbn [with_moments st_db users].
  destruct (first_row _); [|reflexivity].
  rewrite !analyze_user_run. cbv zeta.
  assert (E2 : user_prompt (st_db (with_moments ms st)) userId
               = user_prompt (st_db st) userId).
  { unfold user_prompt. rewrite H. reflexivity. }
  assert (E3 : forall v pd,
             analyze_success now userId (st_db (with_moments ms st)) v pd
             = analyze_success now userId (st_db st) v pd).
  { intros v pd. unfold analyze_success. rewrite H. reflexivity. }
  rewrite E2, H.
  destruct (analysis_from_ai_logs
              (profile_reply (user_prompt (st_db st) userId)))
    as [r [evs [Hrun _]]].
  rewrite !Hrun. destruct r as [a|e|]; [|reflexivity|reflexivity].
  rewrite !add_events_app.
  change (add_events ?E (with_moments ms st))
    with (with_moments ms (add_events E st)).
  rewrite save_profile_frame, E3.
  destruct (save_profile _ _ _ _) as [[[]|e|] st4]; reflexivity.
Qed.

(** C9. [momentOperations.findByUserId], called without a limit, returns
    at most 20 rows of the user, the most recent first, and no row it leaves
    out is more recent than one it returns. POST /api/profile/analyze reads
    the moments through this call alone: deleting the moments with some
    identifier that is not among the rows returned changes neither the
    prompt sent to the model, nor the answer, nor anything the handler
    writes. *)
Theorem analyze_reads_twenty_most_recent_moments :
  (forall userId st,
     let rows := recent_moments (st_db st) userId in
     momentOperations_findByUserId userId st = (Ok rows, st) /\
     length rows <= 20 /\
     StronglySorted (not_older m_created_at) rows /\
     exists rest,
       Permutation (rows ++ rest)
         (filter (fun m => str_eqb (m_user_id m) userId)
                 (moments (st_db st))) /\
       forall r m, In r rows -> In m rest ->
                   (m_created_at m <= m_created_at r)%Z) /\
  (forall now body st id,
     (forall userId,
        nonempty (ab_userId body) = Some userId ->
        forall m, In m (recent_moments (st_db st) userId) -> m_id m <> id) ->
     (forall userId,
        nonempty (ab_userId body) = Some userId ->
        user_prompt (st_db (delete_moment id st)) userId
        = user_prompt (st_db st) userId) /\
     fst (analyze now body (delete_moment id st)) = fst (analyze now body st) /\
     snd (analyze now body (delete_moment id st))
     = delete_moment id (snd (analyze now body st))).
Proof.
  split.
  - intros userId st rows.
    split; [reflexivity|]. split; [apply firstn_le_length|].
    set (sorted := order_by_desc m_created_at
                     (filter (fun m => str_eqb (m_user_id m) userId)
                             (moments (st_db st)))).
    assert (Hs : StronglySorted (not_older m_created_at) sorted)
      by apply order_by_desc_sorted.
    split.
    + unfold rows, recent_moments. fold sorted.
      clear -Hs. generalize 20. induction Hs as [|y l Hs IH Hy]; intros n.
      * destruct n; constructor.
      * destruct n; [constructor|]. cbn [firstn]. constructor; [apply IH|].
        rewrite Forall_forall in *. intros z Hz. apply Hy.
        rewrite <- (firstn_skipn n l). apply in_or_app. now left.
    + exists (skipn 20 sorted). split.
      * unfold rows, recent_moments. fold sorted.
        rewrite firstn_skipn. apply order_by_desc_perm.
      * intros r m Hr Hm.
        exact (sorted_firstn_skipn 20 Hs r m Hr Hm).
  - intros now body st id Hid.
    assert (Hrec : forall userId,
               nonempty (ab_userId body) = Some userId ->
               recent_moments (st_db (delete_moment id st)) userId
               = recent_moments (st_db st) userId).
    { intros userId Hu. unfold recent_moments, delete_moment.
      cbn [with_moments st_db moments].
      rewrite filter_filter_comm, order_by_desc_filter.
      apply firstn_filter_all. intros m Hm.
      apply negb_true_iff, str_eqb_neq. exact (Hid userId Hu m Hm). }
    split; [|split].
    + intros userId Hu. unfold user_prompt. rewrite (Hrec userId Hu).
      reflexivity.
    + unfold delete_moment at 1.
      rewrite (analyze_frame now body _ st Hrec). reflexivity.
    + unfold delete_moment at 1.
      rewrite (analyze_frame now body _ st Hrec). cbn [snd].
      unfold delete_moment. now rewrite analyze_keeps_moments.
Qed.

End RecentMoments.

(* ===================================================================== *)
(** * Keyword extraction of interests and values *)
(* ===================================================================== *)

Lemma set_add_spec (x : jsstring) (s : list jsstring) :
  (NoDup s -> NoDup (set_add x s)) /\
  (forall y, In y (set_add x s) <-> In y s \/ y = x).
Proof.
  unfold set_add. destruct (existsb (str_eqb x) s) eqn:E.
  - split; [auto|]. intros y. split; [auto|]. intros [H | ->]; [exact H|].
    apply existsb_exists in E. destruct E as [z [Hz Hxz]].
    apply str_eqb_eq in Hxz. now subst z.
  - split.
    + intros H. apply NoDup_app; [exact H | repeat constructor; auto |].
      intros y Hy [Heq | []]. subst y.
      pose proof (existsb_false_forall _ _ E x Hy) as Hn.
      rewrite str_eqb_refl in Hn. discriminate.
    + intros y. rewrite in_app_iff. simpl. intuition.
Qed.

Lemma new_Set_spec (l : list jsstring) :
  NoDup (new_Set l) /\ (forall y, In y (new_Set l) <-> In y l).
Proof.
  unfold new_Set.
  assert (H : forall acc,
             NoDup acc ->
             NoDup (fold_left (fun s x => set_add x s) l acc) /\
             (forall y, In y (fold_left (fun s x => set_add x s) l acc)
                        <-> In y acc \/ In y l)).
  { induction l as [|x l IH]; intros acc Hacc; cbn [fold_left].
    - split; [exact Hacc|]. intros y. simpl. tauto.
    - destruct (set_add_spec x acc) as [Hnd Hin].
      destruct (IH (set_add x acc) (Hnd Hacc)) as [H1 H2].
      split; [exact H1|]. intros y. rewrite H2, Hin. simpl. intuition. }
  destruct (H [] (NoDup_nil _)) as [H1 H2].
  split; [exact H1|]. intros y. rewrite H2. simpl. tauto.
Qed.

Lemma some_included_spec (content : jsstring) (keywords : list jsstring) :
  some_included content keywords = true
  <-> exists kw, In kw keywords /\ substring_of kw content.
Proof.
  unfold some_included. rewrite existsb_exists.
  split; intros [kw [H1 H2]]; exists kw; split; auto;
    now apply includes_spec.
Qed.

Lemma add_matching_spec (dictionary : list (jsstring * list jsstring))
    (found : list jsstring) (content : jsstring) :
  (NoDup found -> NoDup (add_matching dictionary found content)) /\
  (forall y, In y (add_matching dictionary found content)
             <-> In y found \/ matched dictionary [content] y).
Proof.
  unfold add_matching. revert found.
  induction dictionary as [|[category keywords] dict IH]; intros found;
    cbn [fold_left fst snd].
  - split; [auto|]. intros y. split; [auto|].
    intros [H | [ks [c [kw [[] _]]]]]. exact H.
  - destruct (some_included content keywords) eqn:E.
    + destruct (set_add_spec category found) as [Hnd Hin].
      destruct (IH (set_add category found)) as [H1 H2].
      split; [auto|]. intros y. rewrite H2, Hin.
      apply some_included_spec in E. destruct E as [kw [Hkw Hsub]].
      split.
      * intros [[H | ->] | [ks [c [kw' [Hd H]]]]].
        -- now left.
        -- right. exists keywords, content, kw. simpl. auto.
        -- right. exists ks, c, kw'. simpl. tauto.
      * intros [H | [ks [c [kw' [[Hd | Hd] H]]]]].
        -- auto.
        -- assert (Hy : category = y) by congruence. auto.
        -- right. exists ks, c, kw'. tauto.
    + destruct (IH found) as [H1 H2].
      split; [auto|]. intros y. rewrite H2. split.
      * intros [H | [ks [c [kw' [Hd H]]]]]; [now left|].
        right. exists ks, c, kw'. simpl. tauto.
      * intros [H | [ks [c [kw' [[Hd | Hd] [[<- | []] [Hkw Hsub]]]]]]].
        -- now left.
        -- assert (Hk : keywords = ks) by congruence. subst ks. exfalso.
           assert (Ht : some_included content keywords = true)
             by (apply some_included_spec; eauto).
           congruence.
        -- right. exists ks, content, kw'. simpl. auto.
Qed.

Lemma matched_cons (dictionary : list (jsstring * list jsstring))
    (c : jsstring) (contents : list jsstring) (y : jsstring) :
  matched dictionary (c :: contents) y
  <-> matched dictionary [c] y \/ matched dictionary contents y.
Proof.
  unfold matched. split.
  - intros [ks [c' [kw [Hd [[<- | Hc] H]]]]].
    + left. exists ks, c, kw. simpl. auto.
    + right. exists ks, c', kw. auto.
  - intros [[ks [c' [kw [Hd [[<- | []] H]]]]] | [ks [c' [kw [Hd [Hc H]]]]]].
    + exists ks, c, kw. simpl. auto.
    + exists ks, c', kw. simpl. auto.
Qed.

Lemma fold_add_matching_spec (dictionary : list (jsstring * list jsstring))
    (contents : list jsstring) :
  forall found,
    NoDup found ->
    NoDup (fold_left (add_matching dictionary) contents found) /\
    (forall y, In y (fold_left (add_matching dictionary) contents found)
               <-> In y found \/ matched dictionary contents y).
Proof.
  induction contents as [|c contents IH]; intros found Hnd; cbn [fold_left].
  - split; [exact Hnd|]. intros y. split; [auto|].
    intros [H | [ks [c [kw [_ [[] _]]]]]]. exact H.
  - destruct (add_matching_spec dictionary found c) as [H1 H2].
    destruct (IH (add_matching dictionary found c) (H1 Hnd)) as [H3 H4].
    split; [exact H3|]. intros y. rewrite H4, H2, (matched_cons dictionary c contents y). tauto.
Qed.

Lemma collect_spec (dictionary : list (jsstring * list jsstring))
    (contents additional : list jsstring) :
  NoDup (collect dictionary contents additional) /\
  (forall y, In y (collect dictionary contents additional)
             <-> In y additional \/ matched dictionary contents y).
Proof.
  unfold collect.
  destruct (new_Set_spec additional) as [Hnd Hin].
  destruct (fold_add_matching_spec dictionary contents Hnd) as [H1 H2].
  split; [exact H1|]. intros y. now rewrite H2, Hin.
Qed.

Lemma fold_left_map_arg {A B C} (f : A -> C -> A) (g : B -> C) (l : list B)
    (a : A) :
  fold_left (fun acc x => f acc (g x)) l a = fold_left f (map g l) a.
Proof.
  revert a. induction l as [|x l IH]; intros a; [reflexivity|].
  cbn [fold_left map]. apply IH.
Qed.

Lemma new_events_of_trace (st st' : state) (evs : list event) :
  st_trace st' = st_trace st ++ evs -> new_events st st' = evs.
Proof.
  intros H. unfold new_events. rewrite H, skipn_app, Nat.sub_diag, skipn_all.
  reflexivity.
Qed.

Section Fallback.

Context {P : Platform}.

Lemma save_profile_trace (now : Z) (userId : jsstring) (pd : profile_data)
    (st : state) :
  st_trace (snd (save_profile now userId pd st)) = st_trace st.
Proof.
  rewrite save_profile_run.
  destruct (first_row _).
  - destruct (pd_match_score pd); reflexivity.
  - cbv zeta.
    destruct (existsb _ (soul_profiles (st_db st))); [reflexivity|].
    destruct (existsb _ (users (st_db st))); cbn [negb]; [|reflexivity].
    destruct (existsb _ (soul_profiles (st_db st))); reflexivity.
Qed.

(** What a run of the handler logs, and the analysis its answer rests on. *)
Lemma analyze_trace (now : Z) (body : analyze_body) (st : state) :
  ((nonempty (ab_userId body) = None \/
    exists userId,
      nonempty (ab_userId body) = Some userId /\
      forall u, In u (users (st_db st)) -> u_id u <> userId) /\
   new_events st (snd (analyze now body st)) = [] /\
   forall m d, fst (analyze now body st) <> Ok (Success m d)) \/
  exists userId r evs,
    nonempty (ab_userId body) = Some userId /\
    let aiPrompt := user_prompt (st_db st) userId in
    (forall st1, analysis_from_ai (profile_reply aiPrompt) st1
                 = (r, add_events evs st1)) /\
    parse_logs evs /\
    match r with
    | Ok a =>
      exists tail,
        new_events st (snd (analyze now body st))
        = profile_call_events aiPrompt ++ evs ++ keyword_events a ++ tail /\
        Forall (fun ev => is_keyword_call ev = false) tail /\
        forall m d,
          fst (analyze now body st) = Ok (Success m d) ->
          Success m d
          = analyze_success now userId (st_db st) (profile_reply aiPrompt)
              (completed (recent_moments (st_db st) userId)
                         (ab_userData body) a)
    | Throw _ => False
    | Unmodelled =>
      new_events st (snd (analyze now body st))
      = profile_call_events aiPrompt ++ evs
    end.
Proof.
  rewrite analyze_run.
  destruct (nonempty (ab_userId body)) as [userId|] eqn:Hu;
    [|left; split; [now left|]; split; [|intros; discriminate];
      apply new_events_of_trace; cbn [snd]; now rewrite app_nil_r].
  destruct (first_row_filter_cases (fun u => str_eqb (u_id u) userId)
              (users (st_db st))) as [[u [-> _]] | [-> Hnone]];
    [|left; split; [right; exists userId; split; [reflexivity|];
                    intros u Hin; apply str_eqb_neq; now apply Hnone|];
      split; [|intros; discriminate];
      apply new_events_of_trace; cbn [snd]; now rewrite app_nil_r].
  right. rewrite analyze_user_run. cbv zeta.
  destruct (analysis_from_ai_logs
              (profile_reply (user_prompt (st_db st) userId)))
    as [r [evs [Hrun [Hnothrow Hlogs]]]].
  exists userId, r, evs. split; [reflexivity|]. split; [exact Hrun|].
  split; [exact Hlogs|].
  rewrite Hrun, add_events_app.
  destruct r as [a|e|].
  - rewrite add_events_app.
    match goal with
    | |- context [save_profile ?n ?u ?pd ?s] =>
      pose proof (save_profile_trace n u pd s) as Ht;
      destruct (save_profile n u pd s) as [[[]|e|] st4]
    end; cbn [snd fst add_events st_trace] in *.
    + exists []. split; [|split].
      * apply new_events_of_trace. rewrite Ht, <- !app_assoc, app_nil_r.
        reflexivity.
      * constructor.
      * intros m d H. injection H as <- <-. reflexivity.
    + exists [LogRouteFailed e]. split; [|split].
      * apply new_events_of_trace. unfold add_events at 1. cbn [st_trace].
        rewrite Ht, <- !app_assoc. reflexivity.
      * repeat constructor.
      * intros m d H. discriminate.
    + exists []. split; [|split].
      * apply new_events_of_trace. rewrite Ht, <- !app_assoc, app_nil_r.
        reflexivity.
      * constructor.
      * intros m d H. discriminate.
  - exact (Hnothrow e eq_refl).
  - apply new_events_of_trace. reflexivity.
Qed.


End Fallback.

(* ===================================================================== *)
(** * When the keyword helpers run *)
(* ===================================================================== *)

Section KeywordFallback.

Context {P : Platform}.




(** The replies that leave every field of the analysis empty. *)
Lemma analysis_from_ai_empty (reply : jsval) (st1 : state) :
  (reply = JNull \/
   exists s, reply = JStr s /\
     (regex_search lbrace rbrace s = None \/
      exists m, regex_search lbrace rbrace s = Some m /\
                (JSON_parse m = None \/ JSON_parse m = Some (JObj [])))) ->
  fst (analysis_from_ai reply st1) = Ok no_analysis.
Proof.
  intros [-> | [s [-> H]]]; [reflexivity|].
  unfold analysis_from_ai. destruct (truthy (JStr s)); [|reflexivity].
  unfold js_match, parse_json. run.
  destruct H as [-> | [m [-> [-> | ->]]]]; reflexivity.
Qed.


End KeywordFallback.

(* ===================================================================== *)
(** * Runs on the example platform *)
(* ===================================================================== *)



(** The model service is down: three default templates. *)
Lemma generate_falls_back_to_templates_witness :
  exists data,
    fst (generate (P := offline) 9
           {| g_content := Some (js "咖啡"); g_type := Some (js "bio") |}
           Demo.start)
    = Ok (Success None data) /\
    length (gd_suggestions data) = 3 /\
    gd_suggestions data
    = templates bio (js "咖啡") (Demo.uuid 0) (Demo.uuid 1) (Demo.uuid 2).
Proof.
  destruct (generate_falls_back_to_templates (P := offline) 9
              {| g_content := Some (js "咖啡"); g_type := Some (js "bio") |}
              Demo.start (content := js "咖啡") (type := js "bio") (t := bio))
    as [data [H1 [_ [_ [_ [H5 [H6 _]]]]]]].
  - reflexivity.
  - reflexivity.
  - vm_compute. reflexivity.
  - left. reflexivity.
  - exists data. repeat split; assumption.
Defined.

(** A reply with text around the array: the array is cut out and used. *)
Lemma generate_extracts_first_to_last_bracket_witness :
  regex_search lbracket rbracket (jsq "Sure: [{`text`: `hi [there]`}] Enjoy!")
  = first_to_last lbracket rbracket
      (jsq "Sure: [{`text`: `hi [there]`}] Enjoy!") /\
  first_to_last lbracket rbracket (jsq "Sure: [{`text`: `hi [there]`}] Enjoy!")
  = Some (jsq "[{`text`: `hi [there]`}]").
Proof.
  destruct (generate_extracts_first_to_last_bracket
              (P := replying (jsq "Sure: [{`text`: `hi [there]`}] Enjoy!")) 9
              {| g_content := Some (js "咖啡"); g_type := Some (js "bio") |}
              Demo.start (content := js "咖啡") (type := js "bio") (t := bio)
              (s := jsq "Sure: [{`text`: `hi [there]`}] Enjoy!"))
    as [H _].
  - reflexivity.
  - reflexivity.
  - vm_compute. reflexivity.
  - reflexivity.
  - exact Json_parse_array.
  - split; [exact H|]. vm_compute. reflexivity.
Defined.








Lemma forallb_In {A} (p : A -> bool) (l : list A) :
  forallb p l = true -> forall x, In x l -> p x = true.
Proof. intros H. now apply forallb_forall. Qed.

(** Alice has 21 moments; the oldest one does not count. *)
Lemma analyze_reads_twenty_most_recent_moments_witness :
  length (moments (st_db (Demo.with_moments_of_alice 21))) = 21 /\
  fst (analyze (P := offline) 30 alice_body
         (delete_moment (js "m-1") (Demo.with_moments_of_alice 21)))
  = fst (analyze (P := offline) 30 alice_body (Demo.with_moments_of_alice 21)).
Proof.
  split; [reflexivity|].
  destruct (analyze_reads_twenty_most_recent_moments (P := offline))
    as [_ H].
  destruct (H 30%Z alice_body (Demo.with_moments_of_alice 21) (js "m-1"))
    as [_ [H2 _]].
  - intros userId Hu m Hm. injection Hu as <-.
    apply str_eqb_neq.
    apply negb_true_iff.
    apply (forallb_In (fun m => negb (str_eqb (m_id m) (js "m-1")))
             (recent_moments (st_db (Demo.with_moments_of_alice 21))
                             (js "u-alice")));
      [vm_compute; reflexivity | exact Hm].
  - exact H2.
Defined.

(* ===================================================================== *)
(** * Accounts: registration followed by login *)
(* ===================================================================== *)

Section Accounts.

Context {P : Platform}.

(** Every path of /register on a request that has both fields. *)
Lemma register_run (now : Z) (body : credentials) (st : state)
    (name pw : jsstring) :
  nonempty (username body) = Some name ->
  nonempty (password body) = Some pw ->
  let id := uuid_source (st_uuids st) in
  register now body st
  = match first_row (filter (fun u => str_eqb (u_username u) name)
                            (users (st_db st))) with
    | Some _ => (Ok (Failure 409 (Fixed (js "用户名已存在")) None), st)
    | None =>
      if existsb (fun u => str_eqb (u_id u) id) (users (st_db st))
      then (Ok (Failure 500 (Fixed (js "服务器内部错误"))
                  (Some (DbError users_pkey))),
            add_events [LogRouteFailed (DbError users_pkey)] (draw st))
      else (Ok (Success (Some (js "注册成功"))
                  {| reg_userId := id; reg_username := name |}),
            with_users (registered_user now id name (bcrypt_hashSync pw 10)
                        :: users (st_db st)) (draw st))
    end.
Proof.
  intros Hn Hp id. unfold register. run.
  rewrite Hn, Hp, findByUsername_run.
  destruct (first_row_filter_cases
              (fun u => str_eqb (u_username u) name) (users (st_db st)))
    as [[u [-> _]] | [-> Hnone]]; [reflexivity|].
  unfold userOperations_create. run. cbn [st_db st_uuids]. fold id.
  destruct (existsb (fun u => str_eqb (u_id u) id) (users (st_db st)));
    [reflexivity|].
  rewrite (existsb_false _ _ Hnone). reflexivity.
Qed.

Lemma register_invalid (now : Z) (body : credentials) (st : state) :
  nonempty (username body) = None \/ nonempty (password body) = None ->
  register now body st
  = (Ok (Failure 400 (Fixed (js "用户名和密码不能为空")) None), st).
Proof.
  intros H. unfold register. run.
  destruct H as [H | H]; rewrite H; [reflexivity|].
  destruct (nonempty (username body)); reflexivity.
Qed.

(** Every path of /login. *)
Lemma login_run (body : credentials) (st : state) :
  login body st
  = (match nonempty (username body), nonempty (password body) with
     | Some name, Some pw =>
       match first_row (filter (fun u => str_eqb (u_username u) name)
                               (users (st_db st))) with
       | None => Ok (Failure 404 (Fixed (js "用户不存在")) None)
       | Some u =>
         if bcrypt_compareSync pw (u_password u)
         then Ok (Success (Some (js "登录成功"))
                    {| login_userId := u_id u;
                       login_username := u_username u;
                       login_avatar := u_avatar u; login_bio := u_bio u |})
         else Ok (Failure 401 (Fixed (js "密码错误")) None)
       end
     | _, _ => Ok (Failure 400 (Fixed (js "用户名和密码不能为空")) None)
     end, st).
Proof.
  unfold login. run.
  destruct (nonempty (username body)) as [name|]; [|reflexivity].
  destruct (nonempty (password body)) as [pw|]; [|reflexivity].
  rewrite findByUsername_run.
  destruct (first_row _) as [u|]; [|reflexivity].
  destruct (bcrypt_compareSync pw (u_password u)); reflexivity.
Qed.

(** A successful registration, read backwards. *)
Lemma register_success (now : Z) (body : credentials) (st st' : state)
    (message : option jsstring) (data : register_data) :
  register now body st = (Ok (Success message data), st') ->
  exists name pw,
    nonempty (username body) = Some name /\
    nonempty (password body) = Some pw /\
    (forall u, In u (users (st_db st)) -> u_username u <> name) /\
    (forall u, In u (users (st_db st)) ->
               u_id u <> uuid_source (st_uuids st)) /\
    data = {| reg_userId := uuid_source (st_uuids st);
              reg_username := name |} /\
    st' = with_users
            (registered_user now (uuid_source (st_uuids st)) name
               (bcrypt_hashSync pw 10) :: users (st_db st)) (draw st).
Proof.
  intros H.
  destruct (nonempty (username body)) as [name|] eqn:Hn;
    [|rewrite register_invalid in H by auto; discriminate].
  destruct (nonempty (password body)) as [pw|] eqn:Hp;
    [|rewrite register_invalid in H by auto; discriminate].
  rewrite (register_run now body st Hn Hp) in H. cbv zeta in H.
  destruct (first_row_filter_cases
              (fun u => str_eqb (u_username u) name) (users (st_db st)))
    as [[u [E _]] | [E Hnone]]; rewrite E in H; [discriminate|].
  destruct (existsb _ _) eqn:Eid in H; [discriminate|].
  injection H as _ <- <-.
  exists name, pw. repeat split; auto.
  - intros u Hu. apply str_eqb_neq. now apply Hnone.
  - intros u Hu. apply str_eqb_neq.
    now apply (existsb_false_forall _ _ Eid).
Qed.

(** X1. Whoever has just registered can log in: with the same two fields
    /login answers with the identifier and the username that /register
    returned and with the avatar and the bio that it stored; with another
    password, which bcrypt tells from the stored hash, it answers 401; and
    the answer to a login under any other username is what it was before
    the registration. *)
Theorem register_then_login (now : Z) (body : credentials) (st st' : state)
    (message : option jsstring) (data : register_data) :
  register now body st = (Ok (Success message data), st') ->
  (forall pw, bcrypt_compareSync pw (bcrypt_hashSync pw 10) = true) ->
  login body st'
  = (Ok (Success (Some (js "登录成功"))
           {| login_userId := reg_userId data;
              login_username := reg_username data;
              login_avatar :=
                js "https://api.dicebear.com/7.x/avataaars/svg?seed="
                ++ reg_userId data;
              login_bio := js "这个人很神秘，还没有填写简介..." |}), st') /\
  (forall pw wrong,
     nonempty (password body) = Some pw ->
     wrong <> [] ->
     bcrypt_compareSync wrong (bcrypt_hashSync pw 10) = false ->
     login {| username := username body; password := Some wrong |} st'
     = (Ok (Failure 401 (Fixed (js "密码错误")) None), st')) /\
  (forall other,
     nonempty (username other) <> nonempty (username body) ->
     fst (login other st') = fst (login other st)).
Proof.
  intros H Hbcrypt.
  destruct (register_success _ _ _ H)
    as (name & pw & Hn & Hp & Hfree & Hid & -> & ->).
  cbn [reg_userId reg_username].
  assert (Hfind : forall st0,
             first_row (filter (fun u => str_eqb (u_username u) name)
                          (users (st_db (with_users
                             (registered_user now (uuid_source (st_uuids st))
                                name (bcrypt_hashSync pw 10)
                              :: users (st_db st)) st0))))
             = Some (registered_user now (uuid_source (st_uuids st)) name
                       (bcrypt_hashSync pw 10))).
  { intros st0. cbn [with_users st_db users filter registered_user u_username].
    rewrite str_eqb_refl. reflexivity. }
  split; [|split].
  - rewrite login_run, Hn, Hp, Hfind. cbn [registered_user u_password].
    rewrite Hbcrypt. reflexivity.
  - intros pw0 wrong Hpw Hw Hcmp. rewrite Hp in Hpw. injection Hpw as <-.
    assert (Hw' : nonempty (Some wrong) = Some wrong)
      by (destruct wrong; [contradiction | reflexivity]).
    rewrite login_run. cbn [username password]. rewrite Hn, Hw', Hfind.
    cbn [registered_user u_password]. rewrite Hcmp. reflexivity.
  - intros other Hother. rewrite !login_run. cbn [fst].
    destruct (nonempty (username other)) as [name'|]; [|reflexivity].
    destruct (nonempty (password other)) as [pw'|]; [|reflexivity].
    cbn [with_users st_db users filter registered_user u_username].
    assert (E : str_eqb name name' = false).
    { apply str_eqb_neq. intros ->. apply Hother. now rewrite Hn. }
    rewrite E. reflexivity.
Qed.


End Accounts.

(* ===================================================================== *)
(** * Moments: keywords, the foreign key, and the list after a creation *)
(* ===================================================================== *)

Lemma fold_keywords (text : jsstring) (words acc : list jsstring) :
  fold_left (fun keywords word =>
               if includes text word then keywords ++ [word] else keywords)
            words acc
  = acc ++ filter (includes text) words.
Proof.
  revert acc. induction words as [|w ws IH]; intros acc; cbn [fold_left filter].
  - now rewrite app_nil_r.
  - rewrite IH. destruct (includes text w); [|reflexivity].
    now rewrite <- app_assoc.
Qed.

Lemma NoDup_filter {A} (p : A -> bool) (l : list A) :
  NoDup l -> NoDup (filter p l).
Proof.
  induction 1 as [|x l Hx Hl IH]; cbn [filter]; [constructor|].
  destruct (p x); [|exact IH].
  constructor; [|exact IH]. intros H. apply filter_In in H. tauto.
Qed.

Lemma NoDup_firstn {A} (n : nat) (l : list A) : NoDup l -> NoDup (firstn n l).
Proof.
  intros H. revert n. induction H as [|x l Hx Hl IH]; intros [|n];
    cbn [firstn]; try constructor.
  - intros Hin. apply Hx. rewrite <- (firstn_skipn n l).
    apply in_or_app. now left.
  - apply IH.
Qed.

Lemma In_firstn {A} (n : nat) (l : list A) (x : A) :
  In x (firstn n l) -> In x l.
Proof.
  intros H. rewrite <- (firstn_skipn n l). apply in_or_app. now left.
Qed.

Lemma extractKeywords_filter (text : jsstring) :
  extractKeywords text = firstn 5 (filter (includes text) interestWords).
Proof. unfold extractKeywords. now rewrite fold_keywords. Qed.

Lemma extractKeywords_words (text w : jsstring) :
  In w (extractKeywords text) -> In w interestWords.
Proof.
  rewrite extractKeywords_filter. intros H.
  apply In_firstn, filter_In in H. tauto.
Qed.

(** X3. [extractKeywords] returns the interest words that occur in the
    text, in the order of the dictionary and each once, cut after the
    fifth: at most five words, each of the dictionary and a substring of the
    text, and a word of the dictionary that occurs in the text is left out
    only when five words that come before it were found. *)
Theorem extractKeywords_finds_dictionary_words (text : jsstring) :
  extractKeywords text = firstn 5 (filter (includes text) interestWords) /\
  length (extractKeywords text) <= 5 /\
  NoDup (extractKeywords text) /\
  (forall w, In w (extractKeywords text) ->
             In w interestWords /\ substring_of w text) /\
  (forall before w after,
     interestWords = before ++ w :: after ->
     substring_of w text ->
     In w (extractKeywords text) \/
     extractKeywords text = firstn 5 (filter (includes text) before)).
Proof.
  pose proof (extractKeywords_filter text) as E.
  split; [exact E|]. rewrite E. split; [apply firstn_le_length|].
  split; [|split].
  - apply NoDup_firstn, NoDup_filter, nodupb_NoDup. vm_compute. reflexivity.
  - intros w Hw. apply In_firstn, filter_In in Hw. destruct Hw as [Hw Hi].
    split; [exact Hw | now apply includes_spec].
  - intros before w after -> Hsub.
    rewrite filter_app. cbn [filter].
    apply includes_spec in Hsub. rewrite Hsub.
    destruct (Nat.le_gt_cases 5 (length (filter (includes text) before)))
      as [Hfull | Hroom].
    + right. rewrite firstn_app.
      replace (5 - length (filter (includes text) before)) with 0 by lia.
      cbn [firstn]. now rewrite app_nil_r.
    + left. rewrite firstn_app. apply in_or_app. right.
      destruct (5 - length (filter (includes text) before)) as [|k] eqn:Ek;
        [lia|]. now left.
Qed.

(** The listing of a user after the insertion of a row that is more recent
    than the moments the user had. *)
Lemma recent_moments_cons (d : database) (row : moment_row)
    (userId : jsstring) :
  m_user_id row = userId ->
  (forall m, In m (moments d) -> m_user_id m = userId ->
             (m_created_at m < m_created_at row)%Z) ->
  recent_moments {| users := users d; soul_profiles := soul_profiles d;
                    moments := row :: moments d;
                    interactions := interactions d |} userId
  = row :: firstn 19 (recent_moments d userId).
Proof.
  intros Hu Hclock. unfold recent_moments. cbn [moments filter].
  rewrite Hu, str_eqb_refl.
  change (order_by_desc m_created_at (?x :: ?l))
    with (insert_desc m_created_at x (order_by_desc m_created_at l)).
  rewrite insert_desc_head.
  - change (firstn 20 (?x :: ?l)) with (x :: firstn 19 l).
    f_equal. rewrite firstn_firstn. reflexivity.
  - intros z Hz.
    apply (Permutation_in _ (order_by_desc_perm m_created_at _)) in Hz.
    apply filter_In in Hz. destruct Hz as [Hz Hzu].
    apply Hclock; [exact Hz | now apply str_eqb_eq].
Qed.

Section MomentsMore.

Context {P : Platform}.

(** X4. /moments/create does not look the user up: for a [userId] that no
    row of [users] carries, the INSERT breaks the foreign key of [moments]
    and the route answers 500, not 404; no moment is stored, though an
    identifier was drawn and both keyword helpers ran. *)
Theorem moment_of_unknown_user_is_refused (now : Z) (body : moment_body)
    (st : state) (userId content : jsstring) :
  nonempty (mb_userId body) = Some userId ->
  nonempty (mb_content body) = Some content ->
  (forall u, In u (users (st_db st)) -> u_id u <> userId) ->
  (forall m, In m (moments (st_db st)) ->
             m_id m <> uuid_source (st_uuids st)) ->
  let out := moments_create now body st in
  fst out = Ok (Failure 500 (Fixed (js "服务器内部错误"))
                  (Some (DbError moments_user_id_fkey))) /\
  st_db (snd out) = st_db st /\
  st_uuids (snd out) = S (st_uuids st) /\
  new_events st (snd out)
  = [CallAnalyzeSentiment; CallExtractKeywords;
     LogRouteFailed (DbError moments_user_id_fkey)].
Proof.
  intros Hu Hc Hno Hfresh out. unfold out.
  rewrite (moments_create_run now body st Hu Hc). cbv zeta.
  rewrite existsb_false by (intros m Hm; apply str_eqb_neq; auto).
  rewrite existsb_false by (intros u Hx; apply str_eqb_neq; auto).
  cbn [negb fst snd add_events st_db st_uuids st_trace].
  repeat split; try reflexivity.
  apply new_events_of_trace. cbn [add_events st_trace].
  now rewrite <- app_assoc.
Qed.

(** X5. A moment that was just created is the first that
    [momentOperations.findByUserId] returns for its user, as long as the
    clock has passed the moments this user had: it carries the content, the
    sentiment and the keywords of the request, the rest of the list is the
    19 most recent of the earlier moments, and what is listed for another
    user has not changed. *)
Theorem created_moment_is_listed_first (now : Z) (body : moment_body)
    (st : state) (message : option jsstring) (id userId content : jsstring) :
  fst (moments_create now body st) = Ok (Success message id) ->
  nonempty (mb_userId body) = Some userId ->
  nonempty (mb_content body) = Some content ->
  (forall m, In m (moments (st_db st)) -> m_user_id m = userId ->
             (m_created_at m < now)%Z) ->
  let st' := snd (moments_create now body st) in
  momentOperations_findByUserId userId st'
  = (Ok (created_moment now id userId content (mb_contentType body)
         :: firstn 19 (recent_moments (st_db st) userId)), st') /\
  m_sentiment (created_moment now id userId content (mb_contentType body))
  = sentiment_name (analyzeSentiment content) /\
  m_keywords (created_moment now id userId content (mb_contentType body))
  = extractKeywords content /\
  (forall other, other <> userId ->
     momentOperations_findByUserId other st'
     = (Ok (recent_moments (st_db st) other), st')).
Proof.
  intros H Hu Hc Hclock st'. unfold st'. clear st'. revert H.
  rewrite (moments_create_run now body st Hu Hc). cbv zeta.
  destruct (existsb _ (moments (st_db st))); [discriminate|].
  destruct (negb _); [discriminate|].
  cbn [fst snd]. intros H. injection H as _ <-.
  rewrite !moments_findByUserId_run.
  split; [|split; [reflexivity | split; [reflexivity|]]].
  - f_equal. f_equal. cbn [st_db]. now apply recent_moments_cons.
  - intros other Hother. intros. rewrite moments_findByUserId_run.
    f_equal. f_equal. unfold recent_moments. cbn [st_db moments filter].
    cbn [created_moment m_user_id].
    assert (E : str_eqb userId other = false)
      by (apply str_eqb_neq; congruence).
    now rewrite E.
Qed.

End MomentsMore.

(* ===================================================================== *)
(** * What the routes do to the database *)
(* ===================================================================== *)

Section Frames.

Context {P : Platform}.

Lemma keeps_db_ret {A} (a : A) : keeps_db (ret a).
Proof. intros st. reflexivity. Qed.

Lemma keeps_db_throw {A} (e : error) : keeps_db (@throw A e).
Proof. intros st. reflexivity. Qed.

Lemma keeps_db_unmodelled {A} : keeps_db (@unmodelled A).
Proof. intros st. reflexivity. Qed.

Lemma keeps_db_lift_option {A} (o : option A) (e : error) :
  keeps_db (lift_option o e).
Proof. destruct o; intros st; reflexivity. Qed.

Lemma keeps_db_emit (ev : event) : keeps_db (emit ev).
Proof. intros st. reflexivity. Qed.

Lemma keeps_db_uuidv4 : keeps_db uuidv4.
Proof. intros st. reflexivity. Qed.

Lemma keeps_db_push (s : jsval) : keeps_db (push s).
Proof. intros st. reflexivity. Qed.

Lemma keeps_db_new_suggestions : keeps_db new_suggestions.
Proof. intros st. reflexivity. Qed.

Lemma keeps_db_get_suggestions : keeps_db get_suggestions.
Proof. intros st. reflexivity. Qed.

Lemma keeps_db_get_db : keeps_db get_db.
Proof. intros st. reflexivity. Qed.

Lemma keeps_db_bind {A B} (m : M A) (k : A -> M B) :
  keeps_db m -> (forall a, keeps_db (k a)) -> keeps_db (bind m k).
Proof.
  intros Hm Hk st. rewrite bind_run. specialize (Hm st).
  destruct (m st) as [[a|e|] st1]; cbn [snd] in *; [|exact Hm..].
  now rewrite Hk.
Qed.

Lemma keeps_db_try_catch {A} (m : M A) (h : error -> M A) :
  keeps_db m -> (forall e, keeps_db (h e)) -> keeps_db (try_catch m h).
Proof.
  intros Hm Hh st. rewrite try_catch_run. specialize (Hm st).
  destruct (m st) as [[a|e|] st1]; cbn [snd] in *; [exact Hm| |exact Hm].
  now rewrite Hh.
Qed.

End Frames.

Create HintDb frames discriminated.

#[export] Hint Resolve keeps_db_ret keeps_db_throw keeps_db_unmodelled
  keeps_db_lift_option keeps_db_emit keeps_db_uuidv4 keeps_db_push
  keeps_db_new_suggestions keeps_db_get_suggestions keeps_db_get_db : frames.

(** A handler built from pieces that keep the database keeps it. *)
Ltac frame :=
  repeat first
    [ progress auto with frames
    | apply keeps_db_bind; [|intros ?]
    | apply keeps_db_try_catch; [|intros ?]
    | match goal with
      | |- keeps_db (match ?x with _ => _ end) => destruct x
      | |- keeps_db (if ?b then _ else _) => destruct b
      end ].

Section ReadOnly.

Context {P : Platform} {J : Stringify} {D : Driver}.

Lemma keeps_db_callAIModel_assistant (prompt : jsstring) (temperature : Q) :
  keeps_db (callAIModel_assistant prompt temperature).
Proof. unfold callAIModel_assistant. frame. Qed.

Lemma keeps_db_with_ids (items : list jsval) : keeps_db (with_ids items).
Proof. induction items; cbn [with_ids]; frame. Qed.

Lemma keeps_db_from_ai_array (aiPrompt : jsstring) (temperature : Q) :
  keeps_db
    (aiResponse <- callAIModel_assistant aiPrompt temperature ;;
     jsonMatch <- js_match lbracket rbracket aiResponse ;;
     match jsonMatch with
     | Some text =>
       parsedData <- parse_json text ;;
       array_map_with_ids parsedData
     | None => throw (Error (js "AI返回格式异常"))
     end).
Proof.
  apply keeps_db_bind; [apply keeps_db_callAIModel_assistant | intros v].
  unfold js_match, parse_json, array_map_with_ids.
  frame; apply keeps_db_with_ids.
Qed.

Lemma keeps_db_generate (now : Z) (body : generate_body) :
  keeps_db (generate now body).
Proof.
  unfold generate. apply keeps_db_try_catch; [|intros e; frame].
  destruct (nonempty (g_content body)); [|frame].
  destruct (nonempty (g_type body)); [|frame].
  destruct (gen_type_of _); [|frame].
  apply keeps_db_bind; [|intros x; frame].
  apply keeps_db_try_catch; [apply keeps_db_from_ai_array|].
  intros e. unfold default_templates. frame.
Qed.

Lemma keeps_db_comment (now : Z) (body : comment_body) :
  keeps_db (comment now body).
Proof.
  unfold comment. apply keeps_db_try_catch; [|intros e; frame].
  destruct (nonempty (c_momentContent body)); [|frame].
  apply keeps_db_bind; [|intros x; frame].
  apply keeps_db_try_catch; [apply keeps_db_from_ai_array|].
  intros e. unfold default_comments. frame.
Qed.

Lemma keeps_db_js_includes (v : jsval) (x : jsstring) :
  keeps_db (js_includes v x).
Proof. unfold js_includes. frame. Qed.

Lemma keeps_db_forEach {A} (f : A -> M unit) (l : list A) :
  (forall x, keeps_db (f x)) -> keeps_db (forEach f l).
Proof. intros Hf. induction l; cbn [forEach]; frame; auto. Qed.

Lemma keeps_db_push_topic (topic : jsval) : keeps_db (push_topic topic).
Proof. unfold push_topic, getTopicIcon. frame. Qed.

Lemma keeps_db_map_content (messages : list jsval) :
  keeps_db (map_content messages).
Proof. induction messages; cbn [map_content]; frame. Qed.

Lemma keeps_db_suggest (now : Z) (random : Q) (conversation : jsval) :
  keeps_db (suggest now random conversation).
Proof.
  unfold suggest. apply keeps_db_try_catch; [|intros e; frame].
  destruct conversation; try solve [frame].
  apply keeps_db_bind; [apply keeps_db_map_content | intros contents].
  apply keeps_db_bind; [unfold array_join; frame | intros text].
  apply keeps_db_bind; [frame | intros _].
  apply keeps_db_bind.
  { apply keeps_db_try_catch.
    - unfold suggest_from_ai.
      apply keeps_db_bind; [apply keeps_db_callAIModel_assistant | intros v].
      unfold js_match, parse_json.
      frame; try apply keeps_db_forEach; try apply keeps_db_push_topic.
    - intros e. apply keeps_db_bind; [frame | intros _].
      unfold default_suggestions.
      frame; apply keeps_db_js_includes. }
  intros _.
  apply keeps_db_bind; [apply keeps_db_js_includes | intros fullwidth].
  apply keeps_db_bind.
  { destruct fullwidth; [frame | apply keeps_db_js_includes]. }
  intros question. frame.
Qed.

Lemma keeps_db_map_rows {A B} (f : A -> M B) (rows : list A) :
  (forall x, keeps_db (f x)) -> keeps_db (map_rows f rows).
Proof. intros Hf. induction rows; cbn [map_rows]; frame; auto. Qed.

Lemma keeps_db_moments_list (userId : option jsstring) :
  keeps_db (moments_list userId).
Proof.
  unfold moments_list, momentOperations_findByUserId,
    momentOperations_findByUserId_limit.
  frame. apply keeps_db_map_rows. intros m.
  unfold moment_view_of, parse_column, parse_json. frame.
Qed.

Lemma keeps_db_get_profile (userId : option jsstring) :
  keeps_db (get_profile userId).
Proof.
  unfold get_profile, userOperations_findById,
    soulProfileOperations_findByUserId, parse_column, parse_json.
  frame.
Qed.

Lemma keeps_db_login (body : credentials) : keeps_db (login body).
Proof. unfold login, userOperations_findByUsername. frame. Qed.

(** X6. The routes that only consult the model or read the tables leave
    the database as they found it, whatever the request and however they
    end: /assistant/generate, /assistant/suggest, /assistant/comment,
    /users/login, /moments/list and /profile/get. *)
Theorem reading_routes_keep_the_database (st : state) :
  (forall now body, st_db (snd (generate now body st)) = st_db st) /\
  (forall now random conversation,
     st_db (snd (suggest now random conversation st)) = st_db st) /\
  (forall now body, st_db (snd (comment now body st)) = st_db st) /\
  (forall body, st_db (snd (login body st)) = st_db st) /\
  (forall userId, st_db (snd (moments_list userId st)) = st_db st) /\
  (forall userId, st_db (snd (get_profile userId st)) = st_db st).
Proof.
  repeat split; intros.
  - apply keeps_db_generate.
  - apply keeps_db_suggest.
  - apply keeps_db_comment.
  - apply keeps_db_login.
  - apply keeps_db_moments_list.
  - apply keeps_db_get_profile.
Qed.

End ReadOnly.

Lemma updated_profiles_ids (now : Z) (userId : jsstring) (pd : profile_data)
    (score : Z) (rows : list profile_row) :
  map p_id (updated_profiles now userId pd score rows) = map p_id rows /\
  map p_user_id (updated_profiles now userId pd score rows)
  = map p_user_id rows.
Proof.
  unfold updated_profiles. rewrite !map_map.
  split; apply map_ext; intros p; destruct (str_eqb _ _); reflexivity.
Qed.

Lemma existsb_map_id {A} (f : A -> jsstring) (x : jsstring) (l : list A) :
  existsb (fun a => str_eqb (f a) x) l = true <-> In x (map f l).
Proof.
  rewrite existsb_exists, in_map_iff.
  split; intros [a [H1 H2]]; exists a.
  - apply str_eqb_eq in H2. auto.
  - split; [tauto|]. apply str_eqb_eq. tauto.
Qed.

Lemma not_in_map_id {A} (f : A -> jsstring) (x : jsstring) (l : list A) :
  existsb (fun a => str_eqb (f a) x) l = false -> ~ In x (map f l).
Proof.
  intros H Hin. apply existsb_map_id in Hin. congruence.
Qed.

Section Constraints.

Context {P : Platform}.

Lemma register_consistent (now : Z) (body : credentials) (st : state) :
  db_consistent (st_db st) ->
  db_consistent (st_db (snd (register now body st))).
Proof.
  intros Hd.
  destruct (nonempty (username body)) as [name|] eqn:Hn;
    [|now rewrite register_invalid by auto].
  destruct (nonempty (password body)) as [pw|] eqn:Hp;
    [|now rewrite register_invalid by auto].
  rewrite (register_run now body st Hn Hp). cbv zeta.
  destruct (first_row_filter_cases
              (fun u => str_eqb (u_username u) name) (users (st_db st)))
    as [[u [-> _]] | [-> Hnone]]; [exact Hd|].
  destruct (existsb _ _) eqn:Eid; [exact Hd|].
  destruct Hd as (H1 & H2 & H3 & H4 & H5 & H6 & H7 & H8 & H9).
  unfold db_consistent.
  cbn [snd with_users draw st_db users soul_profiles moments interactions map
       registered_user u_id u_username].
  repeat split; try assumption.
  - constructor; [now apply not_in_map_id | exact H1].
  - constructor; [|exact H2].
    apply not_in_map_id. now apply existsb_false.
  - intros p Hp'. right. now apply H7.
  - intros m Hm. right. now apply H8.
  - intros i Hi. right. now apply H9.
Qed.

Lemma moments_create_consistent (now : Z) (body : moment_body) (st : state) :
  db_consistent (st_db st) ->
  db_consistent (st_db (snd (moments_create now body st))).
Proof.
  intros Hd.
  destruct (nonempty (mb_userId body)) as [userId|] eqn:Hu;
    [|now rewrite moments_create_invalid by auto].
  destruct (nonempty (mb_content body)) as [content|] eqn:Hc;
    [|now rewrite moments_create_invalid by auto].
  rewrite (moments_create_run now body st Hu Hc). cbv zeta.
  destruct (existsb _ (moments (st_db st))) eqn:Eid; [exact Hd|].
  destruct (existsb _ (users (st_db st))) eqn:Eu; cbn [negb]; [|exact Hd].
  destruct Hd as (H1 & H2 & H3 & H4 & H5 & H6 & H7 & H8 & H9).
  unfold db_consistent.
  cbn [snd st_db users soul_profiles moments interactions map
       created_moment m_id m_user_id].
  repeat split; try assumption.
  - constructor; [now apply not_in_map_id | exact H5].
  - intros m [<- | Hm]; [|now apply H8].
    cbn [m_user_id]. now apply existsb_map_id.
Qed.

Lemma save_profile_consistent (now : Z) (userId : jsstring)
    (pd : profile_data) (st : state) :
  db_consistent (st_db st) ->
  db_consistent (st_db (snd (save_profile now userId pd st))).
Proof.
  intros Hd. rewrite save_profile_run.
  destruct (first_row _) as [p|].
  - destruct (pd_match_score pd) as [score|]; [|exact Hd].
    destruct Hd as (H1 & H2 & H3 & H4 & H5 & H6 & H7 & H8 & H9).
    destruct (updated_profiles_ids now userId pd score
                (soul_profiles (st_db st))) as [Eid Euser].
    unfold db_consistent.
    cbn [snd set_profiles st_db users soul_profiles moments interactions].
    rewrite Eid, Euser. repeat split; try assumption.
    intros q Hq. apply (in_map p_user_id) in Hq. rewrite Euser in Hq.
    apply in_map_iff in Hq. destruct Hq as [q' [<- Hq']]. now apply H7.
  - cbv zeta.
    destruct (existsb (fun p => str_eqb (p_id p) _) _) eqn:Eid; [exact Hd|].
    destruct (existsb _ (users (st_db st))) eqn:Eu; cbn [negb]; [|exact Hd].
    destruct (existsb (fun p => str_eqb (p_user_id p) _) _) eqn:Ek;
      [exact Hd|].
    destruct Hd as (H1 & H2 & H3 & H4 & H5 & H6 & H7 & H8 & H9).
    unfold db_consistent.
    cbn [snd set_profiles draw st_db users soul_profiles moments interactions
         map new_profile_row p_id p_user_id].
    repeat split; try assumption.
    + constructor; [now apply not_in_map_id | exact H3].
    + constructor; [now apply not_in_map_id | exact H4].
    + intros q [<- | Hq]; [|now apply H7].
      cbn [p_user_id]. now apply existsb_map_id.
Qed.

Lemma analyze_consistent (now : Z) (body : analyze_body) (st : state) :
  db_consistent (st_db st) ->
  db_consistent (st_db (snd (analyze now body st))).
Proof.
  intros Hd.
  destruct (analyze_effect now body st)
    as [[-> _] | (userId & a & E & _ & H)]; [exact Hd|].
  cbv zeta in H. destruct H as [-> _].
  now apply save_profile_consistent.
Qed.

(** X7. The routes that write keep every constraint that [initDatabase]
    declares: if identifiers are unique in each table, usernames are
    unique, no user has two soul profiles, and every profile, moment and
    interaction belongs to a registered user, then the same holds after
    /users/register, /moments/create and /profile/analyze, whatever the
    request and however the route ends. *)
Theorem writing_routes_keep_the_constraints (st : state) :
  db_consistent (st_db st) ->
  (forall now body, db_consistent (st_db (snd (register now body st)))) /\
  (forall now body,
     db_consistent (st_db (snd (moments_create now body st)))) /\
  (forall now body, db_consistent (st_db (snd (analyze now body st)))).
Proof.
  intros Hd. split; [|split]; intros.
  - now apply register_consistent.
  - now apply moments_create_consistent.
  - now apply analyze_consistent.
Qed.

End Constraints.

(* ===================================================================== *)
(** * /assistant/generate and /assistant/comment *)
(* ===================================================================== *)

Section Comment.

Context {P : Platform} {J : Stringify}.

(** Every path of /comment on a request that has a content. *)
Lemma comment_run (now : Z) (body : comment_body) (st : state)
    (momentContent : jsstring) :
  nonempty (c_momentContent body) = Some momentContent ->
  let req := comment_request momentContent (c_authorProfile body) in
  let default e pre :=
    (comment_success now
       (comment_templates momentContent (uuid_source (st_uuids st))
          (uuid_source (S (st_uuids st)))
          (uuid_source (S (S (st_uuids st))))),
     advance 3 (pre ++ [LogAIParseFailed e]) st) in
  comment now body st
  = match ai_service req with
    | None =>
      default (Error (js "AI生成服务暂时不可用，请稍后重试"))
              [CallAI req; LogAICallFailed]
    | Some (JStr s) =>
      match regex_search lbracket rbracket s with
      | None => default (Error (js "AI返回格式异常")) [CallAI req]
      | Some m =>
        match JSON_parse m with
        | None => default SyntaxError [CallAI req]
        | Some (JArr items) =>
          (comment_success now (tag_from (st_uuids st) items),
           advance (length items) [CallAI req] st)
        | Some _ => default TypeError [CallAI req]
        end
      end
    | Some _ => default TypeError [CallAI req]
    end.
Proof.
  intros Hc req default.
  unfold comment. rewrite Hc.
  unfold comments_from_ai, callAIModel_assistant, default_comments,
    js_match, parse_json, array_map_with_ids.
  fold (comment_request momentContent (c_authorProfile body)). fold req. run.
  unfold default, comment_success, advance.
  destruct (ai_service req) as [v|].
  - destruct v as [| |b|q|s|items|fields];
      cbn [st_db st_uuids st_trace st_suggestions]; rewrite <- ?app_assoc;
      try reflexivity.
    destruct (regex_search lbracket rbracket s) as [m|];
      cbn [st_db st_uuids st_trace st_suggestions]; rewrite <- ?app_assoc;
      try reflexivity.
    destruct (JSON_parse m) as [v|];
      cbn [st_db st_uuids st_trace st_suggestions]; rewrite <- ?app_assoc;
      try reflexivity.
    destruct v as [| |b|q|s'|items|fields];
      cbn [st_db st_uuids st_trace st_suggestions]; rewrite <- ?app_assoc;
      try reflexivity.
    rewrite with_ids_run. reflexivity.
  - cbn [st_db st_uuids st_trace st_suggestions]. rewrite <- ?app_assoc.
    reflexivity.
Qed.

Lemma comment_invalid (now : Z) (body : comment_body) (st : state) :
  nonempty (c_momentContent body) = None ->
  comment now body st
  = (Ok (Failure 400 (Fixed (js "缺少必要参数：momentContent")) None), st).
Proof. intros H. unfold comment. rewrite H. reflexivity. Qed.

Lemma generate_invalid (now : Z) (body : generate_body) (st : state) :
  nonempty (g_content body) = None \/ nonempty (g_type body) = None ->
  generate now body st
  = (Ok (Failure 400 (Fixed (js "缺少必要参数：content 和 type")) None), st).
Proof.
  intros H. unfold generate. run.
  destruct H as [H | H]; rewrite H; [reflexivity|].
  destruct (nonempty (g_content body)); reflexivity.
Qed.

Lemma gen_type_of_supported (type : jsstring) :
  gen_type_of type <> None <-> In type supported_types.
Proof.
  unfold gen_type_of, supported_types. cbn [In].
  destruct (str_eqb type (js "moment")) eqn:E1;
    [apply str_eqb_eq in E1; split; [auto | discriminate]|].
  destruct (str_eqb type (js "icebreaker")) eqn:E2;
    [apply str_eqb_eq in E2; split; [auto | discriminate]|].
  destruct (str_eqb type (js "bio")) eqn:E3;
    [apply str_eqb_eq in E3; split; [auto | discriminate]|].
  apply str_eqb_neq in E1, E2, E3.
  split; [congruence|]. intros [H | [H | [H | []]]]; congruence.
Qed.

(** X8. /assistant/generate and /assistant/comment answer 400 or 200 and
    nothing else. /generate answers 400 when [content] or [type] is missing
    or empty and when [type] is not exactly one of moment, icebreaker and
    bio; /comment answers 400 when [momentContent] is missing or empty. A
    400 comes before anything else happens: the model is not called, no
    identifier is drawn and nothing is logged. Every other request gets a
    200 that echoes its fields, after exactly one call of the model, whose
    failure never surfaces as a 500. *)
Theorem generate_and_comment_answer_200_or_400 (now : Z) (st : state) :
  (forall body,
     (nonempty (g_content body) = None \/ nonempty (g_type body) = None) ->
     generate now body st
     = (Ok (Failure 400 (Fixed (js "缺少必要参数：content 和 type")) None), st)) /\
  (forall body content type,
     nonempty (g_content body) = Some content ->
     nonempty (g_type body) = Some type ->
     ~ In type supported_types ->
     generate now body st
     = (Ok (Failure 400
              (Fixed (js "不支持的生成类型，请选择：moment、icebreaker 或 bio"))
              None), st)) /\
  (forall body content type,
     nonempty (g_content body) = Some content ->
     nonempty (g_type body) = Some type ->
     In type supported_types ->
     exists t suggestions,
       gen_type_of type = Some t /\
       fst (generate now body st)
       = generate_success now content type suggestions /\
       filter (fun ev => match ev with CallAI _ => true | _ => false end)
              (new_events st (snd (generate now body st)))
       = [CallAI (generate_request t content)]) /\
  (forall body,
     nonempty (c_momentContent body) = None ->
     comment now body st
     = (Ok (Failure 400 (Fixed (js "缺少必要参数：momentContent")) None), st)) /\
  (forall body momentContent,
     nonempty (c_momentContent body) = Some momentContent ->
     exists comments,
       fst (comment now body st) = comment_success now comments /\
       filter (fun ev => match ev with CallAI _ => true | _ => false end)
              (new_events st (snd (comment now body st)))
       = [CallAI (comment_request momentContent (c_authorProfile body))]).
Proof.
  split; [|split; [|split; [|split]]].
  - intros body H. now apply generate_invalid.
  - intros body content type Hc Ht Hno. unfold generate. run.
    rewrite Hc, Ht.
    destruct (gen_type_of type) eqn:E; [|reflexivity].
    exfalso. apply Hno. apply gen_type_of_supported. congruence.
  - intros body content type Hc Ht Hin.
    apply gen_type_of_supported in Hin.
    destruct (gen_type_of type) as [t|] eqn:Hg; [|congruence].
    exists t. rewrite (generate_run now body st Hc Ht Hg). cbv zeta.
    destruct (ai_service _) as [[| |b|q|s|items|fields]|];
      try (eexists; split; [reflexivity|]; split; [reflexivity|];
           cbn [snd]; rewrite new_events_advance; reflexivity).
    destruct (regex_search _ _ s) as [m|];
      try (eexists; split; [reflexivity|]; split; [reflexivity|];
           cbn [snd]; rewrite new_events_advance; reflexivity).
    destruct (JSON_parse m) as [[| |b|q|s'|items|fields]|];
      eexists; (split; [reflexivity|]); (split; [reflexivity|]);
      cbn [snd]; rewrite new_events_advance; reflexivity.
  - intros body H. now apply comment_invalid.
  - intros body momentContent Hc.
    rewrite (comment_run now body st Hc). cbv zeta.
    destruct (ai_service _) as [[| |b|q|s|items|fields]|];
      try (eexists; split; [reflexivity|];
           cbn [snd]; rewrite new_events_advance; reflexivity).
    destruct (regex_search _ _ s) as [m|];
      try (eexists; split; [reflexivity|];
           cbn [snd]; rewrite new_events_advance; reflexivity).
    destruct (JSON_parse m) as [[| |b|q|s'|items|fields]|];
      eexists; (split; [reflexivity|]);
      cbn [snd]; rewrite new_events_advance; reflexivity.
Qed.

End Comment.

Section ModelIds.

Context {P : Platform}.

Lemma tag_from_nth (items : list jsval) (k i : nat) :
  nth_error (tag_from k items) i
  = option_map
      (fun item => JObj ((js "id", JStr (uuid_source (i + k))) :: spread item))
      (nth_error items i).
Proof.
  revert k i. induction items as [|x items IH]; intros k i.
  - destruct i; reflexivity.
  - destruct i as [|i]; cbn [tag_from nth_error option_map]; [reflexivity|].
    rewrite IH. now rewrite Nat.add_succ_r.
Qed.

Lemma tag_from_length (items : list jsval) (k : nat) :
  length (tag_from k items) = length items.
Proof.
  revert k. induction items as [|x items IH]; intros k; cbn [tag_from length];
    [reflexivity | now rewrite IH].
Qed.

Lemma lookup_field_first (key k : jsstring) (v : jsval)
    (fields : list (jsstring * jsval)) :
  lookup_field key ((k, v) :: fields)
  = match lookup_field key fields with
    | Some w => Some w
    | None => if str_eqb k key then Some v else None
    end.
Proof. reflexivity. Qed.

(** X9. [parsedData.map(item => ({id: uuidv4(), ...item}))], which /generate
    and /comment apply to the array of the model: every element draws one
    identifier and keeps all the properties of the item it was made of, the
    spread coming after [id], so that an [id] which the item brings along
    replaces the identifier just drawn; only an item without an [id] of its
    own carries a generated one. *)
Theorem model_id_replaces_generated_id (items : list jsval) (st : state) :
  exists tagged,
    fst (with_ids items st) = Ok tagged /\
    length tagged = length items /\
    st_uuids (snd (with_ids items st)) = length items + st_uuids st /\
    forall i item,
      nth_error items i = Some item ->
      exists fields,
        nth_error tagged i = Some (JObj fields) /\
        lookup_field (js "id") fields
        = Some (match lookup_field (js "id") (spread item) with
                | Some own => own
                | None => JStr (uuid_source (i + st_uuids st))
                end) /\
        forall key, key <> js "id" ->
                    lookup_field key fields = lookup_field key (spread item).
Proof.
  rewrite with_ids_run. cbn [fst snd st_uuids].
  exists (tag_from (st_uuids st) items).
  split; [reflexivity|]. split; [apply tag_from_length|].
  split; [reflexivity|].
  intros i item Hi. rewrite tag_from_nth, Hi. cbn [option_map].
  eexists. split; [reflexivity|]. split.
  - rewrite lookup_field_first, str_eqb_refl.
    destruct (lookup_field (js "id") (spread item)); reflexivity.
  - intros key Hkey. rewrite lookup_field_first.
    destruct (lookup_field key (spread item)); [reflexivity|].
    assert (E : str_eqb (js "id") key = false)
      by (apply str_eqb_neq; congruence).
    now rewrite E.
Qed.

End ModelIds.

Section CommentFallback.

Context {P : Platform} {J : Stringify}.

Lemma comment_templates_fields (momentContent id1 id2 id3 : jsstring) :
  let comments := comment_templates momentContent id1 id2 id3 in
  map (fun c => get_prop c (js "id")) comments
  = [Some (JStr id1); Some (JStr id2); Some (JStr id3)] /\
  map (fun c => get_prop c (js "style")) comments
  = [Some (JStr (js "共鸣")); Some (JStr (js "好奇")); Some (JStr (js "鼓励"))] /\
  map (fun c => get_prop c (js "engagement")) comments
  = [Some (JStr (js "high")); Some (JStr (js "medium"));
     Some (JStr (js "medium"))] /\
  map (fun c => get_prop c (js "text")) comments
  = [Some (JStr (js "深有同感！" ++ firstn 20 momentContent
                 ++ js "...这段话说到我心里去了"));
     Some (JStr (js "看到这个很好奇，能详细说说吗？感觉背后一定有有趣的故事"));
     Some (JStr (js "很棒的分享！这个视角让我重新思考了一些事情"))].
Proof.
  cbv zeta. unfold comment_templates, item, get_prop.
  cbn [map lookup_field].
  replace (str_eqb (js "id") (js "id")) with true by reflexivity.
  replace (str_eqb (js "style") (js "id")) with false by reflexivity.
  replace (str_eqb (js "text") (js "id")) with false by reflexivity.
  replace (str_eqb (js "engagement") (js "id")) with false by reflexivity.
  replace (str_eqb (js "style") (js "style")) with true by reflexivity.
  replace (str_eqb (js "text") (js "style")) with false by reflexivity.
  replace (str_eqb (js "engagement") (js "style")) with false by reflexivity.
  replace (str_eqb (js "engagement") (js "engagement")) with true
    by reflexivity.
  replace (str_eqb (js "text") (js "text")) with true by reflexivity.
  replace (str_eqb (js "engagement") (js "text")) with false by reflexivity.
  repeat split.
Qed.

(** X10. When the model cannot be reached, or its reply holds no bracketed
    part, or that part is no JSON, /assistant/comment still answers 200
    with three comments: the styles 共鸣, 好奇 and 鼓励 with the engagements
    high, medium and medium, three identifiers drawn in a row, and fixed
    texts of which only the first quotes the moment, by its first 20 code
    units: a content of at most 20 units is quoted in full, a longer one is
    cut. *)
Theorem comment_falls_back_to_templates (now : Z) (body : comment_body)
    (st : state) (momentContent : jsstring) :
  nonempty (c_momentContent body) = Some momentContent ->
  let req := comment_request momentContent (c_authorProfile body) in
  (ai_service req = None \/
   exists s,
     ai_service req = Some (JStr s) /\
     (regex_search lbracket rbracket s = None \/
      exists m, regex_search lbracket rbracket s = Some m /\
                JSON_parse m = None)) ->
  exists comments quoted,
    fst (comment now body st) = comment_success now comments /\
    length comments = 3 /\
    map (fun c => get_prop c (js "id")) comments
    = [Some (JStr (uuid_source (st_uuids st)));
       Some (JStr (uuid_source (1 + st_uuids st)));
       Some (JStr (uuid_source (2 + st_uuids st)))] /\
    st_uuids (snd (comment now body st)) = 3 + st_uuids st /\
    map (fun c => get_prop c (js "style")) comments
    = [Some (JStr (js "共鸣")); Some (JStr (js "好奇"));
       Some (JStr (js "鼓励"))] /\
    map (fun c => get_prop c (js "engagement")) comments
    = [Some (JStr (js "high")); Some (JStr (js "medium"));
       Some (JStr (js "medium"))] /\
    map (fun c => get_prop c (js "text")) comments
    = [Some (JStr (js "深有同感！" ++ quoted ++ js "...这段话说到我心里去了"));
       Some (JStr (js "看到这个很好奇，能详细说说吗？感觉背后一定有有趣的故事"));
       Some (JStr (js "很棒的分享！这个视角让我重新思考了一些事情"))] /\
    (exists cut, momentContent = quoted ++ cut) /\
    length quoted = Nat.min 20 (length momentContent) /\
    (length momentContent <= 20 -> quoted = momentContent).
Proof.
  intros Hc req Hai.
  pose proof (comment_run now body st Hc) as Hrun. cbv zeta in Hrun.
  fold req in Hrun.
  assert (Hd : exists e pre,
             comment now body st
             = (comment_success now
                  (comment_templates momentContent (uuid_source (st_uuids st))
                     (uuid_source (S (st_uuids st)))
                     (uuid_source (S (S (st_uuids st))))),
                advance 3 (pre ++ [LogAIParseFailed e]) st)).
  { destruct Hai as [Hnone | [s [Hs [Hno | [m [Hm Hp]]]]]].
    - rewrite Hnone in Hrun. eauto.
    - rewrite Hs, Hno in Hrun. eauto.
    - rewrite Hs, Hm, Hp in Hrun. eauto. }
  destruct Hd as [e [pre Hd]]. rewrite Hd. cbn [fst snd advance st_uuids].
  destruct (comment_templates_fields momentContent (uuid_source (st_uuids st))
              (uuid_source (S (st_uuids st)))
              (uuid_source (S (S (st_uuids st)))))
    as (Hid & Hstyle & Heng & Htext).
  eexists. exists (firstn 20 momentContent).
  split; [reflexivity|]. split; [reflexivity|].
  split; [exact Hid|]. split; [reflexivity|].
  split; [exact Hstyle|]. split; [exact Heng|]. split; [exact Htext|].
  split; [|split].
  - exists (skipn 20 momentContent). symmetry. apply firstn_skipn.
  - apply length_firstn.
  - apply firstn_all2.
Qed.

End CommentFallback.

(* ===================================================================== *)
(** * /assistant/suggest: the topics of the model and the fallback *)
(* ===================================================================== *)

Section SuggestRuns.

Context {P : Platform}.

Lemma conversation_text_run (messages : list jsval) (st : state) :
  Forall message_ok messages ->
  array_join [10%N] (map (fun m => get_prop_opt m (js "content")) messages) st
  = (Ok (conversation_text messages), st).
Proof.
  intros Hok. unfold array_join, conversation_text.
  destruct (element_strings_ok Hok) as [strs ->]. reflexivity.
Qed.

(** The handler of /suggest around its inner [try]. *)
Lemma suggest_run (now : Z) (random : Q) (messages : list jsval)
    (st : state) :
  Forall message_ok messages ->
  let inner :=
    try_catch (suggest_from_ai
                 (suggest_prompt (length messages)
                    (conversation_text messages)))
      (fun aiError =>
         emit (LogAIParseFailed aiError) ;;;
         default_suggestions (length messages) (JStr (last_text messages))
           random) in
  let st0 := {| st_db := st_db st; st_uuids := st_uuids st;
                st_trace := st_trace st; st_suggestions := [] |} in
  suggest now random (JArr messages) st
  = match inner st0 with
    | (Ok _, st1) =>
      let closing := closing_suggestions (asks messages) (st_uuids st1) in
      (Ok (Success None
             {| sd_conversationLength := length messages;
                sd_suggestions := st_suggestions st1 ++ closing;
                sd_timestamp := now |}),
       {| st_db := st_db st1; st_uuids := length closing + st_uuids st1;
          st_trace := st_trace st1;
          st_suggestions := st_suggestions st1 ++ closing |})
    | (Throw e, st1) =>
      (Ok (Failure 500 (MessageOf e) None),
       add_events [LogRouteFailed e] st1)
    | (Unmodelled, st1) => (Unmodelled, st1)
    end.
Proof.
  intros Hok inner st0. unfold suggest.
  rewrite (last_message_text Hok). cbv zeta.
  rewrite try_catch_run, bind_run, (map_content_run st Hok).
  cbv iota beta.
  rewrite bind_run, (conversation_text_run st Hok). cbv iota beta.
  rewrite bind_run. unfold new_suggestions at 1. cbv iota beta.
  rewrite bind_run. fold st0. fold inner.
  destruct (inner st0) as [[[]|e|] st1]; [|reflexivity..].
  unfold js_includes, closing_suggestions, asks. run.
  destruct (includes (last_text messages) (js "？"));
    [|destruct (includes (last_text messages) (js "?"))];
    cbn [orb fst snd st_db st_uuids st_trace st_suggestions length Nat.add];
    rewrite <- ?app_assoc; reflexivity.
Qed.

Lemma get_prop_other (v : jsval) (k1 k2 : jsstring) (w : jsval) :
  get_prop v k1 = Some w -> exists w', get_prop v k2 = Some w'.
Proof. destruct v; cbn [get_prop]; try discriminate; eauto. Qed.

(** One round of the loop over the topics of the model. *)
Lemma push_topic_run (topic : jsval) (st : state) :
  topic_ok topic ->
  exists suggestion,
    push_topic topic st
    = (Ok tt, {| st_db := st_db st; st_uuids := S (st_uuids st);
                 st_trace := st_trace st;
                 st_suggestions := st_suggestions st ++ [suggestion] |}) /\
    made_of_topic topic suggestion /\
    get_prop suggestion (js "id") = Some (JStr (uuid_source (st_uuids st))).
Proof.
  intros (category & label & Hc & Hl).
  destruct (@get_prop_other topic (js "category") (js "question") category Hc)
    as [question Hq].
  unfold push_topic, getTopicIcon. run. rewrite Hc, Hl, Hq.
  cbn [st_db st_uuids st_trace st_suggestions].
  assert (Hfields : forall icon,
            let s := JObj [ (js "id", JStr (uuid_source (st_uuids st)));
                            (js "type", JStr (js "topic"));
                            (js "priority", JStr (js "high"));
                            (js "content", JStr (label ++ js "话题"));
                            (js "question", question); (js "icon", icon) ] in
            get_prop s (js "id") = Some (JStr (uuid_source (st_uuids st))) /\
            get_prop s (js "type") = Some (JStr (js "topic")) /\
            get_prop s (js "priority") = Some (JStr (js "high")) /\
            get_prop s (js "content") = Some (JStr (label ++ js "话题")) /\
            get_prop s (js "question") = Some question /\
            get_prop s (js "icon") = Some icon).
  { intros icon. repeat split. }
  destruct (assoc label iconMap) as [icon|] eqn:Ea.
  - destruct (Hfields (JStr icon)) as (H1 & H2 & H3 & H4 & H5 & H6).
    eexists. split; [reflexivity|]. split; [|exact H1].
    exists category, label. rewrite Hq.
    repeat split; try assumption.
    + intros icon' Hi. congruence.
    + intros Hn. congruence.
  - destruct (str_eqb label (js "__proto__")) eqn:Ep.
    + destruct (Hfields (JObj [])) as (H1 & H2 & H3 & H4 & H5 & H6).
      eexists. split; [reflexivity|]. split; [|exact H1].
      exists category, label. rewrite Hq.
      repeat split; try assumption; [intros icon' Hi; congruence|].
      intros _ Hno. exfalso. apply Hno. left. symmetry.
      now apply str_eqb_eq.
    + destruct (existsb (str_eqb label) prototype_functions) eqn:Ef.
      * destruct (Hfields JUndefined) as (H1 & H2 & H3 & H4 & H5 & H6).
        eexists. split; [reflexivity|]. split; [|exact H1].
        exists category, label. rewrite Hq.
        repeat split; try assumption; [intros icon' Hi; congruence|].
        intros _ Hno. exfalso. apply Hno. right.
        apply existsb_exists in Ef. destruct Ef as [x [Hx Hx']].
        apply str_eqb_eq in Hx'. now subst.
      * destruct (Hfields (JStr (js "💭"))) as (H1 & H2 & H3 & H4 & H5 & H6).
        eexists. split; [reflexivity|]. split; [|exact H1].
        exists category, label. rewrite Hq.
        repeat split; try assumption. intros icon' Hi. congruence.
Qed.

(** A topic that is [null] stops the loop after its identifier was
    drawn. *)
Lemma push_topic_fails (topic : jsval) (st : state) :
  get_prop topic (js "category") = None ->
  push_topic topic st = (Throw TypeError, draw st).
Proof. intros H. unfold push_topic. run. rewrite H. reflexivity. Qed.

Lemma ids_from_succ (k n : nat) :
  ids_from k (S n)
  = Some (JStr (uuid_source k)) :: ids_from (S k) n.
Proof.
  unfold ids_from. cbn [seq map]. rewrite Nat.add_0_r. f_equal.
  rewrite <- seq_shift, map_map. apply map_ext. intros i.
  now rewrite Nat.add_succ_r.
Qed.

(** The loop over topics that can all be turned into suggestions. *)
Lemma push_topics_run (topics : list jsval) (st : state) :
  Forall topic_ok topics ->
  exists pushed,
    forEach push_topic topics st
    = (Ok tt, {| st_db := st_db st; st_uuids := length topics + st_uuids st;
                 st_trace := st_trace st;
                 st_suggestions := st_suggestions st ++ pushed |}) /\
    Forall2 made_of_topic topics pushed /\
    map (fun s => get_prop s (js "id")) pushed
    = ids_from (st_uuids st) (length topics).
Proof.
  intros Hok. revert st. induction Hok as [|topic topics Ht Hts IH]; intros st.
  - exists []. cbn [forEach]. run. rewrite app_nil_r.
    destruct st; repeat split. constructor.
  - destruct (push_topic_run st Ht) as (s & Hrun & Hmade & Hid).
    cbn [forEach]. rewrite bind_run, Hrun.
    destruct (IH {| st_db := st_db st; st_uuids := S (st_uuids st);
                    st_trace := st_trace st;
                    st_suggestions := st_suggestions st ++ [s] |})
      as (pushed & Hrest & Hall & Hids).
    cbn [st_db st_uuids st_trace st_suggestions] in Hrest, Hids.
    exists (s :: pushed). rewrite Hrest.
    split; [|split].
    + cbn [length]. rewrite <- app_assoc, Nat.add_succ_r. reflexivity.
    + now constructor.
    + cbn [map length]. rewrite ids_from_succ, Hid, Hids. reflexivity.
Qed.

(** The loop that meets a [null] after topics it could turn into
    suggestions: these stay in the array. *)
Lemma push_topics_stop (good rest : list jsval) (bad : jsval) (st : state) :
  Forall topic_ok good ->
  get_prop bad (js "category") = None ->
  exists pushed,
    forEach push_topic (good ++ bad :: rest) st
    = (Throw TypeError,
       {| st_db := st_db st; st_uuids := S (length good + st_uuids st);
          st_trace := st_trace st;
          st_suggestions := st_suggestions st ++ pushed |}) /\
    Forall2 made_of_topic good pushed /\
    map (fun s => get_prop s (js "id")) pushed
    = ids_from (st_uuids st) (length good).
Proof.
  intros Hok Hbad. revert st.
  induction Hok as [|topic topics Ht Hts IH]; intros st.
  - exists []. cbn [forEach app]. rewrite bind_run, push_topic_fails by auto.
    rewrite app_nil_r. repeat split. constructor.
  - destruct (push_topic_run st Ht) as (s & Hrun & Hmade & Hid).
    cbn [forEach app]. rewrite bind_run, Hrun.
    destruct (IH {| st_db := st_db st; st_uuids := S (st_uuids st);
                    st_trace := st_trace st;
                    st_suggestions := st_suggestions st ++ [s] |})
      as (pushed & Hrest & Hall & Hids).
    cbn [st_db st_uuids st_trace st_suggestions] in Hrest, Hids.
    exists (s :: pushed). rewrite Hrest.
    split; [|split].
    + cbn [length]. rewrite <- app_assoc, Nat.add_succ_r. reflexivity.
    + now constructor.
    + cbn [map length]. rewrite ids_from_succ, Hid, Hids. reflexivity.
Qed.

End SuggestRuns.

Section SuggestFallback.

Context {P : Platform}.

Lemma random_topic_in (random : Q)
    (topic : jsstring * jsstring * jsstring) :
  random_topic random = Some topic -> In topic default_topics.
Proof.
  unfold random_topic. destruct (_ <? 0)%Z; [discriminate|].
  apply nth_error_In.
Qed.

(** The [catch] block of /suggest. *)
Lemma default_suggestions_run (messageCount : nat) (text : jsstring)
    (random : Q) (st : state) :
  (0 <= random)%Q -> (random < 1)%Q ->
  exists first,
    default_suggestions messageCount (JStr text) random st
    = (Ok tt, {| st_db := st_db st; st_uuids := S (st_uuids st);
                 st_trace := st_trace st;
                 st_suggestions := st_suggestions st ++ [first] |}) /\
    get_prop first (js "id") = Some (JStr (uuid_source (st_uuids st))) /\
    fallback_of messageCount text random first.
Proof.
  intros H0 H1. unfold default_suggestions, fallback_of, stage.
  destruct (Nat.ltb_spec messageCount 5) as [Hlt | Hge].
  - run. cbn [js_includes]. run.
    eexists. split; [reflexivity|]. split; [reflexivity|].
    split; [reflexivity|]. split; [|split; intros; lia].
    intros _. split; reflexivity.
  - destruct (Nat.leb_spec 5 messageCount) as [_ | Hlt]; [|lia].
    cbn [andb].
    destruct (Nat.ltb_spec messageCount 10) as [Hlt | Hge10].
    + destruct (random_topic_some H0 H1) as [[[category question] icon] Hr].
      rewrite Hr. run.
      eexists. split; [reflexivity|]. split; [reflexivity|].
      split; [reflexivity|]. split; [intros; lia|]. split; [|intros; lia].
      intros _. split; [reflexivity|].
      exists category, question, icon.
      split; [reflexivity|].
      split; [exact (@random_topic_in random _ Hr)|].
      repeat split.
    + run.
      eexists. split; [reflexivity|]. split; [reflexivity|].
      split; [reflexivity|]. split; [intros; lia|]. split; [intros; lia|].
      intros _. split; reflexivity.
Qed.

Lemma suggest_request_eq (messages : list jsval) :
  {| ai_system := systemPrompt;
     ai_user := suggest_prompt (length messages) (conversation_text messages);
     ai_temperature := (7 # 10)%Q; ai_max_tokens := 1000 |}
  = suggest_request messages.
Proof. reflexivity. Qed.

(** The [try] block of /suggest on a reply without JSON. *)
Lemma suggest_from_ai_no_json (messages : list jsval) (st : state) :
  no_json lbrace rbrace (ai_service (suggest_request messages)) ->
  exists e pre,
    suggest_from_ai
      (suggest_prompt (length messages) (conversation_text messages)) st
    = (Throw e, add_events (CallAI (suggest_request messages) :: pre) st).
Proof.
  intros Hai. unfold suggest_from_ai, callAIModel_assistant.
  rewrite suggest_request_eq. run.
  unfold add_events. cbn [st_db st_uuids st_trace st_suggestions].
  destruct Hai as [-> | [s [-> [Hno | [m [Hm Hp]]]]]].
  - exists (Error (js "AI生成服务暂时不可用，请稍后重试")), [LogAICallFailed].
    cbn [st_db st_uuids st_trace st_suggestions].
    now rewrite <- app_assoc.
  - exists (Error (js "AI返回格式异常")), []. cbn [js_match]. run.
    rewrite Hno. reflexivity.
  - exists SyntaxError, []. cbn [js_match]. run. rewrite Hm.
    unfold parse_json. rewrite Hp. reflexivity.
Qed.

(** X11. When the model gives /assistant/suggest no JSON to read, the
    answer opens with one suggestion chosen by the length of the
    conversation alone: of type [topic] below 5 messages, with an example
    that speaks of an adventure when the last message mentions 旅行; of
    type [deepening] from 5 to 9 messages, with the category, question and
    icon of the default topic that the random draw picks; of type
    [activity] from 10 messages on, with three invitations. It carries the
    first identifier drawn and is followed by the closing suggestions
    only. *)
Theorem suggest_fallback_follows_the_length (now : Z) (random : Q)
    (messages : list jsval) (st : state) :
  Forall message_ok messages ->
  (0 <= random)%Q -> (random < 1)%Q ->
  no_json lbrace rbrace (ai_service (suggest_request messages)) ->
  exists first,
    fst (suggest now random (JArr messages) st)
    = Ok (Success None
            {| sd_conversationLength := length messages;
               sd_suggestions :=
                 first :: closing_suggestions (asks messages)
                            (S (st_uuids st));
               sd_timestamp := now |}) /\
    get_prop first (js "id") = Some (JStr (uuid_source (st_uuids st))) /\
    fallback_of (length messages) (last_text messages) random first.
Proof.
  intros Hok H0 H1 Hai. rewrite (suggest_run now random st Hok). cbv zeta.
  rewrite try_catch_run.
  destruct (@suggest_from_ai_no_json messages
              {| st_db := st_db st; st_uuids := st_uuids st;
                 st_trace := st_trace st; st_suggestions := [] |} Hai)
    as (e & pre & ->).
  rewrite bind_run. unfold emit at 1. cbv iota beta.
  match goal with
  | |- context [default_suggestions _ _ _ ?s1] =>
    destruct (@default_suggestions_run (length messages)
                (last_text messages) random s1 H0 H1)
      as (first & -> & Hid & Hfb)
  end.
  cbn [fst st_suggestions st_uuids add_events app] in *.
  exists first. split; [reflexivity|]. split; assumption.
Qed.

End SuggestFallback.

Lemma map_seq_from {A} (g : nat -> A) (a b : nat) :
  map g (seq a b) = map (fun i => g (a + i)) (seq 0 b).
Proof.
  revert g a. induction b as [|b IH]; intros g a; [reflexivity|].
  cbn [seq map]. rewrite Nat.add_0_r. f_equal.
  rewrite (IH g (S a)), (IH (fun i => g (a + i)) 1).
  apply map_ext. intros i. now rewrite Nat.add_succ_r.
Qed.

Lemma ids_from_app {P : Platform} (k a b : nat) :
  ids_from k (a + b) = ids_from k a ++ ids_from (k + a) b.
Proof.
  unfold ids_from. rewrite seq_app, map_app. f_equal.
  cbn [Nat.add]. rewrite map_seq_from. apply map_ext. intros i.
  now rewrite Nat.add_assoc.
Qed.

Section SuggestTopics.

Context {P : Platform}.

(** The [try] block of /suggest once the reply of the model is parsed. *)
Lemma suggest_from_ai_parsed (messages : list jsval) (st : state)
    (s m : jsstring) (aiData topics : jsval) :
  ai_service (suggest_request messages) = Some (JStr s) ->
  regex_search lbrace rbrace s = Some m ->
  JSON_parse m = Some aiData ->
  get_prop aiData (js "topics") = Some topics ->
  suggest_from_ai
    (suggest_prompt (length messages) (conversation_text messages)) st
  = bind (match topics with
          | JArr items => forEach push_topic items
          | _ => ret tt
          end)
      (fun _ =>
         tips <- lift_option (get_prop aiData (js "tips")) TypeError ;;
         match tips with
         | JArr _ =>
           id <- uuidv4 ;;
           push (JObj [ (js "id", JStr id); (js "type", JStr (js "tip"));
                        (js "priority", JStr (js "medium"));
                        (js "content", JStr (js "对话技巧"));
                        (js "tips", tips) ])
         | _ => ret tt
         end)
      (add_events [CallAI (suggest_request messages)] st).
Proof.
  intros Hai Hm Hp Ht. unfold suggest_from_ai, callAIModel_assistant.
  rewrite suggest_request_eq, Hai.
  rewrite bind_run. unfold bind at 1, emit at 1, ret at 1.
  cbv iota beta. fold (add_events [CallAI (suggest_request messages)] st).
  rewrite bind_run. cbn [js_match]. unfold ret at 1. cbv iota beta.
  rewrite Hm. unfold parse_json. rewrite Hp.
  rewrite bind_run. unfold lift_option at 1, ret at 1. cbv iota beta.
  rewrite Ht.
  rewrite bind_run. unfold lift_option at 1, ret at 1. cbv iota beta.
  reflexivity.
Qed.

(** X12. When the reply of the model to /assistant/suggest holds a JSON
    object whose [topics] are an array of topics that are not [null], the
    answer has one suggestion per topic, in their order: of type [topic]
    and priority [high], with the category followed by 话题 as content, the
    question of the topic, and as icon the entry of [iconMap] for the
    category or 💭 when it has none. One suggestion of type [tip] with the
    [tips] of the reply follows when these are an array, then the closing
    suggestions; the identifiers are drawn in that order, no default
    suggestion is added and nothing is logged as failed. *)
Theorem suggest_turns_topics_into_suggestions (now : Z) (random : Q)
    (messages : list jsval) (st : state) (s m : jsstring)
    (aiData tips : jsval) (topics : list jsval) :
  Forall message_ok messages ->
  ai_service (suggest_request messages) = Some (JStr s) ->
  regex_search lbrace rbrace s = Some m ->
  JSON_parse m = Some aiData ->
  get_prop aiData (js "topics") = Some (JArr topics) ->
  Forall topic_ok topics ->
  get_prop aiData (js "tips") = Some tips ->
  exists pushed tip,
    let n := length pushed + length tip in
    fst (suggest now random (JArr messages) st)
    = Ok (Success None
            {| sd_conversationLength := length messages;
               sd_suggestions :=
                 pushed ++ tip
                 ++ closing_suggestions (asks messages) (n + st_uuids st);
               sd_timestamp := now |}) /\
    Forall2 made_of_topic topics pushed /\
    length tip = (if isArray tips then 1 else 0) /\
    Forall (fun t => get_prop t (js "type") = Some (JStr (js "tip")) /\
                     get_prop t (js "tips") = Some tips) tip /\
    map (fun x => get_prop x (js "id")) (pushed ++ tip)
    = ids_from (st_uuids st) n /\
    new_events st (snd (suggest now random (JArr messages) st))
    = [CallAI (suggest_request messages)].
Proof.
  intros Hok Hai Hm Hp Ht Htopics Htips.
  set (st0 := {| st_db := st_db st; st_uuids := st_uuids st;
                 st_trace := st_trace st; st_suggestions := [] |}).
  destruct (push_topics_run
              (add_events [CallAI (suggest_request messages)] st0) Htopics)
    as (pushed & Hpush & Hmade & Hids).
  cbn [add_events st0 st_db st_uuids st_trace st_suggestions app] in Hpush, Hids.
  assert (Hlen : length pushed = length topics)
    by (symmetry; eapply Forall2_length; eassumption).
  set (tip := match tips with
              | JArr _ =>
                [JObj [ (js "id",
                         JStr (uuid_source (length topics + st_uuids st)));
                        (js "type", JStr (js "tip"));
                        (js "priority", JStr (js "medium"));
                        (js "content", JStr (js "对话技巧"));
                        (js "tips", tips) ]]
              | _ => []
              end).
  assert (Hinner :
            try_catch
              (suggest_from_ai
                 (suggest_prompt (length messages)
                    (conversation_text messages)))
              (fun aiError =>
                 emit (LogAIParseFailed aiError) ;;;
                 default_suggestions (length messages)
                   (JStr (last_text messages)) random) st0
            = (Ok tt,
               {| st_db := st_db st;
                  st_uuids := length pushed + length tip + st_uuids st;
                  st_trace := st_trace st ++ [CallAI (suggest_request messages)];
                  st_suggestions := pushed ++ tip |})).
  { rewrite try_catch_run, (suggest_from_ai_parsed _ _ Hai Hm Hp Ht).
    rewrite bind_run. cbn [add_events st0 st_db st_uuids st_trace
                           st_suggestions app].
    rewrite Hpush, Htips, Hlen. unfold tip.
    destruct tips as [| |b|q|t|items|fields]; run;
      cbn [st_db st_uuids st_trace st_suggestions length];
      rewrite ?app_nil_r, ?Nat.add_0_r, ?Nat.add_1_r; reflexivity. }
  rewrite (suggest_run now random st Hok). cbv zeta. fold st0.
  rewrite Hinner. cbn [fst snd st_db st_uuids st_trace st_suggestions].
  exists pushed, tip. cbv zeta.
  split; [now rewrite <- app_assoc|]. split; [exact Hmade|].
  split; [unfold tip; now destruct tips|].
  split; [unfold tip; destruct tips; repeat constructor|].
  split.
  - rewrite map_app, ids_from_app, Hids, Hlen. f_equal.
    unfold tip. destruct tips; try reflexivity.
    cbn [map length]. unfold ids_from. cbn [seq map].
    rewrite Nat.add_0_r, Nat.add_comm. reflexivity.
  - apply new_events_of_trace. reflexivity.
Qed.

(** X13. The suggestions made before the reading of the reply fails are
    not taken back. When the [topics] of the model hold a [null] after
    topics that could be turned into suggestions, the TypeError is caught
    and logged, and the answer is still a 200: it lists the suggestions of
    those first topics, then the default suggestion for the length of the
    conversation, then the closing ones. The identifier drawn for the
    [null] is lost; the topics after it are ignored. *)
Theorem suggest_keeps_topics_pushed_before_a_failure (now : Z) (random : Q)
    (messages : list jsval) (st : state) (s m : jsstring)
    (aiData bad : jsval) (good rest : list jsval) :
  Forall message_ok messages ->
  (0 <= random)%Q -> (random < 1)%Q ->
  ai_service (suggest_request messages) = Some (JStr s) ->
  regex_search lbrace rbrace s = Some m ->
  JSON_parse m = Some aiData ->
  get_prop aiData (js "topics") = Some (JArr (good ++ bad :: rest)) ->
  Forall topic_ok good ->
  get_prop bad (js "category") = None ->
  exists pushed first,
    fst (suggest now random (JArr messages) st)
    = Ok (Success None
            {| sd_conversationLength := length messages;
               sd_suggestions :=
                 pushed
                 ++ (first :: closing_suggestions (asks messages)
                                (length good + 2 + st_uuids st));
               sd_timestamp := now |}) /\
    Forall2 made_of_topic good pushed /\
    map (fun x => get_prop x (js "id")) pushed
    = ids_from (st_uuids st) (length good) /\
    get_prop first (js "id")
    = Some (JStr (uuid_source (length good + 1 + st_uuids st))) /\
    fallback_of (length messages) (last_text messages) random first /\
    new_events st (snd (suggest now random (JArr messages) st))
    = [CallAI (suggest_request messages); LogAIParseFailed TypeError].
Proof.
  intros Hok H0 H1 Hai Hm Hp Ht Hgood Hbad.
  set (st0 := {| st_db := st_db st; st_uuids := st_uuids st;
                 st_trace := st_trace st; st_suggestions := [] |}).
  destruct (@push_topics_stop _ good rest bad
              (add_events [CallAI (suggest_request messages)] st0)
              Hgood Hbad) as (pushed & Hpush & Hmade & Hids).
  cbn [add_events st0 st_db st_uuids st_trace st_suggestions app]
    in Hpush, Hids.
  destruct (@default_suggestions_run _ (length messages) (last_text messages)
              random
              {| st_db := st_db st;
                 st_uuids := S (length good + st_uuids st);
                 st_trace := (st_trace st
                              ++ [CallAI (suggest_request messages)])
                             ++ [LogAIParseFailed TypeError];
                 st_suggestions := pushed |} H0 H1)
    as (first & Hdef & Hid & Hfb).
  cbn [st_db st_uuids st_trace st_suggestions] in Hdef, Hid.
  assert (Hinner :
            try_catch
              (suggest_from_ai
                 (suggest_prompt (length messages)
                    (conversation_text messages)))
              (fun aiError =>
                 emit (LogAIParseFailed aiError) ;;;
                 default_suggestions (length messages)
                   (JStr (last_text messages)) random) st0
            = (Ok tt,
               {| st_db := st_db st;
                  st_uuids := S (S (length good + st_uuids st));
                  st_trace := (st_trace st
                               ++ [CallAI (suggest_request messages)])
                              ++ [LogAIParseFailed TypeError];
                  st_suggestions := pushed ++ [first] |})).
  { rewrite try_catch_run, (suggest_from_ai_parsed _ _ Hai Hm Hp Ht).
    rewrite bind_run. cbn [add_events st0 st_db st_uuids st_trace
                           st_suggestions app].
    rewrite Hpush. rewrite bind_run. unfold emit at 1. cbv iota beta.
    cbn [st_db st_uuids st_trace st_suggestions].
    exact Hdef. }
  rewrite (suggest_run now random st Hok). cbv zeta. fold st0.
  rewrite Hinner. cbn [fst snd st_db st_uuids st_trace st_suggestions].
  exists pushed, first.
  split.
  { rewrite <- app_assoc. cbn [app].
    replace (length good + 2 + st_uuids st)
      with (S (S (length good + st_uuids st))) by lia.
    reflexivity. }
  split; [exact Hmade|]. split; [exact Hids|].
  split.
  { rewrite Hid. do 3 f_equal. lia. }
  split; [exact Hfb|].
  apply new_events_of_trace. now rewrite <- app_assoc.
Qed.

End SuggestTopics.

(* ===================================================================== *)
(** * /profile/analyze: statuses, counts and the shape of the profile *)
(* ===================================================================== *)


Section AnalyzeMore.

Context {P : Platform}.

(** A successful answer of /analyze, read backwards. *)
Lemma analyze_success_inv (now : Z) (body : analyze_body) (st : state)
    (message : option jsstring) (data : analyze_data) :
  fst (analyze now body st) = Ok (Success message data) ->
  exists userId a,
    nonempty (ab_userId body) = Some userId /\
    (forall st1,
       fst (analysis_from_ai
              (profile_reply (user_prompt (st_db st) userId)) st1) = Ok a) /\
    Success message data
    = analyze_success now userId (st_db st)
        (profile_reply (user_prompt (st_db st) userId))
        (completed (recent_moments (st_db st) userId) (ab_userData body) a).
Proof.
  intros H.
  destruct (analyze_trace now body st)
    as [(_ & _ & Hno) | (userId & r & evs & Hu & Hrun & _ & Hr)].
  - exfalso. now apply (Hno message data).
  - cbv zeta in Hrun, Hr. destruct r as [a|e|]; [|contradiction|].
    + destruct Hr as (tail & _ & _ & Hs).
      exists userId, a. split; [exact Hu|].
      split; [intros st1; now rewrite Hrun | now apply Hs].
    + exfalso. revert H. rewrite analyze_run, Hu.
      destruct (first_row _); [|discriminate].
      rewrite analyze_user_run. cbv zeta. rewrite Hrun. discriminate.
Qed.

Lemma recent_moments_length (d : database) (userId : jsstring) :
  length (recent_moments d userId)
  = Nat.min 20 (length (filter (fun m => str_eqb (m_user_id m) userId)
                               (moments d))).
Proof.
  unfold recent_moments. rewrite length_firstn.
  now rewrite (Permutation_length (order_by_desc_perm m_created_at _)).
Qed.

Lemma recent_interactions_length (d : database) (userId : jsstring) :
  length (recent_interactions d userId)
  = Nat.min 50 (length (filter (fun i => str_eqb (i_user_id i) userId)
                               (interactions d))).
Proof.
  unfold recent_interactions. rewrite length_firstn.
  now rewrite (Permutation_length (order_by_desc_perm i_created_at _)).
Qed.

(** X14. The [analysis] block of a successful answer of /profile/analyze:
    [momentCount] is the number of moments of the user, but never more than
    20, and [interactionCount] the number of interactions of the user, but
    never more than 50, since both are lengths of the limited queries.
    [aiEnhanced] only tells whether the call of the model returned
    something: it is false exactly when the call failed or returned [null],
    and true even for a reply in which no JSON object is found, when the
    whole profile comes from the keyword helpers. *)
Theorem analyze_reports_capped_counts (now : Z) (body : analyze_body)
    (st : state) (message : option jsstring) (data : analyze_data) :
  fst (analyze now body st) = Ok (Success message data) ->
  let userId := ad_userId data in
  let reply := ai_service (profile_request (user_prompt (st_db st) userId)) in
  nonempty (ab_userId body) = Some userId /\
  ad_momentCount data
  = Nat.min 20 (length (filter (fun m => str_eqb (m_user_id m) userId)
                               (moments (st_db st)))) /\
  ad_interactionCount data
  = Nat.min 50 (length (filter (fun i => str_eqb (i_user_id i) userId)
                               (interactions (st_db st)))) /\
  (ad_aiEnhanced data = false <-> reply = None \/ reply = Some JNull) /\
  (forall s,
     reply = Some (JStr s) -> regex_search lbrace rbrace s = None ->
     ad_aiEnhanced data = true /\
     ad_profile data
     = view_of (completed (recent_moments (st_db st) userId)
                          (ab_userData body) no_analysis)).
Proof.
  intros H.
  destruct (analyze_success_inv _ _ _ H) as (userId & a & Hu & Ha & Hs).
  unfold analyze_success in Hs. injection Hs as -> ->.
  cbn [ad_userId ad_momentCount ad_interactionCount ad_aiEnhanced ad_profile].
  split; [exact Hu|].
  split; [apply recent_moments_length|].
  split; [apply recent_interactions_length|].
  unfold profile_reply in *.
  split.
  - destruct (ai_service _) as [[| |b|q|s|items|fields]|]; cbn;
      split; try discriminate; auto; intros [H1 | H1]; discriminate.
  - intros s Hs Hno. rewrite Hs in *. split; [reflexivity|].
    f_equal. f_equal.
    assert (E : fst (analysis_from_ai (JStr s) st) = Ok no_analysis)
      by (apply analysis_from_ai_empty; right; exists s; auto).
    rewrite Ha in E. congruence.
Qed.







End AnalyzeMore.

(* ===================================================================== *)
(** * /moments/list and /profile/get: JSON columns read a second time *)
(* ===================================================================== *)


Lemma minus_sign_case (c : N) (rest : jsstring) :
  c <> 45%N ->
  match c :: rest with
  | 45%N :: r => (true, r)
  | _ => (false, c :: rest)
  end = (false, c :: rest).
Proof.
  intros H. destruct c as [|p]; [reflexivity|].
  destruct p as [p|p|]; try reflexivity.
  destruct p as [p|p|]; try reflexivity.
  destruct p as [p|p|]; try reflexivity.
  destruct p as [p|p|]; try reflexivity.
  destruct p as [p|p|]; try reflexivity.
  destruct p as [p|p|]; try reflexivity.
  now contradiction H.
Qed.

Lemma Json_parse_non_ascii (c : N) (rest : jsstring) :
  (128 <= c)%N -> Json.parse (c :: rest) = None.
Proof.
  intros Hc. unfold Json.parse.
  assert (Hfuel : exists f, 2 * length (c :: rest) + 2 = S f)
    by (cbn [length Nat.mul Nat.add]; eauto).
  destruct Hfuel as [f ->].
  assert (Hne : forall k, (k < 128)%N -> (c =? k)%N = false)
    by (intros k Hk; apply N.eqb_neq; lia).
  assert (Hne' : forall k, (k < 128)%N -> (k =? c)%N = false)
    by (intros k Hk; apply N.eqb_neq; lia).
  assert (Hws : Json.is_ws c = false).
  { unfold Json.is_ws. now rewrite !Hne by reflexivity. }
  assert (Hdigit : Json.is_digit c = false).
  { unfold Json.is_digit. apply andb_false_iff. right. apply N.leb_gt. lia. }
  cbn [Json.parse_value Json.skip_ws]. rewrite Hws.
  rewrite !Hne by reflexivity.
  replace (js "true") with [116; 114; 117; 101]%N by reflexivity.
  replace (js "false") with [102; 97; 108; 115; 101]%N by reflexivity.
  replace (js "null") with [110; 117; 108; 108]%N by reflexivity.
  cbn [startsWith]. rewrite !Hne' by reflexivity. cbn [andb].
  unfold Json.parse_number. rewrite minus_sign_case by lia.
  cbn [Json.digits]. rewrite Hdigit. reflexivity.
Qed.

Section JsonColumns.

Context {P : Platform}.

Lemma ToString_strings (l : list jsstring) :
  ToString (JArr (map JStr l)) = Some (join (js ",") l).
Proof.
  cbn [ToString].
  match goal with
  | |- option_map _ (?f (map JStr l)) = _ =>
    assert (E : f (map JStr l) = Some l)
  end.
  { induction l as [|x l IH]; [reflexivity|].
    cbn [map]. rewrite IH. reflexivity. }
  rewrite E. reflexivity.
Qed.


(** A column that the driver hands over as an array is joined with commas
    before [JSON.parse] reads it. *)
Lemma parse_column_strings (l : list jsstring) (st : state) :
  parse_column (JArr (map JStr l)) st
  = (match JSON_parse (join (js ",") l) with
     | Some v => Ok v
     | None => Throw SyntaxError
     end, st).
Proof.
  unfold parse_column, parse_json. cbn [js_or truthy].
  rewrite ToString_strings. run.
  destruct (JSON_parse _); reflexivity.
Qed.


Lemma interestWords_not_ascii :
  Forall (fun w => exists c rest, w = c :: rest /\ (128 <= c)%N)
         interestWords.
Proof.
  unfold interestWords. cbn [map].
  repeat (apply Forall_cons;
          [eexists; eexists; split;
           [vm_compute; reflexivity | vm_compute; discriminate]|]).
  apply Forall_nil.
Qed.

(** The keywords of a created moment, joined with commas, are no JSON. *)
Lemma keywords_are_no_json (content : jsstring) :
  JSON_parse [] = None ->
  (forall c rest, (128 <= c)%N -> JSON_parse (c :: rest) = None) ->
  JSON_parse (join (js ",") (extractKeywords content)) = None.
Proof.
  intros Hempty Hascii.
  destruct (extractKeywords content) as [|w ws] eqn:E; [exact Hempty|].
  assert (Hw : In w interestWords).
  { apply (extractKeywords_words content). rewrite E. now left. }
  pose proof interestWords_not_ascii as Hall.
  rewrite Forall_forall in Hall.
  destruct (Hall w Hw) as (c & rest & -> & Hc).
  destruct ws; cbn [join app]; now apply Hascii.
Qed.

End JsonColumns.

Section Listing.

Context {P : Platform}.

Lemma map_rows_nil {A B} (f : A -> M B) (st : state) :
  map_rows f [] st = (Ok [], st).
Proof. reflexivity. Qed.

Lemma moments_list_first (id : jsstring) (st : state) (m : moment_row)
    (rest : list moment_row) :
  id <> [] ->
  recent_moments (st_db st) id = m :: rest ->
  JSON_parse (join (js ",") (m_keywords m)) = None ->
  moments_list (D := node_postgres) (Some id) st
  = (Ok (Failure 500 (Fixed (js "服务器内部错误")) (Some SyntaxError)),
     add_events [LogRouteFailed SyntaxError] st).
Proof.
  intros Hid Hrows Hparse. unfold moments_list.
  assert (E : nonempty (Some id) = Some id)
    by (destruct id; [contradiction | reflexivity]).
  rewrite E, try_catch_run, bind_run, moments_findByUserId_run, Hrows.
  cbv iota beta. cbn [map_rows].
  rewrite bind_run, bind_run. unfold moment_view_of at 1.
  rewrite bind_run. cbn [jsonb_strings node_postgres].
  rewrite parse_column_strings, Hparse. reflexivity.
Qed.

(** X17. GET /api/moments/list reads the [keywords] of every row with
    [JSON.parse]. A missing [userId] gets a 400, and a user without moments
    the empty list, whatever the driver does. With the driver [pg], which
    hands a JSONB column over as the array already, the array is first
    written as its elements joined by commas, and the route answers 500 as
    soon as the most recent moment has keywords that, so joined, are no
    JSON text. The moments that /moments/create stores are of that kind,
    their keywords being words of the dictionary or none: once a moment was
    created for a user, the list of that user is a 500. *)
Theorem moments_list_reads_keywords_twice (st : state) :
  (forall (D : Driver) userId,
     nonempty userId = None ->
     moments_list userId st
     = (Ok (Failure 400 (Fixed (js "缺少必要参数：userId")) None), st)) /\
  (forall (D : Driver) userId id,
     nonempty userId = Some id ->
     (forall m, In m (moments (st_db st)) -> m_user_id m <> id) ->
     moments_list userId st = (Ok (Success None []), st)) /\
  (forall id m rest,
     id <> [] ->
     recent_moments (st_db st) id = m :: rest ->
     JSON_parse (join (js ",") (m_keywords m)) = None ->
     moments_list (D := node_postgres) (Some id) st
     = (Ok (Failure 500 (Fixed (js "服务器内部错误")) (Some SyntaxError)),
        add_events [LogRouteFailed SyntaxError] st)) /\
  (JSON_parse [] = None ->
   (forall c rest, (128 <= c)%N -> JSON_parse (c :: rest) = None) ->
   forall now body message momentId userId,
     fst (moments_create now body st) = Ok (Success message momentId) ->
     nonempty (mb_userId body) = Some userId ->
     (forall m, In m (moments (st_db st)) -> m_user_id m = userId ->
                (m_created_at m < now)%Z) ->
     fst (moments_list (D := node_postgres) (Some userId)
            (snd (moments_create now body st)))
     = Ok (Failure 500 (Fixed (js "服务器内部错误")) (Some SyntaxError))).
Proof.
  split; [|split; [|split]].
  - intros D userId H. unfold moments_list. rewrite H. reflexivity.
  - intros D userId id H Hnone. unfold moments_list.
    rewrite H, try_catch_run, bind_run, moments_findByUserId_run.
    unfold recent_moments.
    replace (filter (fun m => str_eqb (m_user_id m) id) (moments (st_db st)))
      with (@nil moment_row); [reflexivity|].
    symmetry. induction (moments (st_db st)) as [|m l IH]; [reflexivity|].
    cbn [filter].
    assert (E : str_eqb (m_user_id m) id = false)
      by (apply str_eqb_neq, Hnone; now left).
    rewrite E. apply IH. intros x Hx. apply Hnone. now right.
  - intros id m rest. apply moments_list_first.
  - intros Hempty Hascii now body message momentId userId Hok Hu Hclock.
    destruct (nonempty (mb_content body)) as [content|] eqn:Hc;
      [|rewrite moments_create_invalid in Hok by auto; discriminate].
    assert (Hid : userId <> []).
    { destruct (mb_userId body) as [[|c u]|]; try discriminate.
      injection Hu as <-. discriminate. }
    revert Hok. rewrite (moments_create_run now body st Hu Hc). cbv zeta.
    destruct (existsb _ (moments (st_db st))); [discriminate|].
    destruct (negb _); [discriminate|].
    cbn [fst snd]. intros _.
    erewrite moments_list_first; [reflexivity | exact Hid | |].
    + cbn [st_db]. now apply recent_moments_cons.
    + cbn [created_moment m_keywords]. now apply keywords_are_no_json.
Qed.



End Listing.

(* ===================================================================== *)
(** * The keyword helpers of the profile router, once more *)
(* ===================================================================== *)

Lemma set_add_prefix (x : jsstring) (s : list jsstring) :
  exists l, set_add x s = s ++ l /\ forall y, In y l -> y = x /\ ~ In y s.
Proof.
  unfold set_add. destruct (existsb (str_eqb x) s) eqn:E.
  - exists []. rewrite app_nil_r. split; [reflexivity | intros y []].
  - exists [x]. split; [reflexivity|]. intros y [<- | []].
    split; [reflexivity|]. intros Hin.
    pose proof (existsb_false_forall _ _ E x Hin) as Hn.
    rewrite str_eqb_refl in Hn. discriminate.
Qed.

Lemma add_matching_prefix (dictionary : list (jsstring * list jsstring))
    (found : list jsstring) (content : jsstring) :
  exists l, add_matching dictionary found content = found ++ l /\
            forall y, In y l -> ~ In y found.
Proof.
  unfold add_matching. revert found.
  induction dictionary as [|[category keywords] dict IH]; intros found;
    cbn [fold_left fst snd].
  - exists []. rewrite app_nil_r. split; [reflexivity | intros y []].
  - destruct (some_included content keywords); [|apply IH].
    destruct (set_add_prefix category found) as (l1 & -> & H1).
    destruct (IH (found ++ l1)) as (l2 & -> & H2).
    exists (l1 ++ l2). rewrite app_assoc. split; [reflexivity|].
    intros y Hy. apply in_app_or in Hy. destruct Hy as [Hy | Hy].
    + now apply H1.
    + intros Hin. apply (H2 y Hy). apply in_or_app. now left.
Qed.

Lemma fold_add_matching_prefix (dictionary : list (jsstring * list jsstring))
    (contents : list jsstring) (found : list jsstring) :
  exists l, fold_left (add_matching dictionary) contents found = found ++ l /\
            forall y, In y l -> ~ In y found.
Proof.
  revert found. induction contents as [|c contents IH]; intros found;
    cbn [fold_left].
  - exists []. rewrite app_nil_r. split; [reflexivity | intros y []].
  - destruct (add_matching_prefix dictionary found c) as (l1 & -> & H1).
    destruct (IH (found ++ l1)) as (l2 & -> & H2).
    exists (l1 ++ l2). rewrite app_assoc. split; [reflexivity|].
    intros y Hy. apply in_app_or in Hy. destruct Hy as [Hy | Hy].
    + now apply H1.
    + intros Hin. apply (H2 y Hy). apply in_or_app. now left.
Qed.

Lemma new_Set_NoDup (l : list jsstring) : NoDup l -> new_Set l = l.
Proof.
  unfold new_Set.
  assert (H : forall acc, NoDup (acc ++ l) ->
                          fold_left (fun s x => set_add x s) l acc = acc ++ l).
  { induction l as [|x l IH]; intros acc Hnd; cbn [fold_left].
    - now rewrite app_nil_r.
    - assert (E : set_add x acc = acc ++ [x]).
      { unfold set_add. rewrite existsb_false; [reflexivity|].
        intros y Hy. apply str_eqb_neq. intros <-.
        apply NoDup_remove_2 in Hnd. apply Hnd. apply in_or_app. now left. }
      rewrite E, IH; rewrite <- app_assoc; [reflexivity | exact Hnd]. }
  intros Hnd. now apply (H []).
Qed.

Section OwnEntries.

Context {P : Platform}.

Lemma collect_own_first (dictionary : list (jsstring * list jsstring))
    (contents additional : list jsstring) :
  NoDup additional ->
  exists found,
    collect dictionary contents additional = additional ++ found /\
    forall x, In x found ->
              ~ In x additional /\ matched dictionary contents x.
Proof.
  intros Hnd. unfold collect. rewrite (new_Set_NoDup Hnd).
  destruct (fold_add_matching_prefix dictionary contents additional)
    as (found & E & Hnew).
  exists found. split; [exact E|]. intros x Hx.
  split; [now apply Hnew|].
  destruct (fold_add_matching_spec dictionary contents Hnd) as [_ Hin].
  assert (Hin' : In x (fold_left (add_matching dictionary) contents additional))
    by (rewrite E; apply in_or_app; now right).
  apply Hin in Hin'. destruct Hin' as [Hin' | Hin']; [|exact Hin'].
  now destruct (Hnew x Hx).
Qed.

(** X19. The interests and values that the caller sends in [userData] come
    first in what [extractInterests] and [analyzeValues] return, in the
    order given; the categories found in the moments follow them and share
    what is left of the 8 or 6 places. With 8 own interests, or 6 own
    values, the moments count for nothing. *)
Theorem own_entries_come_first (moments : list moment_row)
    (additional : list jsstring) :
  NoDup additional ->
  let contents := map (fun m => toLowerCase (m_content m)) moments in
  (exists found,
     extractInterests moments additional = firstn 8 (additional ++ found) /\
     forall x, In x found ->
               ~ In x additional /\ matched interestKeywords contents x) /\
  (8 <= length additional ->
   extractInterests moments additional = firstn 8 additional) /\
  (exists found,
     analyzeValues moments additional = firstn 6 (additional ++ found) /\
     forall x, In x found ->
               ~ In x additional /\ matched valueKeywords contents x) /\
  (6 <= length additional ->
   analyzeValues moments additional = firstn 6 additional).
Proof.
  intros Hnd contents.
  assert (E1 : extractInterests moments additional
               = firstn 8 (collect interestKeywords contents additional)).
  { unfold extractInterests, collect, contents.
    now rewrite <- fold_left_map_arg. }
  assert (E2 : analyzeValues moments additional
               = firstn 6 (collect valueKeywords contents additional)).
  { unfold analyzeValues, collect, contents.
    now rewrite <- fold_left_map_arg. }
  destruct (collect_own_first interestKeywords contents Hnd)
    as (found1 & C1 & H1).
  destruct (collect_own_first valueKeywords contents Hnd)
    as (found2 & C2 & H2).
  rewrite E1, E2, C1, C2.
  split; [exists found1; split; [reflexivity | exact H1]|].
  split.
  { intros Hlen. rewrite firstn_app.
    replace (8 - length additional) with 0 by lia.
    cbn [firstn]. now rewrite app_nil_r. }
  split; [exists found2; split; [reflexivity | exact H2]|].
  intros Hlen. rewrite firstn_app.
  replace (6 - length additional) with 0 by lia.
  cbn [firstn]. now rewrite app_nil_r.
Qed.

End OwnEntries.

Section DeadKeyword.

Context {P : Platform}.

Lemma technology_keywords (keywords : list jsstring) :
  In (js "科技", keywords) interestKeywords ->
  keywords = map js ["AI"; "人工智能"; "技术"; "编程"; "未来"; "科技"]%string.
Proof.
  unfold interestKeywords. cbn [In].
  intros H.
  repeat (destruct H as [H | H];
          [first [ apply (f_equal fst) in H; cbn [fst] in H;
                   vm_compute in H; discriminate
                 | apply (f_equal snd) in H; cbn [snd] in H;
                   symmetry; exact H ]|]).
  contradiction.
Qed.

(** X20. The keyword AI of the category 科技 can never be found:
    [extractInterests] searches the lower-cased content of a moment, in
    which no capital letter is left. A user gets the interest 科技 from
    the moments only through one of the five other keywords of the
    category, however often the moments speak of AI. *)
Theorem keyword_AI_never_matches :
  (forall s c, In c (toLowerCase s) -> ~ (65 <= c <= 90)%N) ->
  In (js "科技",
      map js ["AI"; "人工智能"; "技术"; "编程"; "未来"; "科技"]%string)
     interestKeywords /\
  (forall content, includes (toLowerCase content) (js "AI") = false) /\
  (forall moments additional,
     ~ In (js "科技") additional ->
     (forall m kw,
        In m moments ->
        In kw (map js ["人工智能"; "技术"; "编程"; "未来"; "科技"]%string) ->
        ~ substring_of kw (toLowerCase (m_content m))) ->
     ~ In (js "科技") (extractInterests moments additional)).
Proof.
  intros Hlower.
  assert (Hai : forall content,
             includes (toLowerCase content) (js "AI") = false).
  { intros content.
    destruct (includes (toLowerCase content) (js "AI")) eqn:E;
      [|reflexivity].
    apply includes_spec in E. destruct E as (pre & post & E).
    exfalso. apply (Hlower content 65%N); [|lia].
    rewrite E. apply in_or_app. right.
    replace (js "AI") with [65; 73]%N by reflexivity. now left. }
  split; [|split; [exact Hai|]].
  - unfold interestKeywords. cbn [In]. tauto.
  - intros moments additional Hown Hother Hin.
    assert (E : extractInterests moments additional
                = firstn 8 (collect interestKeywords
                              (map (fun m => toLowerCase (m_content m)) moments)
                              additional)).
    { unfold extractInterests, collect. now rewrite <- fold_left_map_arg. }
    rewrite E in Hin. apply In_firstn in Hin.
    apply collect_spec in Hin.
    destruct Hin as [Hin | (keywords & content & kw & Hd & Hc & Hkw & Hsub)];
      [now apply Hown|].
    apply technology_keywords in Hd. subst keywords.
    apply in_map_iff in Hc. destruct Hc as (m & <- & Hm).
    cbn [map In] in Hkw. destruct Hkw as [<- | Hkw].
    + apply includes_spec in Hsub. rewrite Hai in Hsub. discriminate.
    + apply (Hother m kw Hm); [exact Hkw | exact Hsub].
Qed.

End DeadKeyword.

Section WithoutTheModel.

Context {P : Platform}.

Lemma fallback_vector_score (interests values : list jsstring) :
  length interests <= 8 ->
  let vector := generatePersonalityVector interests values
                  (js "探索型") (js "情绪平衡") in
  map dim_score vector
  = map inject_Z
      [ (12 * Z.of_nat (length interests))%Z; 60%Z;
        if existsb (str_eqb (js "成长")) values then 88%Z else 70%Z;
        75%Z; 85%Z ] /\
  exists score,
    calculateMatchScore vector = Some score /\ (58 <= score <= 81)%Z.
Proof.
  intros Hlen. cbv zeta. unfold generatePersonalityVector.
  replace (str_eqb (js "探索型") (js "互动型")) with false by reflexivity.
  replace (str_eqb (js "情绪平衡") (js "乐观积极")) with false by reflexivity.
  replace (str_eqb (js "情绪平衡") (js "情绪平衡")) with true by reflexivity.
  destruct (existsb (str_eqb (js "成长")) values);
    remember (length interests) as n eqn:En; clear En;
    do 9 (destruct n as [|n];
          [split; [reflexivity|]; eexists;
           split; [vm_compute; reflexivity | lia]|]);
    lia.
Qed.

(** X21. Without the model the match score has little room. When the call
    of the model failed, the profile of a successful /profile/analyze has
    the vector of [generatePersonalityVector] for the default style and
    tendency: 12 points of openness for each of the at most 8 interests,
    60 of extraversion, 88 of conscientiousness when 成长 is among the
    values and 70 otherwise, 75 of agreeableness and 85 of emotional
    stability; and the match score, their rounded mean, lies between 58
    and 81. *)
Theorem match_score_without_the_model (now : Z) (body : analyze_body)
    (st : state) (message : option jsstring) (data : analyze_data) :
  fst (analyze now body st) = Ok (Success message data) ->
  ad_aiEnhanced data = false ->
  let profile := ad_profile data in
  length (pv_interests profile) <= 8 /\
  map dim_name (pv_personalityVector profile)
  = map js ["开放性"; "外向性"; "责任心"; "宜人性"; "情绪稳定性"]%string /\
  map dim_score (pv_personalityVector profile)
  = map inject_Z
      [ (12 * Z.of_nat (length (pv_interests profile)))%Z; 60%Z;
        if existsb (str_eqb (js "成长")) (pv_values profile)
        then 88%Z else 70%Z;
        75%Z; 85%Z ] /\
  exists score,
    pv_matchScore profile = Some score /\ (58 <= score <= 81)%Z.
Proof.
  intros H Hflag.
  destruct (analyze_success_inv _ _ _ H) as (userId & a & Hu & Ha & Hs).
  unfold analyze_success in Hs. injection Hs as -> ->.
  cbn [ad_aiEnhanced] in Hflag. cbn [ad_profile].
  assert (Hnull : profile_reply (user_prompt (st_db st) userId) = JNull).
  { destruct (profile_reply _); try discriminate. reflexivity. }
  specialize (Ha st). rewrite Hnull in Ha. cbn in Ha. injection Ha as <-.
  cbv zeta. unfold completed, view_of.
  cbn [an_interests an_values an_personalityVector an_communicationStyle
       an_emotionTendency no_analysis pd_interests pd_values
       pd_personality_vector pd_match_score pv_interests pv_values
       pv_personalityVector pv_matchScore].
  assert (Hlen : length (extractInterests
                           (recent_moments (st_db st) userId)
                           (additional_interests (ab_userData body))) <= 8)
    by (unfold extractInterests; apply firstn_le_length).
  split; [exact Hlen|]. split; [reflexivity|].
  now apply fallback_vector_score.
Qed.

End WithoutTheModel.

(* ===================================================================== *)
(** * Further runs on the example platform *)
(* ===================================================================== *)

(** Bob registers next to alice and logs in. *)
Lemma register_then_login_witness :
  fst (login (P := offline) bob
         (snd (register (P := offline) 5 bob Demo.with_alice)))
  = Ok (Success (Some (js "登录成功"))
          {| login_userId := Demo.uuid 1; login_username := js "bob";
             login_avatar :=
               js "https://api.dicebear.com/7.x/avataaars/svg?seed="
               ++ Demo.uuid 1;
             login_bio := js "这个人很神秘，还没有填写简介..." |}).
Proof.
  destruct (@register_then_login offline 5 bob Demo.with_alice
              (snd (register (P := offline) 5 bob Demo.with_alice))
              (Some (js "注册成功"))
              {| reg_userId := Demo.uuid 1; reg_username := js "bob" |})
    as [H _].
  - vm_compute. reflexivity.
  - intros pw. apply str_eqb_refl.
  - rewrite H. reflexivity.
Defined.

(** A moment for a user that does not exist. *)
Lemma moment_of_unknown_user_is_refused_witness :
  fst (moments_create (P := offline) 7 ghost_moment Demo.with_alice)
  = Ok (Failure 500 (Fixed (js "服务器内部错误"))
          (Some (DbError moments_user_id_fkey))) /\
  st_db (snd (moments_create (P := offline) 7 ghost_moment Demo.with_alice))
  = st_db Demo.with_alice.
Proof.
  destruct (@moment_of_unknown_user_is_refused offline 7 ghost_moment
              Demo.with_alice (js "u-ghost") (js "你好"))
    as (H1 & H2 & _).
  - reflexivity.
  - reflexivity.
  - intros u [<- | []]. vm_compute. discriminate.
  - intros m [].
  - split; assumption.
Defined.

(** Alice has two moments and adds a third. *)
Lemma created_moment_is_listed_first_witness :
  exists row rest,
    fst (momentOperations_findByUserId (js "u-alice")
           (snd (moments_create (P := offline) 7 alice_moment
                   (Demo.with_moments_of_alice 2))))
    = Ok (row :: rest) /\
    m_content row = js "周末去旅行，听音乐" /\
    m_keywords row = [js "音乐"; js "旅行"] /\
    length rest = 2.
Proof.
  destruct (@created_moment_is_listed_first offline 7 alice_moment
              (Demo.with_moments_of_alice 2) (Some (js "瞬间发布成功"))
              (Demo.uuid 1) (js "u-alice") (js "周末去旅行，听音乐"))
    as (H1 & _ & H3 & _).
  - vm_compute. reflexivity.
  - vm_compute. reflexivity.
  - vm_compute. reflexivity.
  - intros m Hm _.
    assert (H : forallb (fun m => (m_created_at m <? 7)%Z)
                  (moments (st_db (Demo.with_moments_of_alice 2))) = true)
      by (vm_compute; reflexivity).
    apply Z.ltb_lt. exact (forallb_In _ _ H m Hm).
  - eexists. eexists. rewrite H1. split; [reflexivity|].
    split; [reflexivity|]. split; [rewrite H3; vm_compute; reflexivity|].
    vm_compute. reflexivity.
Defined.

Lemma with_alice_consistent : db_consistent (st_db Demo.with_alice).
Proof.
  unfold db_consistent. cbn.
  repeat split; try (repeat constructor; simpl; tauto);
    intros x [].
Qed.

(** The constraints hold on the server with alice, and still after bob
    registered. *)
Lemma writing_routes_keep_the_constraints_witness :
  db_consistent (st_db Demo.with_alice) /\
  db_consistent (st_db (snd (register (P := offline) 5 bob Demo.with_alice))) /\
  length (users (st_db (snd (register (P := offline) 5 bob
                               Demo.with_alice)))) = 2.
Proof.
  split; [exact with_alice_consistent|].
  split; [|reflexivity].
  exact (proj1 (@writing_routes_keep_the_constraints offline Demo.with_alice
                  with_alice_consistent) 5%Z bob).
Defined.

(** An unsupported type is refused, and a comment is answered although the
    model is down. *)
Lemma generate_and_comment_answer_200_or_400_witness :
  generate (P := offline) 9
    {| g_content := Some (js "咖啡"); g_type := Some (js "poem") |} Demo.start
  = (Ok (Failure 400
           (Fixed (js "不支持的生成类型，请选择：moment、icebreaker 或 bio"))
           None), Demo.start) /\
  exists comments,
    fst (comment (P := offline) (J := braces) 9 comment_on_a_long_moment
           Demo.start)
    = comment_success 9 comments.
Proof.
  destruct (@generate_and_comment_answer_200_or_400 offline braces 9
              Demo.start) as (_ & H2 & _ & _ & H5).
  split.
  - apply (H2 _ (js "咖啡") (js "poem")).
    + vm_compute. reflexivity.
    + vm_compute. reflexivity.
    + intros [H | [H | [H | []]]]; vm_compute in H; discriminate.
  - destruct (H5 comment_on_a_long_moment
                (js "今天和朋友一起去海边看了日出，心情特别好，想永远记住这一刻"))
      as (comments & H & _).
    + vm_compute. reflexivity.
    + exists comments. exact H.
Defined.

(** An item of the model that brings its own [id] keeps it. *)
Lemma model_id_replaces_generated_id_witness :
  exists fields,
    fst (with_ids (P := offline)
           [JObj [(js "id", JStr (js "x")); (js "text", JStr (js "a"))]]
           Demo.start)
    = Ok [JObj fields] /\
    lookup_field (js "id") fields = Some (JStr (js "x")).
Proof.
  destruct (@model_id_replaces_generated_id offline
              [JObj [(js "id", JStr (js "x")); (js "text", JStr (js "a"))]]
              Demo.start) as (tagged & H1 & H2 & _ & H4).
  destruct (H4 0 _ eq_refl) as (fields & Hn & Hid & _).
  exists fields. rewrite H1.
  destruct tagged as [|x [|y tagged]]; try discriminate.
  cbn [nth_error] in Hn. injection Hn as ->.
  split; [reflexivity|]. rewrite Hid. vm_compute. reflexivity.
Defined.

(** The model is down: three comments, the first quoting 20 code units of
    a moment of 31. *)
Lemma comment_falls_back_to_templates_witness :
  exists comments quoted,
    fst (comment (P := offline) (J := braces) 9 comment_on_a_long_moment
           Demo.start)
    = comment_success 9 comments /\
    length comments = 3 /\ length quoted = 20 /\
    nth_error (map (fun c => get_prop c (js "text")) comments) 0
    = Some (Some (JStr (js "深有同感！" ++ quoted
                        ++ js "...这段话说到我心里去了"))).
Proof.
  destruct (@comment_falls_back_to_templates offline braces 9
              comment_on_a_long_moment Demo.start
              (js "今天和朋友一起去海边看了日出，心情特别好，想永远记住这一刻"))
    as (comments & quoted & H1 & H2 & _ & _ & _ & _ & H7 & _ & H9 & _).
  - vm_compute. reflexivity.
  - left. reflexivity.
  - exists comments, quoted. split; [exact H1|]. split; [exact H2|].
    split; [rewrite H9; vm_compute; reflexivity|].
    rewrite H7. reflexivity.
Defined.

Lemma six_messages_ok : Forall message_ok six_messages.
Proof.
  unfold six_messages. cbn [repeat].
  repeat (apply Forall_cons;
          [eexists; split;
           [vm_compute; reflexivity | right; eexists; reflexivity]|]).
  apply Forall_nil.
Qed.

Lemma one_message_ok : Forall message_ok one_message.
Proof.
  unfold one_message.
  repeat (apply Forall_cons;
          [eexists; split;
           [vm_compute; reflexivity | right; eexists; reflexivity]|]).
  apply Forall_nil.
Qed.

(** Six messages and no model: a suggestion of type [deepening]. *)
Lemma suggest_fallback_follows_the_length_witness :
  exists first,
    fst (suggest (P := offline) 9 (1 # 2) (JArr six_messages) Demo.start)
    = Ok (Success None
            {| sd_conversationLength := 6;
               sd_suggestions :=
                 [first; interactive_suggestion (Demo.uuid 1)];
               sd_timestamp := 9 |}) /\
    get_prop first (js "type") = Some (JStr (js "deepening")) /\
    get_prop first (js "content") = Some (JStr (js "深化对话：价值观")).
Proof.
  destruct (@suggest_fallback_follows_the_length offline 9 (1 # 2)
              six_messages Demo.start six_messages_ok)
    as (first & H1 & _ & Ht & _ & Hd & _).
  - unfold Qle. simpl. lia.
  - unfold Qlt. simpl. lia.
  - left. reflexivity.
  - exists first. split; [rewrite H1; vm_compute; reflexivity|].
    split; [exact Ht|].
    destruct Hd as (_ & category & question & icon & Hr & _ & Hc & _).
    + change (length six_messages) with 6. lia.
    + vm_compute in Hr. injection Hr as <- _ _. exact Hc.
Defined.

(** The model sends one topic and one tip. *)
Lemma suggest_turns_topics_into_suggestions_witness :
  exists pushed tip,
    fst (suggest (P := replying topics_reply) 9 (1 # 2) (JArr one_message)
           Demo.start)
    = Ok (Success None
            {| sd_conversationLength := 1;
               sd_suggestions :=
                 pushed ++ tip
                 ++ [response_suggestion (Demo.uuid 2);
                     interactive_suggestion (Demo.uuid 3)];
               sd_timestamp := 9 |}) /\
    Forall2 (made_of_topic (P := replying topics_reply)) [a_topic] pushed /\
    length tip = 1.
Proof.
  destruct (@suggest_turns_topics_into_suggestions (replying topics_reply)
              9 (1 # 2) one_message Demo.start topics_reply
              (skipn 3 topics_reply) topics_data (JArr [JStr (js "多倾听")])
              [a_topic] one_message_ok)
    as (pushed & tip & H1 & H2 & H3 & _).
  - reflexivity.
  - vm_compute. reflexivity.
  - vm_compute. reflexivity.
  - vm_compute. reflexivity.
  - apply Forall_cons; [|apply Forall_nil].
    exists (JStr (js "价值观")), (js "价值观").
    split; vm_compute; reflexivity.
  - vm_compute. reflexivity.
  - exists pushed, tip. cbv zeta in H1.
    assert (Hp : length pushed = 1)
      by (symmetry; apply (Forall2_length H2)).
    cbn [isArray] in H3.
    split; [|split; assumption].
    rewrite H1, Hp, H3. vm_compute asks. reflexivity.
Defined.

(** The model sends a topic and then [null]: the topic stays, the default
    suggestion follows. *)
Lemma suggest_keeps_topics_pushed_before_a_failure_witness :
  exists pushed first,
    fst (suggest (P := replying broken_reply) 9 (1 # 2) (JArr one_message)
           Demo.start)
    = Ok (Success None
            {| sd_conversationLength := 1;
               sd_suggestions :=
                 pushed
                 ++ [first; response_suggestion (Demo.uuid 3);
                     interactive_suggestion (Demo.uuid 4)];
               sd_timestamp := 9 |}) /\
    Forall2 (made_of_topic (P := replying broken_reply)) [a_topic] pushed /\
    get_prop first (js "type") = Some (JStr (js "topic")).
Proof.
  destruct (@suggest_keeps_topics_pushed_before_a_failure
              (replying broken_reply) 9 (1 # 2) one_message Demo.start
              broken_reply broken_reply broken_data JNull [a_topic] []
              one_message_ok)
    as (pushed & first & H1 & H2 & _ & _ & (Ht & _) & _).
  - unfold Qle. simpl. lia.
  - unfold Qlt. simpl. lia.
  - reflexivity.
  - vm_compute. reflexivity.
  - vm_compute. reflexivity.
  - vm_compute. reflexivity.
  - apply Forall_cons; [|apply Forall_nil].
    exists (JStr (js "价值观")), (js "价值观").
    split; vm_compute; reflexivity.
  - reflexivity.
  - exists pushed, first.
    split; [|split; [exact H2 | exact Ht]].
    rewrite H1. vm_compute asks. reflexivity.
Defined.

Lemma alice_analysed_21 :
  exists message data,
    fst (analyze (P := offline) 30 alice_body (Demo.with_moments_of_alice 21))
    = Ok (Success message data).
Proof. vm_compute. eauto. Qed.

Lemma alice_analysed_2 :
  exists message data,
    fst (analyze (P := offline) 30 alice_body (Demo.with_moments_of_alice 2))
    = Ok (Success message data).
Proof. vm_compute. eauto. Qed.

(** With the model down [aiEnhanced] is false. *)
Lemma offline_flag (now : Z) (body : analyze_body) (st : state)
    (message : option jsstring) (data : analyze_data) :
  fst (analyze (P := offline) now body st) = Ok (Success message data) ->
  ad_aiEnhanced data = false.
Proof.
  intros H.
  destruct (analyze_success_inv _ _ _ H) as (userId & a & _ & _ & Hs).
  unfold analyze_success in Hs. injection Hs as _ ->. reflexivity.
Qed.

(** Alice has 21 moments: 20 are counted, and the model was not there. *)
Lemma analyze_reports_capped_counts_witness :
  exists message data,
    fst (analyze (P := offline) 30 alice_body (Demo.with_moments_of_alice 21))
    = Ok (Success message data) /\
    length (moments (st_db (Demo.with_moments_of_alice 21))) = 21 /\
    ad_momentCount data = 20 /\ ad_interactionCount data = 0 /\
    ad_aiEnhanced data = false.
Proof.
  destruct alice_analysed_21 as (message & data & E).
  destruct (@analyze_reports_capped_counts offline 30 alice_body
              (Demo.with_moments_of_alice 21) message data E)
    as (Hu & Hm & Hi & Hflag & _).
  assert (Hid : ad_userId data = js "u-alice")
    by (vm_compute in Hu; injection Hu as Hu; vm_compute; now symmetry).
  rewrite Hid in Hm, Hi.
  exists message, data. split; [exact E|]. split; [reflexivity|].
  split; [rewrite Hm; vm_compute; reflexivity|].
  split; [rewrite Hi; vm_compute; reflexivity|].
  apply Hflag. left. reflexivity.
Defined.



(** Without the model the score of alice lies between 58 and 81. *)
Lemma match_score_without_the_model_witness :
  exists message data score,
    fst (analyze (P := offline) 30 alice_body (Demo.with_moments_of_alice 2))
    = Ok (Success message data) /\
    pv_matchScore (ad_profile data) = Some score /\
    (58 <= score <= 81)%Z.
Proof.
  destruct alice_analysed_2 as (message & data & E).
  destruct (@match_score_without_the_model offline 30 alice_body
              (Demo.with_moments_of_alice 2) message data E)
    as (_ & _ & _ & score & Hs & Hr).
  - exact (offline_flag _ _ _ E).
  - exists message, data, score. auto.
Defined.

(** Alice adds a moment, and her list cannot be served any more. *)
Lemma moments_list_reads_keywords_twice_witness :
  fst (moments_create (P := offline) 7 alice_moment
         (Demo.with_moments_of_alice 2))
  = Ok (Success (Some (js "瞬间发布成功")) (Demo.uuid 1)) /\
  fst (moments_list (P := offline) (D := node_postgres) (Some (js "u-alice"))
         (snd (moments_create (P := offline) 7 alice_moment
                 (Demo.with_moments_of_alice 2))))
  = Ok (Failure 500 (Fixed (js "服务器内部错误")) (Some SyntaxError)).
Proof.
  assert (E : fst (moments_create (P := offline) 7 alice_moment
                     (Demo.with_moments_of_alice 2))
              = Ok (Success (Some (js "瞬间发布成功")) (Demo.uuid 1)))
    by (vm_compute; reflexivity).
  split; [exact E|].
  destruct (@moments_list_reads_keywords_twice offline
              (Demo.with_moments_of_alice 2)) as (_ & _ & _ & H).
  apply (H eq_refl Json_parse_non_ascii 7%Z alice_moment
           (Some (js "瞬间发布成功")) (Demo.uuid 1) (js "u-alice") E).
  - vm_compute. reflexivity.
  - intros m Hm _.
    assert (Hall : forallb (fun m => (m_created_at m <? 7)%Z)
                     (moments (st_db (Demo.with_moments_of_alice 2))) = true)
      by (vm_compute; reflexivity).
    apply Z.ltb_lt. exact (forallb_In _ _ Hall m Hm).
Defined.


(** The interest that alice names herself comes before the one found in
    her moments. *)
Lemma own_entries_come_first_witness :
  exists found,
    extractInterests (P := offline) (Demo.moments_of_alice 2) [js "园艺"]
    = firstn 8 (js "园艺" :: found) /\
    extractInterests (P := offline) (Demo.moments_of_alice 2) [js "园艺"]
    = [js "园艺"; js "阅读"].
Proof.
  destruct (@own_entries_come_first offline (Demo.moments_of_alice 2)
              [js "园艺"]) as ((found & H & _) & _).
  - repeat constructor. intros [].
  - exists found. split; [exact H | vm_compute; reflexivity].
Defined.

Lemma lower_has_no_capital (s : jsstring) (c : N) :
  In c (Demo.lower s) -> ~ (65 <= c <= 90)%N.
Proof.
  unfold Demo.lower. intros H. apply in_map_iff in H.
  destruct H as (d & <- & _).
  destruct ((65 <=? d) && (d <=? 90))%N eqn:E.
  { apply andb_true_iff in E. destruct E as [E1 E2].
    apply N.leb_le in E1, E2. lia. }
  apply andb_false_iff in E. destruct E as [E | E].
  - apply N.leb_gt in E. lia.
  - apply N.leb_gt in E. lia.
Qed.

(** A moment that speaks of AI, and of nothing else, brings no interest. *)
Lemma keyword_AI_never_matches_witness :
  includes (js "I love AI") (js "AI") = true /\
  includes (toLowerCase (Platform := offline) (js "I love AI")) (js "AI")
  = false /\
  extractInterests (P := offline)
    [ {| m_id := js "m-1"; m_user_id := js "u-alice";
         m_content := js "I love AI"; m_content_type := js "text";
         m_sentiment := js "neutral"; m_keywords := [];
         m_created_at := 1 |} ] []
  = [].
Proof.
  destruct (@keyword_AI_never_matches offline lower_has_no_capital)
    as (_ & H & _).
  split; [vm_compute; reflexivity|].
  split; [apply H | vm_compute; reflexivity].
Defined.

(** Six interest words in a text: the sixth is cut. *)
Lemma extractKeywords_finds_dictionary_words_witness :
  length (extractKeywords (js "音乐电影书旅行美食运动")) <= 5 /\
  extractKeywords (js "音乐电影书旅行美食运动")
  = map js ["音乐"; "电影"; "书"; "旅行"; "美食"]%string.
Proof.
  destruct (extractKeywords_finds_dictionary_words
              (js "音乐电影书旅行美食运动")) as (H1 & H2 & _).
  split; [exact H2|]. rewrite H1. vm_compute. reflexivity.
Defined.
